(** * NHS board papers reader: text extraction and prompt assembly

    A shallow embedding of the text-processing core of [board_papers.py]
    (stage 4, [extract_pages], [find_section_starts], [extract_targeted_text],
    and the prompt-assembly loop of stage 5, [analyse_with_claude]), with the
    properties its design document states about it.

    Conventions of the embedding.
    - A Python [str] is a [string]; a character is a code point below 256
      (Latin-1), and the character classes below ([isspace], [\d], [\w],
      [lower]) are Python's on that range.
    - Page indices and page counts are [nat]; character counts are [Z].
    - A Python [dict] is an association list in insertion order whose keys
      are pairwise different; assignment to a present key replaces the value
      in place, assignment to a new key appends.
    - An opened PDF is the list of its pages; reading the text of a page
      either gives a string or raises, and the caller catches it.
    - [str.upper] can leave Latin-1 and change the length of a text, so the
      prompt-assembly loop takes it as a parameter.
    - An exception that the code catches is a case of the result; one that it
      does not catch leaves the function, and is recorded with the result.
    - [print] is modelled by appending an event to the output. *)

From Stdlib Require Import List String Ascii Bool Arith ZArith Lia.
From Stdlib Require Import DecimalString.
Import ListNotations.

Local Open Scope list_scope.
Local Open Scope string_scope.
Local Open Scope nat_scope.

(** ** Python strings *)

Module Py.

Definition code (c : ascii) : nat := nat_of_ascii c.

Definition between (lo hi : nat) (c : ascii) : bool :=
  (lo <=? code c) && (code c <=? hi).

(** [str.isspace] on one character. *)
Definition isspace (c : ascii) : bool :=
  between 9 13 c || between 28 32 c || (code c =? 133) || (code c =? 160).

(** [s.strip()] is the empty string exactly when every character of [s]
    is white space; [blank s] is [not s.strip()]. *)
Fixpoint blank (s : string) : bool :=
  match s with
  | EmptyString => true
  | String c s' => isspace c && blank s'
  end.

Definition shift_down (c : ascii) : ascii := ascii_of_nat (code c + 32).
Definition shift_up (c : ascii) : ascii := ascii_of_nat (code c - 32).

Definition lower_char (c : ascii) : ascii :=
  if between 65 90 c || between 192 214 c || between 216 222 c
  then shift_down c else c.

(** [str.upper] on one character, when the upper case is Latin-1 text: two
    letters for 223, and nothing for 181 and 255, whose upper case (code
    points 924 and 376) lies outside Latin-1. *)
Definition upper_char (c : ascii) : option string :=
  if (code c =? 181) || (code c =? 255) then None
  else if code c =? 223 then Some "SS"
  else if between 97 122 c || between 224 246 c || between 248 254 c
  then Some (String (shift_up c) EmptyString)
  else Some (String c EmptyString).

Fixpoint map_chars (f : ascii -> ascii) (s : string) : string :=
  match s with
  | EmptyString => EmptyString
  | String c s' => String (f c) (map_chars f s')
  end.

Definition lower (s : string) : string := map_chars lower_char s.

(** [s.upper()], when it is Latin-1 text. *)
Fixpoint upper (s : string) : option string :=
  match s with
  | EmptyString => Some EmptyString
  | String c s' =>
      match upper_char c, upper s' with
      | Some u, Some r => Some (u ++ r)
      | _, _ => None
      end
  end.

(** [s.replace(a, b)] for single characters [a] and [b]. *)
Definition replace_char (a b : ascii) (s : string) : string :=
  map_chars (fun c => if Ascii.eqb c a then b else c) s.

(** [s[:n]] *)
Fixpoint slice_to (n : nat) (s : string) : string :=
  match n, s with
  | S n', String c s' => String c (slice_to n' s')
  | _, _ => EmptyString
  end.

(** [len(s)] as a Python integer. *)
Definition len (s : string) : Z := Z.of_nat (String.length s).

(** [str(n)] for a natural number. *)
Definition str_of_nat (n : nat) : string :=
  NilEmpty.string_of_uint (Nat.to_uint n).

(** [int(s)] for a string of decimal digits. *)
Definition digit_value (c : ascii) : nat := code c - 48.

Fixpoint int_acc (acc : nat) (s : string) : nat :=
  match s with
  | EmptyString => acc
  | String c s' => int_acc (10 * acc + digit_value c) s'
  end.

Definition int (s : string) : nat := int_acc 0 s.

(** [sep.join(parts)] *)
Definition join (sep : string) (parts : list string) : string :=
  String.concat sep parts.

(** [range(start, stop)] *)
Definition range (start stop : nat) : list nat := seq start (stop - start).

(** [os.path.basename] (POSIX): what follows the last slash. *)
Definition is_slash (c : ascii) : bool := Ascii.eqb c "/".

Fixpoint has_slash (p : string) : bool :=
  match p with
  | EmptyString => false
  | String c p' => is_slash c || has_slash p'
  end.

Fixpoint basename (p : string) : string :=
  match p with
  | EmptyString => EmptyString
  | String c p' =>
      if has_slash p' then basename p'
      else if is_slash c then p' else p
  end.

(** *** Dictionaries *)

Definition dict (V : Type) : Type := list (string * V).

Fixpoint dict_get {V} (k : string) (d : dict V) : option V :=
  match d with
  | [] => None
  | (k', v) :: d' => if String.eqb k' k then Some v else dict_get k d'
  end.

(** [d[k] = v] *)
Fixpoint dict_set {V} (k : string) (v : V) (d : dict V) : dict V :=
  match d with
  | [] => [(k, v)]
  | (k', v') :: d' =>
      if String.eqb k' k then (k', v) :: d'
      else (k', v') :: dict_set k v d'
  end.

Definition keys {V} (d : dict V) : list string := map fst d.

End Py.

(** ** The regular expressions of [find_section_starts]

    Every pattern has the shape
    [(?:kw1|kw2|...)[^\n]{0,60}?(\d{1,3})\b].  The functions below follow the
    backtracking matcher of [re] on that shape: alternatives in order, the
    lazy gap from short to long, the digits from many to few. *)

Module Re.

Definition is_digit (c : ascii) : bool := Py.between 48 57 c.

(** [\w] on Latin-1: letters, digits, the underscore, and the Latin-1
    characters Python counts as alphanumeric. *)
Definition is_word (c : ascii) : bool :=
  Py.between 48 57 c || Py.between 65 90 c || (Py.code c =? 95)
  || Py.between 97 122 c || (Py.code c =? 170) || Py.between 178 179 c
  || (Py.code c =? 181) || Py.between 185 186 c || Py.between 188 190 c
  || Py.between 192 214 c || Py.between 216 246 c || Py.between 248 255 c.

Definition is_newline (c : ascii) : bool := Py.code c =? 10.

(** The next character, if there is one, is a word character. *)
Definition word_ahead (t : string) : bool :=
  match t with
  | EmptyString => false
  | String c _ => is_word c
  end.

(** [\b] between the character [prev] and the rest [t] of the input. *)
Definition boundary (prev : ascii) (t : string) : bool :=
  xorb (is_word prev) (word_ahead t).

(** A literal keyword at the head of the input; the result is the rest of
    the input. *)
Fixpoint literal (kw t : string) : option string :=
  match kw, t with
  | EmptyString, _ => Some t
  | String a kw', String c t' =>
      if Ascii.eqb a c then literal kw' t' else None
  | String _ _, EmptyString => None
  end.

(** [(\d{1,n})\b], greedy: after a digit, first try to take more digits;
    when that fails, stop here and test the boundary.  The result is the
    text of the group. *)
Fixpoint group (n : nat) (t : string) : option string :=
  match n, t with
  | S n', String c t' =>
      if is_digit c then
        match group n' t' with
        | Some g => Some (String c g)
        | None => if boundary c t' then Some (String c EmptyString) else None
        end
      else None
  | _, _ => None
  end.

(** [[^\n]{0,n}?] followed by the group, lazy: first try the group here;
    when that fails, skip one character that is not a newline. *)
Fixpoint lazy_gap (n : nat) (t : string) : option string :=
  match group 3 t with
  | Some g => Some g
  | None =>
      match n, t with
      | S n', String c t' => if is_newline c then None else lazy_gap n' t'
      | _, _ => None
      end
  end.

(** The whole pattern at the head of the input. *)
Fixpoint match_here (kws : list string) (t : string) : option string :=
  match kws with
  | [] => None
  | kw :: kws' =>
      match literal kw t with
      | Some t' =>
          match lazy_gap 60 t' with
          | Some g => Some g
          | None => match_here kws' t
          end
      | None => match_here kws' t
      end
  end.

(** [re.search]: the first position, from the left, where the pattern
    matches; the result is [match.group(1)]. *)
Fixpoint search (kws : list string) (t : string) : option string :=
  match match_here kws t with
  | Some g => Some g
  | None =>
      match t with
      | EmptyString => None
      | String _ t' => search kws t'
      end
  end.

End Re.

(** ** Constants *)

Definition CHARS_PER_PAGE : nat := 3000.
Definition CHAR_LIMIT : Z := 400000.

Definition nl : string := String (ascii_of_nat 10) EmptyString.

(** ** Stage 4: extract text *)

(** Reading the text of a page either returns it or raises. *)
Inductive Page : Type :=
| TextPage (text : string)
| BrokenPage.

Definition PdfDocument : Type := list Page.

(** The segment appended for page [i] with text [text]. *)
Definition page_segment (i : nat) (text : string) : string :=
  "-- Page " ++ Py.str_of_nat (i + 1) ++ " --" ++ nl
  ++ Py.slice_to CHARS_PER_PAGE text.

(** The body of the loop of [extract_pages]: what becomes of [parts] at
    index [i].  An exception raised inside [try] leaves [parts] as it is. *)
Definition extract_page (pdf : PdfDocument) (parts : list string) (i : nat)
  : list string :=
  match nth_error pdf i with
  | Some (TextPage text) =>
      if Py.blank text then parts
      else (parts ++ [page_segment i text])%list
  | Some BrokenPage => parts
  | None => parts
  end.

(** The indices the loop of [extract_pages] runs through. *)
Definition pages_visited (pdf : PdfDocument) (start end_ : nat) : list nat :=
  Py.range start (Nat.min end_ (List.length pdf)).

Definition extract_pages (pdf : PdfDocument) (start end_ : nat) : string :=
  Py.join nl (fold_left (extract_page pdf) (pages_visited pdf start end_) []).

(** The table [patterns]: for each topic, in the order of the source, the
    keywords of its regular expression; the rest of the expression,
    [[^\n]{0,60}?(\d{1,3})\b], is the same for all of them. *)
Definition patterns : list (string * list string) :=
  [ ("ceo_report",  ["chief executive"]);
    ("finance",     ["finance report"]);
    ("performance", ["integrated performance"; "ipr"; "performance report"]);
    ("quality",     ["quality"]);
    ("workforce",   ["people committee"; "workforce"]) ].

(** The body of the loop of [find_section_starts]. *)
Definition locate_section (agenda_text : string) (total_pages : nat)
  (sections : Py.dict nat) (entry : string * list string) : Py.dict nat :=
  let (name, pattern) := entry in
  match Re.search pattern (Py.lower agenda_text) with
  | Some g =>
      let page_num := Py.int g in
      if (3 <=? page_num) && (page_num <=? total_pages)
      then Py.dict_set name (page_num - 1) sections
      else sections
  | None => sections
  end.

Definition find_section_starts (agenda_text : string) (total_pages : nat)
  : Py.dict nat :=
  fold_left (locate_section agenda_text total_pages) patterns [].

(** What [extract_targeted_text] prints. *)
Inductive Event : Type :=
| Reading (label : string)
| CouldNotOpen (error : string)
| Pages (total : nat)
| SectionsFound (names : list string)
| ReadingInThirds.

(** The result of [pdfium.PdfDocument(pdf_path)]. *)
Inductive OpenResult : Type :=
| Opened (pdf : PdfDocument)
| OpenFailed (error : string).

Record State : Type := mkState {
  all_sections : Py.dict string;
  output : list Event
}.

Definition print (e : Event) (st : State) : State :=
  mkState (all_sections st) (output st ++ [e])%list.

Definition store (key text : string) (st : State) : State :=
  mkState (Py.dict_set key text (all_sections st)) (output st).

Definition section_key (label name : string) : string :=
  label ++ "__" ++ name.

(** The chunk length of the fallback. *)
Definition fallback_chunk (total : nat) : nat := Nat.max 20 (total / 3).

Section Planner.

(** The file system: what opening each path gives. *)
Variable open_pdf : string -> OpenResult.

(** The body of the loop over [sections.items()]. *)
Definition store_section (label : string) (pdf : PdfDocument) (total : nat)
  (st : State) (entry : string * nat) : State :=
  let (section_name, start) := entry in
  let text := extract_pages pdf start (Nat.min (start + 30) total) in
  store (section_key label section_name) text st.

(** The body of the loop over [pdf_paths]. *)
Definition process_pdf (st : State) (pdf_path : string) : State :=
  let label := Py.basename pdf_path in
  let st := print (Reading label) st in
  match open_pdf pdf_path with
  | OpenFailed e => print (CouldNotOpen e) st
  | Opened pdf =>
      let total := List.length pdf in
      let st := print (Pages total) st in
      let agenda := extract_pages pdf 0 (Nat.min 6 total) in
      let st := store (section_key label "agenda") agenda st in
      let sections := find_section_starts agenda total in
      match sections with
      | _ :: _ =>
          let st := print (SectionsFound (Py.keys sections)) st in
          fold_left (store_section label pdf total) sections st
      | [] =>
          let st := print ReadingInThirds st in
          let chunk := fallback_chunk total in
          let st := store (section_key label "part_1")
                          (extract_pages pdf 0 chunk) st in
          let st := store (section_key label "part_2")
                          (extract_pages pdf chunk (chunk * 2)) st in
          store (section_key label "part_3")
                (extract_pages pdf (chunk * 2) total) st
      end
  end.

Definition run_extraction (pdf_paths : list string) : State :=
  fold_left process_pdf pdf_paths (mkState [] []).

Definition extract_targeted_text (pdf_paths : list string)
  : Py.dict string :=
  all_sections (run_extraction pdf_paths).

End Planner.

(** ** Stage 5: the prompt-assembly loop of [analyse_with_claude] *)

Section Assembly.

(** [str.upper], Python's case mapping.  It is a parameter of the loop: the
    upper case of a letter may be two letters (223 gives "SS") or lie outside
    Latin-1 (181 and 255), and the loop depends on it only through the header
    it makes.  What is proved of the loop holds for every case mapping;
    [Py.upper] gives the values of [str.upper] on Latin-1 text. *)
Variable upper : string -> string.

Definition header (section : string) : string :=
  nl ++ nl ++ "=== " ++ Py.replace_char "_" " " (upper section)
  ++ " ===" ++ nl.

(** The loop, with [parts] and [total_chars] as its state.  [continue] goes
    on with the same state, [break] returns it. *)
Fixpoint assemble (limit : Z) (items : list (string * string))
  (parts : list string) (total_chars : Z) : list string * Z :=
  match items with
  | [] => (parts, total_chars)
  | (section, text) :: items' =>
      if Py.blank text then assemble limit items' parts total_chars
      else
        let header := header section in
        if (total_chars + Py.len header + Py.len text >? limit)%Z
        then (parts, total_chars)
        else assemble limit items' (parts ++ [(header ++ text)%string])%list
                      (total_chars + Py.len header + Py.len text)%Z
  end.

Definition combined_text_upto (limit : Z) (extracted : Py.dict string)
  : string :=
  Py.join "" (fst (assemble limit extracted [] 0%Z)).

Definition combined_text (extracted : Py.dict string) : string :=
  combined_text_upto CHAR_LIMIT extracted.

End Assembly.

(** [str.upper] on Latin-1 text, for the examples: the value of [Py.upper]
    where there is one.  The two letters whose upper case is outside Latin-1
    are kept in its place; their upper case is one character as well, so the
    result always has the length of Python's. *)
Fixpoint upper_latin1 (s : string) : string :=
  match s with
  | EmptyString => EmptyString
  | String c s' =>
      match Py.upper_char c with
      | Some u => u ++ upper_latin1 s'
      | None => String c (upper_latin1 s')
      end
  end.

(** ** More string operations *)

Module Str.

(** [s.startswith(prefix)] *)
Fixpoint startswith (prefix s : string) : bool :=
  match prefix, s with
  | EmptyString, _ => true
  | String a prefix', String c s' => Ascii.eqb a c && startswith prefix' s'
  | String _ _, EmptyString => false
  end.

(** [sub in s] *)
Fixpoint contains (sub s : string) : bool :=
  startswith sub s
  || match s with
     | EmptyString => false
     | String _ s' => contains sub s'
     end.

(** [s.endswith(suffix)] *)
Fixpoint endswith (suffix s : string) : bool :=
  String.eqb s suffix
  || match s with
     | EmptyString => false
     | String _ s' => endswith suffix s'
     end.

(** [s.replace(old, new)] for a non-empty [old]: from the left, each
    occurrence of [old] that does not overlap the one before is replaced.
    [skip] counts the characters of the current occurrence still to pass. *)
Fixpoint replace_from (old new : string) (skip : nat) (s : string) : string :=
  match s with
  | EmptyString => EmptyString
  | String c s' =>
      match skip with
      | S skip' => replace_from old new skip' s'
      | O =>
          if startswith old s
          then new ++ replace_from old new (String.length old - 1) s'
          else String c (replace_from old new 0 s')
      end
  end.

(** With an empty [old], [new] goes before every character and at the
    end. *)
Fixpoint intersperse (new s : string) : string :=
  match s with
  | EmptyString => new
  | String c s' => new ++ String c (intersperse new s')
  end.

Definition replace (old new s : string) : string :=
  match old with
  | EmptyString => intersperse new s
  | String _ _ => replace_from old new 0 s
  end.

(** [os.path.join(a, b)] (POSIX) *)
Definition path_join (a b : string) : string :=
  if startswith "/" b then b
  else if String.eqb a "" || endswith "/" a then a ++ b
  else a ++ "/" ++ b.

End Str.

(** ** What the stages 1 to 3 print *)

Inductive Notice : Type :=
| SearchQueryFailed (error : string)
| CouldNotFetchIndex (error : string)
| AttemptRejected (attempt status_code : nat) (size : Z)
| AttemptFailed (attempt : nat) (error : string)
| ZipDetected
| ZipContains (count : nat)
| Extracted (safe_name : string) (size : Z)
| ZipExtractionFailed
| Saved (size : Z).

Definition FALLBACK_USER_AGENTS : list string :=
  [ "Mozilla/5.0 (Windows NT 10.0; Win64; x64) AppleWebKit/537.36 "
    ++ "(KHTML, like Gecko) Chrome/121.0.0.0 Safari/537.36";
    "Mozilla/5.0 (Macintosh; Intel Mac OS X 10_15_7) AppleWebKit/537.36 "
    ++ "(KHTML, like Gecko) Chrome/121.0.0.0 Safari/537.36";
    "Mozilla/5.0 (X11; Linux x86_64) AppleWebKit/537.36 "
    ++ "(KHTML, like Gecko) Chrome/121.0.0.0 Safari/537.36" ].

Definition BOARD_PAPER_URL_KEYWORDS : list string :=
  [ "board-papers"; "board-meeting"; "board-meetings"; "boardpapers";
    "board/meetings"; "trust-board"; "board-of-directors";
    "board_papers"; "board-pack"; "governors/meetings" ].

Definition DOC_EXTENSIONS : list string := [".pdf"; ".zip"; ".docx"; ".doc"].

Definition DOC_URL_KEYWORDS : list string :=
  ["download"; "document"; "/file"; "attachment"; "board-paper"; "agenda"].

(** [any(kw in s for kw in kws)] *)
Definition any_in (kws : list string) (s : string) : bool :=
  existsb (fun kw => Str.contains kw s) kws.

(** ** Stage 1: find the board papers page *)

(** What [ddg.text(query, max_results=8)] gives: the results, each with its
    [href] when it has one, or an exception. *)
Inductive SearchReply : Type :=
| SearchResults (hrefs : list (option string))
| SearchRaised (error : string).

Definition dq : string := String (ascii_of_nat 34) EmptyString.

Definition queries (trust_name : string) : list string :=
  [ dq ++ trust_name ++ dq ++ " board papers 2025 OR 2026 site:nhs.uk";
    dq ++ trust_name ++ dq ++ " board meeting papers site:nhs.uk";
    dq ++ trust_name ++ dq ++ " NHS " ++ dq ++ "board papers" ++ dq
       ++ " site:nhs.uk";
    dq ++ trust_name ++ dq ++ " NHS board papers minutes 2026" ].

(** [r.get("href", "")] *)
Definition href_of (r : option string) : string :=
  match r with
  | Some url => url
  | None => EmptyString
  end.

Definition is_board_papers_url (url : string) : bool :=
  any_in BOARD_PAPER_URL_KEYWORDS (Py.lower url).

Section Stage1.

(** The search engine. *)
Variable ddg_text : string -> SearchReply.

(** The loop over the queries; the result and what was printed. *)
Fixpoint search_queries (qs : list string) : option string * list Notice :=
  match qs with
  | [] => (None, [])
  | query :: qs' =>
      match ddg_text query with
      | SearchResults results =>
          match find is_board_papers_url (map href_of results) with
          | Some url => (Some url, [])
          | None => search_queries qs'
          end
      | SearchRaised e =>
          let (found, printed) := search_queries qs' in
          (found, SearchQueryFailed e :: printed)
      end
  end.

Definition find_board_papers_url (trust_name : string)
  : option string * list Notice :=
  search_queries (queries trust_name).

End Stage1.

(** ** Stage 2: fetch the index and find the document links *)

(** A link of the result: [{"text": ..., "url": ...}]. *)
Record Link : Type := mkLink {
  link_text : string;
  link_url : string
}.

(** An [<a href=...>] of the page, with [a.get_text(strip=True)]. *)
Record Anchor : Type := mkAnchor {
  href : string;
  anchor_text : string
}.

(** What fetching and parsing the index page gives. *)
Inductive IndexPage : Type :=
| Fetched (anchors : list Anchor)
| FetchRaised (error : string).

Definition is_doc (href_lower : string) : bool :=
  existsb (fun ext => Str.endswith ext href_lower) DOC_EXTENSIONS
  || any_in DOC_URL_KEYWORDS href_lower.

(** [x or y] on strings. *)
Definition str_or (x y : string) : string :=
  match x with
  | EmptyString => y
  | String _ _ => x
  end.

Section Stage2.

Variable session_fetch : string -> IndexPage.
Variable urljoin : string -> string -> string.

Definition full_url_of (index_url href : string) : string :=
  if Str.startswith "http" href then href else urljoin index_url href.

(** The body of the loop over the anchors, on [links] and [seen]. *)
Definition add_anchor (index_url : string)
  (state : list Link * list string) (a : Anchor)
  : list Link * list string :=
  let (links, seen) := state in
  let text := str_or (anchor_text a) (href a) in
  let href_lower := Py.lower (href a) in
  if is_doc href_lower then
    let full_url := full_url_of index_url (href a) in
    if existsb (String.eqb full_url) seen then (links, seen)
    else ((links ++ [mkLink (Py.slice_to 120 text) full_url])%list,
          (seen ++ [full_url])%list)
  else (links, seen).

Definition get_document_links (index_url : string)
  : list Link * list Notice :=
  match session_fetch index_url with
  | FetchRaised e => ([], [CouldNotFetchIndex e])
  | Fetched anchors =>
      (fst (fold_left (add_anchor index_url) anchors ([], [])), [])
  end.

End Stage2.

Definition priority_terms : list string :=
  [ "2026"; "2025"; "january"; "february"; "march"; "april";
    "november"; "october"; "board-pack"; "combined"; "agenda" ].

Definition has_priority (link : Link) : bool :=
  let combined := Py.lower (link_text link ++ " " ++ link_url link) in
  any_in priority_terms combined.

Definition is_pdf_link (link : Link) : bool :=
  Str.contains ".pdf" (Py.lower (link_url link)).

Definition pick_best_link (links : list Link) : option string :=
  match links with
  | [] => None
  | first :: _ =>
      match find has_priority links with
      | Some link => Some (link_url link)
      | None =>
          match find is_pdf_link links with
          | Some link => Some (link_url link)
          | None => Some (link_url first)
          end
      end
  end.

(** ** Stage 3: download *)

(** What [session.get] gives: a response or an exception. *)
Inductive Reply : Type :=
| Response (status_code : nat) (content : string)
| GetRaised (error : string).

Section Stage3.

(** The server, asked for [url] with a user agent and a referer. *)
Variable session_get : string -> string -> string -> Reply.

(** The loop over [enumerate(FALLBACK_USER_AGENTS)], from index [i]. *)
Fixpoint download_attempts (url referer : string) (i : nat)
  (agents : list string) : option string * list Notice :=
  match agents with
  | [] => (None, [])
  | ua :: agents' =>
      match session_get url ua referer with
      | Response status_code content =>
          if (status_code =? 200) && (Py.len content >? 10000)%Z
          then (Some content, [])
          else
            let (result, printed) :=
              download_attempts url referer (S i) agents' in
            (result, AttemptRejected (i + 1) status_code (Py.len content)
                     :: printed)
      | GetRaised e =>
          let (result, printed) :=
            download_attempts url referer (S i) agents' in
          (result, AttemptFailed (i + 1) e :: printed)
      end
  end.

Definition download_file (url referer : string)
  : option string * list Notice :=
  download_attempts url referer 0 FALLBACK_USER_AGENTS.

End Stage3.

(** What [zf.read] does for a member of a ZIP archive: it returns the bytes,
    it raises [zipfile.BadZipFile] (a bad header or a bad checksum), or it
    raises another exception, named by [error] ([zlib.error] for a broken
    stream, [RuntimeError] for a member that needs a password,
    [NotImplementedError] for a compression method that is not supported). *)
Inductive MemberData : Type :=
| Data (bytes : string)
| Damaged
| Unreadable (error : string).

(** What [zipfile.ZipFile] does for the data: it gives the members, it raises
    [zipfile.BadZipFile], or it raises another exception
    ([NotImplementedError] for a format version that is not supported). *)
Inductive ZipArchive : Type :=
| Zip (members : list (string * MemberData))
| BadZip
| ZipRaised (error : string).

(** [zf.read(name)]: the last member of that name. *)
Definition zip_read (members : list (string * MemberData)) (name : string)
  : option MemberData :=
  fold_left (fun found m => if String.eqb (fst m) name then Some (snd m)
                            else found)
            members None.

(** The files written, the paths returned, what was printed, and the
    exception that left the call when there is one.  The only handler is
    [except zipfile.BadZipFile]: any other exception leaves
    [save_and_unpack], and no list of paths is returned then ([pdf_paths] is
    empty), while the files written before it stay written. *)
Record Unpacked : Type := mkUnpacked {
  files : Py.dict string;
  pdf_paths : list string;
  printed : list Notice;
  raised : option string
}.

Definition is_pdf_member (name : string) : bool :=
  Str.endswith ".pdf" (Py.lower name)
  && negb (Str.startswith "__MACOSX" name).

Definition safe_name_of (name : string) (extracted : nat) : string :=
  str_or (Py.basename name)
         ("extracted_" ++ Py.str_of_nat extracted ++ ".pdf").

(** The loop over [all_names].  [BadZipFile] from [zf.read] is caught: the
    failure is printed and the paths so far are returned.  Another exception
    from [zf.read] is not caught; [KeyError] is the one for a name that the
    archive does not have. *)
Fixpoint unpack_members (members : list (string * MemberData))
  (save_dir : string) (names : list string) (st : Unpacked) : Unpacked :=
  match names with
  | [] => st
  | name :: names' =>
      if is_pdf_member name then
        match zip_read members name with
        | Some (Data pdf_data) =>
            let safe_name := safe_name_of name (List.length (pdf_paths st)) in
            let out_path := Str.path_join save_dir safe_name in
            unpack_members members save_dir names'
              (mkUnpacked (Py.dict_set out_path pdf_data (files st))
                          (pdf_paths st ++ [out_path])%list
                          (printed st
                           ++ [Extracted safe_name (Py.len pdf_data)])%list
                          (raised st))
        | Some Damaged =>
            mkUnpacked (files st) (pdf_paths st)
                       (printed st ++ [ZipExtractionFailed])%list
                       (raised st)
        | Some (Unreadable error) =>
            mkUnpacked (files st) [] (printed st) (Some error)
        | None =>
            mkUnpacked (files st) [] (printed st) (Some "KeyError")
        end
      else unpack_members members save_dir names' st
  end.

Section Unpack.

(** [zipfile.ZipFile(io.BytesIO(data))] *)
Variable zip_open : string -> ZipArchive.

(** [fs] is the content of the files before the call; a write sets the
    content of its path.  Directories are not modelled ([os.makedirs] leaves
    the files as they are), and writes are taken to succeed. *)
Definition save_and_unpack (data save_dir : string) (fs : Py.dict string)
  : Unpacked :=
  if Str.startswith "PK" data then
    match zip_open data with
    | Zip members =>
        unpack_members members save_dir (map fst members)
          (mkUnpacked fs [] [ZipDetected; ZipContains (List.length members)]
                      None)
    | BadZip => mkUnpacked fs [] [ZipDetected; ZipExtractionFailed] None
    | ZipRaised error => mkUnpacked fs [] [ZipDetected] (Some error)
    end
  else
    let out_path := Str.path_join save_dir "board_papers.pdf" in
    mkUnpacked (Py.dict_set out_path data fs) [out_path]
               [Saved (Py.len data)] None.

End Unpack.

(** ** Stage 5: the prompt template *)

Definition TRUST_NAME : string := "{{TRUST_NAME}}".
Definition BOARD_PAPERS_URL : string := "{{BOARD_PAPERS_URL}}".
Definition EXTRACTED_TEXT : string := "{{EXTRACTED_TEXT}}".

(** The result of [load_prompt]: the prompt, or [FileNotFoundError]. *)
Inductive PromptResult : Type :=
| Prompt (text : string)
| FileNotFound.

(** [template] is the content of [prompt_template.txt] when the file
    exists. *)
Definition load_prompt (template : option string)
  (trust_name board_papers_url extracted_text : string) : PromptResult :=
  match template with
  | None => FileNotFound
  | Some template =>
      Prompt (Str.replace EXTRACTED_TEXT extracted_text
               (Str.replace BOARD_PAPERS_URL board_papers_url
                 (Str.replace TRUST_NAME trust_name template)))
  end.

(** ** Definitions used to state the properties *)

(** Page [i] of [pdf] gives a segment: its text can be read and is not
    blank. *)
Definition page_kept (pdf : PdfDocument) (i : nat) : bool :=
  match nth_error pdf i with
  | Some (TextPage text) => negb (Py.blank text)
  | _ => false
  end.

(** The text of page [i], the empty string when it cannot be read. *)
Definition page_text (pdf : PdfDocument) (i : nat) : string :=
  match nth_error pdf i with
  | Some (TextPage text) => text
  | _ => EmptyString
  end.

(** The document in which every page that cannot be read is an empty
    page. *)
Definition without_failures (pdf : PdfDocument) : PdfDocument :=
  map (fun p => match p with
                | TextPage text => TextPage text
                | BrokenPage => TextPage EmptyString
                end) pdf.

(** What the assembly loop appends for an entry, and how many characters
    it counts for it. *)
Definition entry_text (upper : string -> string) (e : string * string)
  : string :=
  header upper (fst e) ++ snd e.

Definition entry_size (upper : string -> string) (e : string * string) : Z :=
  (Py.len (header upper (fst e)) + Py.len (snd e))%Z.

Fixpoint total_size (upper : string -> string) (l : list (string * string))
  : Z :=
  match l with
  | [] => 0%Z
  | e :: l' => (entry_size upper e + total_size upper l')%Z
  end.

Definition non_blank (e : string * string) : bool := negb (Py.blank (snd e)).

(** A text of [n] characters. *)
Definition filler (n : nat) : string :=
  string_of_list_ascii (repeat "x"%char n).

(** The three half-open page ranges of the fallback. *)
Definition fallback_ranges (total : nat) : list (nat * nat) :=
  let chunk := fallback_chunk total in
  [(0, chunk); (chunk, chunk * 2); (chunk * 2, total)].

Definition in_range (r : nat * nat) (i : nat) : Prop := fst r <= i < snd r.

(** Every character of [s] satisfies [P]. *)
Fixpoint every (P : ascii -> bool) (s : string) : bool :=
  match s with
  | EmptyString => true
  | String c s' => P c && every P s'
  end.

Definition not_newline (c : ascii) : bool := negb (Re.is_newline c).

(** The pattern of a topic at the head of [t], with [g] the text of its
    group: one of the keywords, at most 60 characters none of which is a
    newline, then one to three digits that end at a word boundary. *)
Definition pattern_at (kws : list string) (t g : string) : Prop :=
  exists kw gap post,
    In kw kws
    /\ t = kw ++ gap ++ g ++ post
    /\ String.length gap <= 60
    /\ every not_newline gap = true
    /\ 1 <= String.length g <= 3
    /\ every Re.is_digit g = true
    /\ Re.word_ahead post = false.

(** The pattern in the words of the design document: a keyword, up to 60
    arbitrary characters, a number of one to three digits. *)
Definition described_pattern_at (kws : list string) (t g : string) : Prop :=
  exists kw gap post,
    In kw kws
    /\ t = kw ++ gap ++ g ++ post
    /\ String.length gap <= 60
    /\ 1 <= String.length g <= 3
    /\ every Re.is_digit g = true.

(** The page number of the first match of a pattern in the agenda. *)
Definition first_page (pattern : list string) (agenda_text : string)
  : option nat :=
  option_map Py.int (Re.search pattern (Py.lower agenda_text)).

(** The start page a topic gets: the page number of the first match when it
    lies between 3 and the page count, 0-indexed. *)
Definition located (pattern : list string) (agenda_text : string)
  (total_pages : nat) : option nat :=
  match first_page pattern agenda_text with
  | Some page_num =>
      if (3 <=? page_num) && (page_num <=? total_pages)
      then Some (page_num - 1) else None
  | None => None
  end.

(** What a topic contributes to the result of [find_section_starts]. *)
Definition section_entry (agenda_text : string) (total_pages : nat)
  (entry : string * list string) : list (string * nat) :=
  match located (snd entry) agenda_text total_pages with
  | Some start => [(fst entry, start)]
  | None => []
  end.

Definition topic_names : list string :=
  ["ceo_report"; "finance"; "performance"; "quality"; "workforce"].

(** The assignments to [all_sections] that a document makes, in order. *)
Definition agenda_of (pdf : PdfDocument) : string :=
  extract_pages pdf 0 (Nat.min 6 (List.length pdf)).

Definition section_texts (label : string) (pdf : PdfDocument)
  (sections : Py.dict nat) : list (string * string) :=
  map (fun entry =>
         (section_key label (fst entry),
          extract_pages pdf (snd entry)
            (Nat.min (snd entry + 30) (List.length pdf))))
      sections.

Definition part_texts (label : string) (pdf : PdfDocument)
  : list (string * string) :=
  let chunk := fallback_chunk (List.length pdf) in
  [ (section_key label "part_1", extract_pages pdf 0 chunk);
    (section_key label "part_2", extract_pages pdf chunk (chunk * 2));
    (section_key label "part_3",
     extract_pages pdf (chunk * 2) (List.length pdf)) ].

Definition document_stores (label : string) (pdf : PdfDocument)
  : list (string * string) :=
  (section_key label "agenda", agenda_of pdf)
  :: match find_section_starts (agenda_of pdf) (List.length pdf) with
     | [] => part_texts label pdf
     | sections => section_texts label pdf sections
     end.

(** The assignments of a whole run. *)
Definition path_stores (open_pdf : string -> OpenResult) (pdf_path : string)
  : list (string * string) :=
  match open_pdf pdf_path with
  | Opened pdf => document_stores (Py.basename pdf_path) pdf
  | OpenFailed _ => []
  end.

Definition run_stores (open_pdf : string -> OpenResult)
  (pdf_paths : list string) : list (string * string) :=
  flat_map (path_stores open_pdf) pdf_paths.

(** A list of assignments carried out on a dictionary. *)
Definition set_all {V} (entries : list (string * V)) (d : Py.dict V)
  : Py.dict V :=
  fold_left (fun d e => Py.dict_set (fst e) (snd e) d) entries d.

Definition part_names : list string := ["part_1"; "part_2"; "part_3"].

Definition section_names : list string :=
  ("agenda" :: topic_names ++ part_names)%list.

(** [s] is a suffix of [t] other than [t] itself. *)
Fixpoint proper_suffix (s t : string) : bool :=
  match t with
  | EmptyString => false
  | String _ t' => String.eqb t' s || proper_suffix s t'
  end.

(** Two directories that hold a file of the same name, and a third file
    whose agenda names the page of its finance report. *)
Definition two_directories (pdf_path : string) : OpenResult :=
  if String.eqb pdf_path "jan/board.pdf" then Opened [TextPage "January"]
  else if String.eqb pdf_path "feb/board.pdf" then Opened [TextPage "February"]
  else if String.eqb pdf_path "feb/minutes.pdf"
  then Opened [TextPage "Agenda: Finance Report ... 3"; TextPage "Minutes";
               TextPage "Finance figures"]
  else OpenFailed "no such file".

(** No two different paths of the list have the same file name. *)
Definition names_identify_paths (pdf_paths : list string) : Prop :=
  forall p q, In p pdf_paths -> In q pdf_paths ->
              Py.basename p = Py.basename q -> p = q.

(** No key is assigned two different texts. *)
Definition consistent {V} (entries : list (string * V)) : Prop :=
  forall k v1 v2, In (k, v1) entries -> In (k, v2) entries -> v1 = v2.

(** A reply that [download_file] returns: status 200 and more than 10000
    bytes. *)
Definition acceptable (r : Reply) : bool :=
  match r with
  | Response status_code content =>
      (status_code =? 200) && (Py.len content >? 10000)%Z
  | GetRaised _ => false
  end.

(** A query whose results hold a board papers URL. *)
Definition query_hit (ddg_text : string -> SearchReply) (query : string)
  : option string :=
  match ddg_text query with
  | SearchResults results => find is_board_papers_url (map href_of results)
  | SearchRaised _ => None
  end.

(** What a query that raises prints. *)
Definition query_notice (ddg_text : string -> SearchReply) (query : string)
  : list Notice :=
  match ddg_text query with
  | SearchResults _ => []
  | SearchRaised e => [SearchQueryFailed e]
  end.

(** A content of 10001 bytes. *)
Definition large_content : string := filler (100 * 100 + 1).

(** A server that refuses every user agent but the second. *)
Definition picky_server (url ua referer : string) : Reply :=
  if Str.contains "Macintosh" ua then Response 200 large_content
  else Response 403 "denied".

(** A server that answers every request with a short error page. *)
Definition blocking_server (url ua referer : string) : Reply :=
  Response 200 "blocked".

(** A search engine whose first query raises and whose second query finds
    the page of a trust. *)
Definition flaky_search (query : string) : SearchReply :=
  if Str.contains "2025 OR 2026" query then SearchRaised "rate limit"
  else if Str.contains "meeting papers" query
  then SearchResults [None; Some "https://www.nhs.uk/about";
                      Some "https://t.nhs.uk/Trust-Board/papers"]
  else SearchResults [].

(** An index page with five anchors. *)
Definition sample_index (url : string) : IndexPage :=
  Fetched [ mkAnchor "/docs/pack.pdf" "Board pack";
            mkAnchor "/about" "About us";
            mkAnchor "https://t.nhs.uk/docs/pack.pdf" "Board pack (again)";
            mkAnchor "/download?id=7" "";
            mkAnchor "" "Empty" ].

(** [urljoin] for an absolute path on a fixed host. *)
Definition sample_urljoin (index_url href : string) : string :=
  "https://t.nhs.uk" ++ href.

(** A link as [get_document_links] builds them: a text of 1 to 120
    characters. *)
Definition well_formed_link (link : Link) : Prop :=
  String.length (link_text link) <= 120 /\ link_text link <> "".

(** The anchor is taken for a document. *)
Definition doc_anchor (a : Anchor) : bool := is_doc (Py.lower (href a)).

(** An archive with two members of the same file name, a member of the
    resource fork directory, a text file and a damaged PDF. *)
Definition sample_archive : list (string * MemberData) :=
  [ ("pack/agenda.pdf", Data "one");
    ("__MACOSX/pack/agenda.pdf", Data "mac");
    ("old/agenda.pdf", Data "two");
    ("notes.txt", Data "notes");
    ("pack/Report.PDF", Damaged);
    ("pack/late.pdf", Data "late") ].

(** An archive whose second PDF needs a password. *)
Definition protected_archive : list (string * MemberData) :=
  [ ("pack/agenda.pdf", Data "one");
    ("notes.txt", Unreadable "RuntimeError");
    ("pack/private.pdf", Unreadable "RuntimeError");
    ("pack/late.pdf", Data "late") ].

Definition sample_zip (data : string) : ZipArchive :=
  if Str.startswith "PKbad" data then BadZip
  else if Str.startswith "PKnew" data then ZipRaised "NotImplementedError"
  else if Str.startswith "PK-protected" data then Zip protected_archive
  else Zip sample_archive.

(** Every PDF member among [names] can be read. *)
Definition all_read (members : list (string * MemberData))
  (names : list string) : Prop :=
  forall n, In n names -> is_pdf_member n = true ->
            exists bytes, zip_read members n = Some (Data bytes).

(** The paths of the PDF members among [names]. *)
Definition member_paths (save_dir : string) (names : list string)
  : list string :=
  map (fun n => Str.path_join save_dir (Py.basename n))
      (filter is_pdf_member names).

(** A template as a list of pieces: literal text and the three
    placeholders. *)
Inductive Piece : Type :=
| Lit (text : string)
| TrustName
| BoardPapersUrl
| ExtractedText.

(** The pieces with [t], [u] and [e] in the place of the placeholders. *)
Definition render_piece (t u e : string) (piece : Piece) : string :=
  match piece with
  | Lit text => text
  | TrustName => t
  | BoardPapersUrl => u
  | ExtractedText => e
  end.

Fixpoint render (t u e : string) (pieces : list Piece) : string :=
  match pieces with
  | [] => EmptyString
  | piece :: pieces' => render_piece t u e piece ++ render t u e pieces'
  end.

(** The text of the template file. *)
Definition template_text (pieces : list Piece) : string :=
  render TRUST_NAME BOARD_PAPERS_URL EXTRACTED_TEXT pieces.

Definition no_open_brace (s : string) : bool :=
  every (fun c => negb (Ascii.eqb c "{")) s.

Definition no_close_brace (s : string) : bool :=
  every (fun c => negb (Ascii.eqb c "}")) s.

Definition plain_piece (piece : Piece) : bool :=
  match piece with
  | Lit text => no_open_brace text
  | _ => true
  end.

(** Every document opens and has the same single page. *)
Definition same_document (pdf_path : string) : OpenResult :=
  Opened [TextPage "January"].

(** No character of [s] is [z]. *)
Definition without_char (z : ascii) (s : string) : bool :=
  every (fun c => negb (Ascii.eqb c z)) s.

(** [s] with [z] as its last character. *)
Definition ending (s : string) (z : ascii) : string :=
  s ++ String z EmptyString.

(** A topic has a start page in the agenda. *)
Definition topic_located (agenda_text : string) (total_pages : nat)
  (entry : string * list string) : bool :=
  match located (snd entry) agenda_text total_pages with
  | Some _ => true
  | None => false
  end.

(** A scan: three pages without a text layer. *)
Definition scanned_document (pdf_path : string) : OpenResult :=
  Opened [TextPage ""; BrokenPage; TextPage "  "].

Definition is_reading (e : Event) : bool :=
  match e with
  | Reading _ => true
  | _ => false
  end.

Definition is_could_not_open (e : Event) : bool :=
  match e with
  | CouldNotOpen _ => true
  | _ => false
  end.

Definition fails_to_open (open_pdf : string -> OpenResult)
  (pdf_path : string) : bool :=
  match open_pdf pdf_path with
  | Opened _ => false
  | OpenFailed _ => true
  end.

(** What the loop of [extract_targeted_text] prints for a path. *)
Definition path_events (open_pdf : string -> OpenResult) (pdf_path : string)
  : list Event :=
  Reading (Py.basename pdf_path)
  :: match open_pdf pdf_path with
     | OpenFailed e => [CouldNotOpen e]
     | Opened pdf =>
         [ Pages (List.length pdf);
           match find_section_starts (agenda_of pdf) (List.length pdf) with
           | [] => ReadingInThirds
           | sections => SectionsFound (Py.keys sections)
           end ]
     end.

(** * Properties *)

Lemma upper_latin1_agrees (s u : string) :
  Py.upper s = Some u -> upper_latin1 s = u.
Proof.
  revert u. induction s as [|c s IH]; intros u; cbn [Py.upper upper_latin1].
  - now intros [= <-].
  - destruct (Py.upper_char c) as [uc|]; [|discriminate].
    destruct (Py.upper s) as [r|]; [|discriminate].
    intros [= <-]. now rewrite (IH r).
Qed.

(** ** Strings *)

Lemma length_append (a b : string) :
  String.length (a ++ b) = String.length a + String.length b.
Proof. induction a as [|c a IH]; simpl; [reflexivity | now rewrite IH]. Qed.

Lemma append_empty_r (a : string) : a ++ "" = a.
Proof. induction a as [|c a IH]; simpl; [reflexivity | now rewrite IH]. Qed.

Lemma append_assoc (a b c : string) : (a ++ b) ++ c = a ++ (b ++ c).
Proof. induction a as [|x a IH]; simpl; [reflexivity | now rewrite IH]. Qed.

Lemma append_cancel_l (a b c : string) : a ++ b = a ++ c -> b = c.
Proof.
  induction a as [|x a IH]; simpl; intros H; [exact H|].
  inversion H; auto.
Qed.

Lemma slice_to_length (n : nat) (s : string) :
  String.length (Py.slice_to n s) <= n.
Proof.
  revert s; induction n as [|n IH]; intros [|c s]; simpl; try lia.
  specialize (IH s); lia.
Qed.

Lemma slice_to_prefix (n : nat) (s : string) :
  exists rest, s = Py.slice_to n s ++ rest.
Proof.
  revert s; induction n as [|n IH]; intros [|c s]; simpl;
    try (eexists; reflexivity).
  destruct (IH s) as [rest Hrest]. exists rest. now rewrite <- Hrest.
Qed.

(** ** [extract_pages] *)

Lemma range_bounds (start stop i : nat) :
  In i (Py.range start stop) <-> start <= i < stop.
Proof. unfold Py.range. rewrite in_seq. lia. Qed.

Lemma pages_visited_bounds (pdf : PdfDocument) (start end_ i : nat) :
  In i (pages_visited pdf start end_) <->
  start <= i < end_ /\ i < List.length pdf.
Proof. unfold pages_visited. rewrite range_bounds. lia. Qed.

Lemma extract_page_kept (pdf : PdfDocument) (parts : list string) (i : nat) :
  extract_page pdf parts i =
  (parts ++ (if page_kept pdf i
             then [page_segment i (page_text pdf i)] else []))%list.
Proof.
  unfold extract_page, page_kept, page_text.
  destruct (nth_error pdf i) as [[text|]|]; simpl;
    try (now rewrite app_nil_r).
  destruct (Py.blank text); simpl; [now rewrite app_nil_r | reflexivity].
Qed.

Lemma extract_loop (pdf : PdfDocument) (l : list nat) (parts : list string) :
  fold_left (extract_page pdf) l parts =
  (parts ++ map (fun i => page_segment i (page_text pdf i))
                (filter (page_kept pdf) l))%list.
Proof.
  revert parts; induction l as [|i l IH]; intros parts; simpl.
  - now rewrite app_nil_r.
  - rewrite IH, extract_page_kept.
    destruct (page_kept pdf i); simpl.
    + now rewrite <- app_assoc.
    + now rewrite app_nil_r.
Qed.

Lemma extract_pages_segments (pdf : PdfDocument) (start end_ : nat) :
  extract_pages pdf start end_ =
  Py.join nl (map (fun i => page_segment i (page_text pdf i))
                  (filter (page_kept pdf) (pages_visited pdf start end_))).
Proof. unfold extract_pages. now rewrite extract_loop. Qed.

Lemma page_kept_without_failures (pdf : PdfDocument) (i : nat) :
  page_kept (without_failures pdf) i = page_kept pdf i.
Proof.
  unfold page_kept, without_failures. rewrite nth_error_map.
  destruct (nth_error pdf i) as [[text|]|]; reflexivity.
Qed.

Lemma page_text_without_failures (pdf : PdfDocument) (i : nat) :
  page_text (without_failures pdf) i = page_text pdf i.
Proof.
  unfold page_text, without_failures. rewrite nth_error_map.
  destruct (nth_error pdf i) as [[text|]|]; reflexivity.
Qed.

(** C5. A range that ends after the last page is read as if it ended at the
    page count, a range that starts at or after the page count gives the
    empty string, and no index at or beyond the page count is ever read. *)
Theorem extract_pages_clamped (pdf : PdfDocument) (start end_ : nat) :
  (List.length pdf < end_ ->
   extract_pages pdf start end_ = extract_pages pdf start (List.length pdf))
  /\ (List.length pdf <= start -> extract_pages pdf start end_ = "")
  /\ Forall (fun i => i < List.length pdf) (pages_visited pdf start end_).
Proof.
  repeat split.
  - intros H. unfold extract_pages, pages_visited.
    now rewrite Nat.min_r, Nat.min_id by lia.
  - intros H. unfold extract_pages, pages_visited, Py.range.
    replace (Nat.min end_ (List.length pdf) - start) with 0 by lia.
    reflexivity.
  - apply Forall_forall. intros i Hi.
    apply pages_visited_bounds in Hi. lia.
Qed.

Lemma extract_pages_clamped_witness :
  let pdf := [TextPage "Agenda"; BrokenPage; TextPage "Minutes"] in
  extract_pages pdf 1 7 = extract_pages pdf 1 3
  /\ extract_pages pdf 3 7 = "".
Proof.
  intros pdf.
  destruct (extract_pages_clamped pdf 1 7) as [Hend _].
  destruct (extract_pages_clamped pdf 3 7) as [_ [Hstart _]].
  split; [apply Hend; simpl; lia | apply Hstart; simpl; lia].
Defined.

Lemma slice_to_substring (n : nat) (s : string) :
  Py.slice_to n s = substring 0 n s.
Proof.
  revert s; induction n as [|n IH]; intros [|c s]; simpl; try reflexivity.
  now rewrite IH.
Qed.

Lemma substring_length (n : nat) (s : string) :
  String.length (substring 0 n s) = Nat.min n (String.length s).
Proof.
  revert s; induction n as [|n IH]; intros [|c s]; simpl; try reflexivity.
  now rewrite IH.
Qed.

Lemma isspace_codes (c : ascii) :
  Py.isspace c
  = existsb (Nat.eqb (nat_of_ascii c))
            [9; 10; 11; 12; 13; 28; 29; 30; 31; 32; 133; 160].
Proof. destruct c as [[] [] [] [] [] [] [] []]; reflexivity. Qed.

Lemma blank_codes (s : string) :
  Py.blank s
  = forallb (fun c => existsb (Nat.eqb (nat_of_ascii c))
                              [9; 10; 11; 12; 13; 28; 29; 30; 31; 32; 133; 160])
            (list_ascii_of_string s).
Proof.
  induction s as [|c s IH]; [reflexivity|].
  cbn [Py.blank list_ascii_of_string forallb]. now rewrite IH, isspace_codes.
Qed.

Lemma map_filter_flat_map {A B} (f : A -> B) (p : A -> bool) (l : list A) :
  map f (filter p l) = flat_map (fun x => if p x then [f x] else []) l.
Proof.
  induction l as [|x l IH]; [reflexivity|]. cbn [filter flat_map].
  destruct (p x); cbn [map app]; now rewrite IH.
Qed.

(** C6. The output is the newline-joined list of one segment for each page
    of the range [start, min end (page count)), in page order, that can be
    read and whose text is not all white space; the segment of page [i] is
    "-- Page ", the decimal number [i + 1], " --", a newline and the first
    [min 3000 (length text)] characters of the page; a page that cannot be
    read or whose text is white space gives no segment, and a page that
    cannot be read leaves the output as an empty page does. *)
Theorem extract_pages_format (pdf : PdfDocument) (start end_ : nat) :
  extract_pages pdf start end_
  = String.concat (String "010" "")
      (flat_map
         (fun i =>
            match nth_error pdf i with
            | Some (TextPage text) =>
                if forallb
                     (fun c => existsb (Nat.eqb (nat_of_ascii c))
                                 [9; 10; 11; 12; 13; 28; 29; 30; 31; 32;
                                  133; 160])
                     (list_ascii_of_string text)
                then []
                else [ "-- Page "
                       ++ NilEmpty.string_of_uint (Nat.to_uint (i + 1))
                       ++ " --" ++ String "010" ""
                       ++ substring 0 3000 text ]
            | Some BrokenPage => []
            | None => []
            end)
         (seq start (Nat.min end_ (List.length pdf) - start)))
  /\ (forall text,
        String.length (substring 0 3000 text)
        = Nat.min 3000 (String.length text)
        /\ exists rest, text = substring 0 3000 text ++ rest)
  /\ extract_pages pdf start end_
     = extract_pages (without_failures pdf) start end_.
Proof.
  split; [|split].
  - rewrite extract_pages_segments, map_filter_flat_map.
    unfold Py.join, pages_visited, Py.range. f_equal.
    apply flat_map_ext. intros i. unfold page_kept, page_text.
    destruct (nth_error pdf i) as [[text|]|]; try reflexivity.
    rewrite <- blank_codes. destruct (Py.blank text); [reflexivity|].
    cbn [negb]. unfold page_segment, Py.str_of_nat, CHARS_PER_PAGE.
    now rewrite slice_to_substring.
  - intros text. split; [apply substring_length|].
    rewrite <- slice_to_substring. apply slice_to_prefix.
  - rewrite !extract_pages_segments.
    unfold pages_visited, without_failures at 3. rewrite length_map.
    rewrite (filter_ext _ _ (page_kept_without_failures pdf)).
    rewrite (map_ext
               (fun i => page_segment i (page_text (without_failures pdf) i))
               (fun i => page_segment i (page_text pdf i))).
    + reflexivity.
    + intros i. now rewrite page_text_without_failures.
Qed.

Lemma extract_pages_format_witness :
  extract_pages [TextPage "Agenda"; BrokenPage; TextPage "  ";
                 TextPage "Minutes"] 1 9
  = "-- Page 4 --" ++ String "010" "" ++ "Minutes".
Proof.
  rewrite (proj1 (extract_pages_format
                    [TextPage "Agenda"; BrokenPage; TextPage "  ";
                     TextPage "Minutes"] 1 9)).
  reflexivity.
Defined.

Example extract_pages_example :
  extract_pages [TextPage "Agenda"; BrokenPage; TextPage "  ";
                 TextPage "Minutes"] 0 9
  = "-- Page 1 --" ++ nl ++ "Agenda" ++ nl ++ "-- Page 4 --" ++ nl
    ++ "Minutes".
Proof. reflexivity. Qed.

(** ** The prompt-assembly loop *)

Lemma len_append (a b : string) : Py.len (a ++ b) = (Py.len a + Py.len b)%Z.
Proof. unfold Py.len. rewrite length_append. lia. Qed.

Lemma len_nonneg (a : string) : (0 <= Py.len a)%Z.
Proof. unfold Py.len. lia. Qed.

Lemma entry_size_nonneg (upper : string -> string)
  (e : string * string) : (0 <= entry_size upper e)%Z.
Proof.
  unfold entry_size.
  pose proof (len_nonneg (header upper (fst e))). pose proof (len_nonneg (snd e)).
  lia.
Qed.

Lemma entry_text_len (upper : string -> string) (e : string * string) :
  Py.len (entry_text upper e) = entry_size upper e.
Proof. unfold entry_text, entry_size. apply len_append. Qed.

Lemma join_empty_cons (x : string) (xs : list string) :
  Py.join "" (x :: xs) = x ++ Py.join "" xs.
Proof.
  unfold Py.join. destruct xs as [|y xs]; simpl.
  - now rewrite append_empty_r.
  - reflexivity.
Qed.

Lemma join_entries_len (upper : string -> string) (l : list (string * string)) :
  Py.len (Py.join "" (map (entry_text upper) l)) = total_size upper l.
Proof.
  induction l as [|e l IH].
  - reflexivity.
  - cbn [map total_size]. rewrite join_empty_cons, len_append, IH.
    now rewrite entry_text_len.
Qed.

Lemma total_size_app (upper : string -> string)
  (l1 l2 : list (string * string)) :
  total_size upper (l1 ++ l2) = (total_size upper l1 + total_size upper l2)%Z.
Proof. induction l1 as [|e l1 IH]; simpl; [reflexivity | rewrite IH; lia]. Qed.

(** The loop keeps a prefix of the non-blank entries and stops at the first
    entry that does not fit. *)
Lemma assemble_prefix (upper : string -> string)
  (limit : Z) (items : list (string * string)) :
  forall parts total_chars,
  exists kept dropped,
    filter non_blank items = (kept ++ dropped)%list
    /\ assemble upper limit items parts total_chars
        = ((parts ++ map (entry_text upper) kept)%list,
           (total_chars + total_size upper kept)%Z)
    /\ ((total_chars <= limit)%Z ->
        (total_chars + total_size upper kept <= limit)%Z)
    /\ (dropped = [] \/
        exists e rest, dropped = e :: rest
          /\ (total_chars + total_size upper kept + entry_size upper e > limit)%Z).
Proof.
  induction items as [|[section text] items IH]; intros parts total_chars.
  - exists [], []. simpl. rewrite app_nil_r, Z.add_0_r. auto.
  - cbn [assemble filter]. unfold non_blank at 1. cbn [snd].
    destruct (Py.blank text) eqn:Hblank; cbn [negb].
    + apply IH.
    + destruct (total_chars + Py.len (header upper section) + Py.len text
                >? limit)%Z eqn:Hover.
      * rewrite Z.gtb_ltb in Hover. apply Z.ltb_lt in Hover.
        exists [], ((section, text) :: filter non_blank items).
        cbn [map total_size app]. rewrite app_nil_r, Z.add_0_r.
        repeat split; auto.
        right. exists (section, text), (filter non_blank items).
        split; [reflexivity|]. unfold entry_size; cbn [fst snd]. lia.
      * rewrite Z.gtb_ltb in Hover. apply Z.ltb_ge in Hover.
        destruct (IH (parts ++ [(header upper section ++ text)%string])%list
                     (total_chars + Py.len (header upper section) + Py.len text)%Z)
          as [kept [dropped [Hsplit [Hrun [Hfit Hstop]]]]].
        exists ((section, text) :: kept), dropped.
        assert (Hsize : (total_chars + total_size upper ((section, text) :: kept)
                = total_chars + Py.len (header upper section) + Py.len text
                  + total_size upper kept)%Z)
          by (cbn [total_size]; unfold entry_size; cbn [fst snd]; lia).
        rewrite Hsize. repeat split.
        -- cbn [app]. now rewrite Hsplit.
        -- rewrite Hrun. cbn [map]. unfold entry_text at 2. cbn [fst snd].
           now rewrite <- app_assoc.
        -- intros _. apply Hfit. lia.
        -- exact Hstop.
Qed.

(** C1. The combined text is never longer than [CHAR_LIMIT]; it is the
    concatenation, header and text in full, of a prefix of the non-blank
    entries, and the entries left out are the remaining suffix, which starts
    at the first entry whose header and text would take the running total
    past the limit. *)
Theorem combined_text_within_limit (upper : string -> string)
  (extracted : Py.dict string) :
  (Py.len (combined_text upper extracted) <= CHAR_LIMIT)%Z
  /\ exists kept dropped,
       filter non_blank extracted = (kept ++ dropped)%list
       /\ combined_text upper extracted = Py.join "" (map (entry_text upper) kept)
       /\ Py.len (combined_text upper extracted) = total_size upper kept
       /\ (dropped = [] \/
           exists e rest, dropped = e :: rest
             /\ (total_size upper kept + entry_size upper e > CHAR_LIMIT)%Z).
Proof.
  destruct (assemble_prefix upper CHAR_LIMIT extracted [] 0%Z)
    as [kept [dropped [Hsplit [Hrun [Hfit Hstop]]]]].
  assert (Htext : combined_text upper extracted = Py.join "" (map (entry_text upper) kept)).
  { unfold combined_text, combined_text_upto. now rewrite Hrun. }
  assert (Hlen : Py.len (combined_text upper extracted) = total_size upper kept).
  { rewrite Htext. apply join_entries_len. }
  split.
  - rewrite Hlen. unfold CHAR_LIMIT in *.
    assert (0 + total_size upper kept <= 400000)%Z by (apply Hfit; lia). lia.
  - exists kept, dropped. repeat split; auto.
Qed.

(** Three entries of 100 characters under a ceiling of 250: the first two
    appear in full, the third is absent. *)
Example combined_text_three_entries :
  combined_text_upto upper_latin1 250
    [("a", filler 100); ("b", filler 100); ("c", filler 100)]
  = header upper_latin1 "a" ++ filler 100 ++ header upper_latin1 "b" ++ filler 100.
Proof. vm_compute. reflexivity. Qed.

(** A key with a sharp s: its header has "SS", one character more, and an
    entry that would fit without it is left out. *)
Example combined_text_sharp_s :
  header upper_latin1 (String (ascii_of_nat 223) "")
  = nl ++ nl ++ "=== SS ===" ++ nl
  /\ combined_text_upto upper_latin1 24
       [(String (ascii_of_nat 223) "", filler 12)] = ""
  /\ combined_text_upto upper_latin1 25
       [(String (ascii_of_nat 223) "", filler 12)]
     = nl ++ nl ++ "=== SS ===" ++ nl ++ filler 12.
Proof. repeat split; vm_compute; reflexivity. Qed.

(** ** The fallback partition *)

Lemma seq_cut (s a b : nat) :
  a <= b -> seq s b = (seq s a ++ seq (s + a) (b - a))%list.
Proof.
  intros H. rewrite <- seq_app. f_equal. lia.
Qed.

Lemma fallback_pages_visited (pdf : PdfDocument) :
  let total := List.length pdf in
  let chunk := fallback_chunk total in
  (pages_visited pdf 0 chunk ++ pages_visited pdf chunk (chunk * 2)
   ++ pages_visited pdf (chunk * 2) total)%list
  = seq 0 total.
Proof.
  intros total chunk. unfold pages_visited, Py.range. fold total.
  rewrite Nat.min_id.
  assert (Hc : 20 <= chunk) by (unfold chunk, fallback_chunk; lia).
  destruct (Nat.le_gt_cases total chunk) as [H1|H1].
  - rewrite (Nat.min_r chunk total) by lia.
    replace (Nat.min (chunk * 2) total - chunk) with 0 by lia.
    replace (total - chunk * 2) with 0 by lia.
    simpl. now rewrite app_nil_r, Nat.sub_0_r.
  - rewrite (Nat.min_l chunk total) by lia.
    destruct (Nat.le_gt_cases total (chunk * 2)) as [H2|H2].
    + rewrite (Nat.min_r (chunk * 2) total) by lia.
      replace (total - chunk * 2) with 0 by lia.
      simpl. rewrite app_nil_r, Nat.sub_0_r.
      now rewrite (seq_cut 0 chunk total) by lia.
    + rewrite (Nat.min_l (chunk * 2) total) by lia.
      rewrite Nat.sub_0_r.
      rewrite (seq_cut 0 chunk total) by lia.
      rewrite (seq_cut (0 + chunk) (chunk * 2 - chunk) (total - chunk))
        by lia.
      simpl.
      replace (chunk + (chunk * 2 - chunk)) with (chunk * 2) by lia.
      replace (total - chunk - (chunk * 2 - chunk))
        with (total - chunk * 2) by lia.
      reflexivity.
Qed.

(** C4. In fallback mode the chunk is [max 20 (total / 3)] and the parts are
    read from [0, chunk), [chunk, 2 chunk) and [2 chunk, total): each range
    starts where the one before ends, no page index lies in two of them,
    every page of the document lies in one, and the three reads together
    visit every page once, in order.  With 90 pages the ranges are [0,30),
    [30,60), [60,90); with 40 pages they are [0,20), [20,40), [40,40). *)
Theorem fallback_partition (total : nat) :
  fallback_chunk total = Nat.max 20 (total / 3)
  /\ fallback_ranges total
     = [(0, fallback_chunk total);
        (fallback_chunk total, 2 * fallback_chunk total);
        (2 * fallback_chunk total, total)]
  /\ (forall i,
        ~ (in_range (0, fallback_chunk total) i
           /\ in_range (fallback_chunk total, 2 * fallback_chunk total) i)
        /\ ~ (in_range (0, fallback_chunk total) i
              /\ in_range (2 * fallback_chunk total, total) i)
        /\ ~ (in_range (fallback_chunk total, 2 * fallback_chunk total) i
              /\ in_range (2 * fallback_chunk total, total) i))
  /\ (forall i, i < total -> Exists (fun r => in_range r i)
                                     (fallback_ranges total))
  /\ (forall pdf : PdfDocument, List.length pdf = total ->
        (pages_visited pdf 0 (fallback_chunk total)
         ++ pages_visited pdf (fallback_chunk total)
                          (fallback_chunk total * 2)
         ++ pages_visited pdf (fallback_chunk total * 2) total)%list
        = seq 0 total)
  /\ (forall (open_pdf : string -> OpenResult) (st : State)
             (pdf_path : string) (pdf : PdfDocument),
        open_pdf pdf_path = Opened pdf ->
        List.length pdf = total ->
        find_section_starts (agenda_of pdf) total = [] ->
        all_sections (process_pdf open_pdf st pdf_path)
        = set_all
            [ (section_key (Py.basename pdf_path) "agenda", agenda_of pdf);
              (section_key (Py.basename pdf_path) "part_1",
               extract_pages pdf 0 (fallback_chunk total));
              (section_key (Py.basename pdf_path) "part_2",
               extract_pages pdf (fallback_chunk total)
                             (fallback_chunk total * 2));
              (section_key (Py.basename pdf_path) "part_3",
               extract_pages pdf (fallback_chunk total * 2) total) ]
            (all_sections st))
  /\ fallback_ranges 90 = [(0, 30); (30, 60); (60, 90)]
  /\ fallback_ranges 40 = [(0, 20); (20, 40); (40, 40)].
Proof.
  split; [reflexivity|].
  split; [unfold fallback_ranges; now rewrite (Nat.mul_comm 2)|].
  split.
  { intros i. unfold in_range; simpl. lia. }
  split.
  { intros i Hi. unfold fallback_ranges.
    set (chunk := fallback_chunk total).
    destruct (Nat.lt_ge_cases i chunk) as [H1|H1].
    - apply Exists_cons_hd. unfold in_range; simpl. lia.
    - apply Exists_cons_tl.
      destruct (Nat.lt_ge_cases i (chunk * 2)) as [H2|H2].
      + apply Exists_cons_hd. unfold in_range; simpl. lia.
      + apply Exists_cons_tl, Exists_cons_hd. unfold in_range; simpl. lia. }
  split.
  { intros pdf Hlen. subst total. apply fallback_pages_visited. }
  split.
  { intros open_pdf st pdf_path pdf Hopen Hlen Hnone. subst total.
    unfold process_pdf. rewrite Hopen. fold (agenda_of pdf).
    rewrite Hnone. reflexivity. }
  split; reflexivity.
Qed.

Lemma fallback_partition_witness :
  Exists (fun r => in_range r 45) (fallback_ranges 50)
  /\ (pages_visited (repeat BrokenPage 50) 0 20
      ++ pages_visited (repeat BrokenPage 50) 20 40
      ++ pages_visited (repeat BrokenPage 50) 40 50)%list = seq 0 50.
Proof.
  destruct (fallback_partition 50) as [_ [_ [_ [Hcover [Hvisit _]]]]].
  split.
  - apply Hcover. lia.
  - apply (Hvisit (repeat BrokenPage 50)). reflexivity.
Defined.

Example fallback_stores_three_parts :
  Py.keys (extract_targeted_text two_directories ["jan/board.pdf"])
  = ["board.pdf__agenda"; "board.pdf__part_1"; "board.pdf__part_2";
     "board.pdf__part_3"].
Proof. vm_compute. reflexivity. Qed.

(** ** The matcher *)

Lemma literal_iff (kw t t' : string) :
  Re.literal kw t = Some t' <-> t = kw ++ t'.
Proof.
  revert t; induction kw as [|a kw IH]; intros t; simpl.
  - split; intros H; [now inversion H | now subst].
  - destruct t as [|c t].
    + split; discriminate.
    + destruct (Ascii.eqb_spec a c) as [->|Hne].
      * rewrite IH. split; intros H; [now subst | now inversion H].
      * split; [discriminate | intros H; inversion H; congruence].
Qed.

Lemma digit_is_word (c : ascii) : Re.is_digit c = true -> Re.is_word c = true.
Proof. unfold Re.is_digit, Re.is_word. intros ->. reflexivity. Qed.

Lemma group_stops (n : nat) (t : string) :
  Re.word_ahead t = false -> Re.group n t = None.
Proof.
  destruct n as [|n]; destruct t as [|c t]; simpl; try reflexivity.
  intros Hw. destruct (Re.is_digit c) eqn:Hd; [|reflexivity].
  apply digit_is_word in Hd. congruence.
Qed.

Lemma group_sound (n : nat) :
  forall t g, Re.group n t = Some g ->
  exists post, t = g ++ post
    /\ 1 <= String.length g <= n
    /\ every Re.is_digit g = true
    /\ Re.word_ahead post = false.
Proof.
  induction n as [|n IH]; intros t g; simpl; [discriminate|].
  destruct t as [|c t]; [discriminate|].
  destruct (Re.is_digit c) eqn:Hd; [|discriminate].
  destruct (Re.group n t) as [g'|] eqn:Hg.
  - intros H; inversion H; subst g; clear H.
    destruct (IH t g' Hg) as [post [Ht [Hlen [Hdig Hpost]]]].
    exists post. simpl. rewrite Hd, Hdig, <- Ht.
    repeat split; auto; lia.
  - unfold Re.boundary. rewrite (digit_is_word c Hd).
    destruct (Re.word_ahead t) eqn:Hw; simpl; [discriminate|].
    intros H; inversion H; subst g; clear H.
    exists t. simpl. rewrite Hd. repeat split; auto; lia.
Qed.

Lemma group_complete (n : nat) :
  forall g post,
  1 <= String.length g <= n ->
  every Re.is_digit g = true ->
  Re.word_ahead post = false ->
  Re.group n (g ++ post) = Some g.
Proof.
  induction n as [|n IH]; intros g post Hlen Hdig Hpost; [lia|].
  destruct g as [|c g]; [simpl in Hlen; lia|].
  simpl in Hdig. apply andb_true_iff in Hdig as [Hd Hdig].
  simpl. rewrite Hd.
  destruct g as [|c' g].
  - simpl. rewrite (group_stops n post Hpost).
    unfold Re.boundary. now rewrite (digit_is_word c Hd), Hpost.
  - rewrite (IH (String c' g) post); auto. simpl in *; lia.
Qed.

Lemma lazy_gap_sound (n : nat) :
  forall t g, Re.lazy_gap n t = Some g ->
  exists gap rest, t = gap ++ rest
    /\ String.length gap <= n
    /\ every not_newline gap = true
    /\ Re.group 3 rest = Some g.
Proof.
  induction n as [|n IH]; intros t g; cbn [Re.lazy_gap].
  - destruct (Re.group 3 t) as [g'|] eqn:Hg.
    + intros H; inversion H; subst. exists "", t. auto.
    + destruct t; discriminate.
  - destruct (Re.group 3 t) as [g'|] eqn:Hg.
    + intros H; inversion H; subst. exists "", t. repeat split; auto.
      simpl; lia.
    + destruct t as [|c t]; [discriminate|].
      destruct (Re.is_newline c) eqn:Hnl; [discriminate|].
      intros H. destruct (IH t g H) as [gap [rest [Ht [Hlen [Hgap Hrest]]]]].
      exists (String c gap), rest. subst t. simpl.
      unfold not_newline at 1. rewrite Hnl. repeat split; auto. lia.
Qed.

Lemma lazy_gap_complete (n : nat) :
  forall gap rest g,
  String.length gap <= n ->
  every not_newline gap = true ->
  Re.group 3 rest = Some g ->
  exists g', Re.lazy_gap n (gap ++ rest) = Some g'.
Proof.
  induction n as [|n IH]; intros gap rest g Hlen Hgap Hrest.
  - destruct gap; [|simpl in Hlen; lia].
    cbn [Re.lazy_gap append]. rewrite Hrest. eauto.
  - destruct gap as [|c gap].
    + cbn [Re.lazy_gap append]. rewrite Hrest. eauto.
    + simpl in Hgap. apply andb_true_iff in Hgap as [Hc Hgap].
      unfold not_newline in Hc. apply negb_true_iff in Hc.
      cbn [Re.lazy_gap append].
      destruct (Re.group 3 (String c (gap ++ rest))) as [g'|]; [eauto|].
      rewrite Hc. apply (IH gap rest g); auto. simpl in Hlen; lia.
Qed.

Lemma match_here_sound (kws : list string) (t g : string) :
  Re.match_here kws t = Some g -> pattern_at kws t g.
Proof.
  induction kws as [|kw kws IH]; cbn [Re.match_here]; [discriminate|].
  assert (Hweak : pattern_at kws t g -> pattern_at (kw :: kws) t g).
  { intros [kw' [gap [post [Hin H]]]]. exists kw', gap, post.
    split; [now right | exact H]. }
  destruct (Re.literal kw t) as [t'|] eqn:Hlit; [|now auto].
  destruct (Re.lazy_gap 60 t') as [g'|] eqn:Hgap; [|now auto].
  intros H; inversion H; subst g'; clear H.
  apply literal_iff in Hlit.
  destruct (lazy_gap_sound _ _ _ Hgap) as [gap [rest [Ht' [Hlen [Hnl Hg]]]]].
  destruct (group_sound _ _ _ Hg) as [post [Hrest [Hglen [Hdig Hpost]]]].
  exists kw, gap, post. subst. repeat split; auto; try lia. now left.
Qed.

Lemma match_here_complete (kws : list string) (t g : string) :
  pattern_at kws t g -> exists g', Re.match_here kws t = Some g'.
Proof.
  intros [kw [gap [post [Hin [Ht [Hlen [Hnl [Hglen [Hdig Hpost]]]]]]]]].
  induction kws as [|kw' kws IH]; [contradiction|].
  cbn [Re.match_here]. destruct (Re.literal kw' t) as [t'|] eqn:Hlit.
  - destruct (Re.lazy_gap 60 t') as [g'|] eqn:Hgap; [eauto|].
    destruct Hin as [->|Hin]; [|now auto].
    exfalso. apply literal_iff in Hlit. rewrite Ht in Hlit.
    apply append_cancel_l in Hlit. subst t'.
    destruct (lazy_gap_complete 60 gap (g ++ post) g Hlen Hnl) as [g' Hg'].
    + apply group_complete; auto.
    + congruence.
  - destruct Hin as [->|Hin]; [|now auto].
    exfalso. assert (Re.literal kw t = Some (gap ++ g ++ post))
      by now apply literal_iff.
    congruence.
Qed.

Lemma search_first (kws : list string) :
  forall s g, Re.search kws s = Some g ->
  exists pre rest, s = pre ++ rest
    /\ Re.match_here kws rest = Some g
    /\ forall pre' rest', s = pre' ++ rest' ->
         String.length pre' < String.length pre ->
         Re.match_here kws rest' = None.
Proof.
  induction s as [|c s IH]; intros g; simpl.
  - destruct (Re.match_here kws "") as [g'|] eqn:Hm; [|discriminate].
    intros H; inversion H; subst. exists "", "". repeat split; auto.
    simpl; intros; lia.
  - destruct (Re.match_here kws (String c s)) as [g'|] eqn:Hm.
    + intros H; inversion H; subst. exists "", (String c s).
      repeat split; auto. simpl; intros; lia.
    + intros H. destruct (IH g H) as [pre [rest [Hs [Hrest Hmin]]]].
      exists (String c pre), rest. subst s. repeat split; auto.
      intros pre' rest' Hsplit Hlt. destruct pre' as [|c' pre'].
      * simpl in Hsplit. now subst rest'.
      * simpl in Hsplit. inversion Hsplit; subst c'.
        apply (Hmin pre' rest'); auto. simpl in Hlt; lia.
Qed.

Lemma search_none (kws : list string) :
  forall s, Re.search kws s = None ->
  forall pre rest, s = pre ++ rest -> Re.match_here kws rest = None.
Proof.
  induction s as [|c s IH]; simpl.
  - destruct (Re.match_here kws "") eqn:Hm; [discriminate|].
    intros _ pre rest Hs. destruct pre; [|discriminate].
    simpl in Hs. now subst rest.
  - destruct (Re.match_here kws (String c s)) eqn:Hm; [discriminate|].
    intros H pre rest Hs. destruct pre as [|c' pre].
    + simpl in Hs. now subst rest.
    + simpl in Hs. inversion Hs; subst. now apply (IH H pre rest).
Qed.

Lemma search_found (kws : list string) :
  forall pre rest g,
  Re.match_here kws rest = Some g ->
  (forall pre' rest', pre ++ rest = pre' ++ rest' ->
     String.length pre' < String.length pre ->
     Re.match_here kws rest' = None) ->
  Re.search kws (pre ++ rest) = Some g.
Proof.
  induction pre as [|c pre IH]; intros rest g Hm Hmin.
  - simpl. destruct rest; simpl; now rewrite Hm.
  - cbn [append Re.search].
    rewrite (Hmin "" (String c (pre ++ rest))) by (simpl; auto; lia).
    apply IH; auto. intros pre' rest' Hs Hlt.
    apply (Hmin (String c pre') rest'); simpl; [now rewrite Hs | lia].
Qed.

(** ** Dictionaries *)

Lemma dict_set_fresh {V} (k : string) (v : V) (d : Py.dict V) :
  ~ In k (Py.keys d) -> Py.dict_set k v d = (d ++ [(k, v)])%list.
Proof.
  induction d as [|[k' v'] d IH]; simpl; intros Hk; [reflexivity|].
  destruct (String.eqb_spec k' k) as [->|Hne]; [tauto|].
  rewrite IH; tauto.
Qed.

Lemma dict_get_in {V} (k : string) (v : V) (d : Py.dict V) :
  Py.dict_get k d = Some v -> In (k, v) d.
Proof.
  induction d as [|[k' v'] d IH]; simpl; [discriminate|].
  destruct (String.eqb_spec k' k) as [->|Hne].
  - intros H; inversion H; auto.
  - auto.
Qed.

Lemma dict_get_absent {V} (k : string) (d : Py.dict V) :
  ~ In k (Py.keys d) -> Py.dict_get k d = None.
Proof.
  induction d as [|[k' v'] d IH]; simpl; intros Hk; [reflexivity|].
  destruct (String.eqb_spec k' k) as [->|Hne]; [tauto|].
  apply IH; tauto.
Qed.

Lemma in_dict_get {V} (k : string) (v : V) (d : Py.dict V) :
  NoDup (Py.keys d) -> In (k, v) d -> Py.dict_get k d = Some v.
Proof.
  induction d as [|[k' v'] d IH]; simpl; intros Hnd Hin; [contradiction|].
  inversion Hnd as [|? ? Hk' Hnd']; subst.
  destruct Hin as [Heq|Hin].
  - inversion Heq; subst. now rewrite String.eqb_refl.
  - destruct (String.eqb_spec k' k) as [->|Hne]; [|now auto].
    exfalso. apply Hk'. apply (in_map fst) in Hin. exact Hin.
Qed.

(** ** [find_section_starts] *)

Lemma section_entry_keys (text : string) (total : nat)
  (pl : list (string * list string)) (k : string) :
  In k (Py.keys (flat_map (section_entry text total) pl)) ->
  In k (map fst pl).
Proof.
  unfold Py.keys. induction pl as [|e pl IH]; simpl; [tauto|].
  rewrite map_app, in_app_iff. unfold section_entry at 1.
  destruct (located (snd e) text total); simpl; tauto.
Qed.

Lemma locate_loop (text : string) (total : nat)
  (pl : list (string * list string)) :
  forall d : Py.dict nat,
  NoDup (map fst pl) ->
  (forall k, In k (Py.keys d) -> ~ In k (map fst pl)) ->
  fold_left (locate_section text total) pl d
  = (d ++ flat_map (section_entry text total) pl)%list.
Proof.
  induction pl as [|[name kws] pl IH]; intros d Hnd Hd;
    cbn [fold_left flat_map].
  - now rewrite app_nil_r.
  - inversion Hnd as [|? ? Hname Hnd']; subst.
    assert (Hstep : locate_section text total d (name, kws)
                    = (d ++ section_entry text total (name, kws))%list).
    { unfold locate_section, section_entry, located, first_page. cbn [fst snd].
      destruct (Re.search kws (Py.lower text)) as [g|]; cbn [option_map].
      - destruct ((3 <=? Py.int g) && (Py.int g <=? total)).
        + apply dict_set_fresh. intros Hk. apply (Hd name Hk). now left.
        + now rewrite app_nil_r.
      - now rewrite app_nil_r. }
    rewrite Hstep, IH, <- app_assoc; auto.
    intros k Hk Hin. unfold Py.keys in Hk. rewrite map_app, in_app_iff in Hk.
    destruct Hk as [Hk|Hk].
    + apply (Hd k Hk). now right.
    + unfold section_entry in Hk. cbn [fst snd] in Hk.
      destruct (located kws text total); simpl in Hk; [|contradiction].
      destruct Hk as [<-|[]]. contradiction.
Qed.

Lemma patterns_names : map fst patterns = topic_names.
Proof. reflexivity. Qed.

Lemma topic_names_nodup : NoDup topic_names.
Proof.
  unfold topic_names.
  repeat (constructor; [simpl; intuition discriminate|]). constructor.
Qed.

Lemma find_section_starts_entries (text : string) (total : nat) :
  find_section_starts text total
  = flat_map (section_entry text total) patterns.
Proof.
  unfold find_section_starts. rewrite locate_loop.
  - reflexivity.
  - rewrite patterns_names. apply topic_names_nodup.
  - intros k [].
Qed.

Lemma section_entries_nodup (text : string) (total : nat)
  (pl : list (string * list string)) :
  NoDup (map fst pl) ->
  NoDup (Py.keys (flat_map (section_entry text total) pl)).
Proof.
  induction pl as [|e pl IH]; simpl; intros Hnd; [constructor|].
  inversion Hnd as [|? ? Hname Hnd']; subst.
  unfold section_entry at 1.
  destruct (located (snd e) text total); simpl; auto.
  constructor; auto. intros Hin. apply Hname.
  now apply (section_entry_keys text total).
Qed.

Lemma section_entries_lookup (text : string) (total : nat)
  (pl : list (string * list string)) :
  NoDup (map fst pl) ->
  forall name kws, In (name, kws) pl ->
  Py.dict_get name (flat_map (section_entry text total) pl)
  = located kws text total.
Proof.
  induction pl as [|[name' kws'] pl IH]; intros Hnd name kws Hin;
    [contradiction|].
  inversion Hnd as [|? ? Hname Hnd']; subst.
  cbn [flat_map]. unfold section_entry at 1. cbn [fst snd].
  destruct Hin as [Heq|Hin].
  - inversion Heq; subst.
    destruct (located kws text total); simpl.
    + now rewrite String.eqb_refl.
    + apply dict_get_absent. intros Hk. apply Hname.
      now apply (section_entry_keys text total).
  - assert (Hne : name' <> name).
    { intros ->. apply Hname. apply (in_map fst) in Hin. exact Hin. }
    destruct (located kws' text total); simpl.
    + destruct (String.eqb_spec name' name); [contradiction|]. now apply IH.
    + now apply IH.
Qed.

Lemma section_lookup (text : string) (total : nat) (name : string)
  (kws : list string) :
  In (name, kws) patterns ->
  Py.dict_get name (find_section_starts text total) = located kws text total.
Proof.
  intros Hin. rewrite find_section_starts_entries.
  apply section_entries_lookup; auto.
  rewrite patterns_names. apply topic_names_nodup.
Qed.

Lemma find_section_starts_nodup (text : string) (total : nat) :
  NoDup (Py.keys (find_section_starts text total)).
Proof.
  rewrite find_section_starts_entries. apply section_entries_nodup.
  rewrite patterns_names. apply topic_names_nodup.
Qed.

Lemma find_section_starts_names (text : string) (total : nat) (k : string) :
  In k (Py.keys (find_section_starts text total)) -> In k topic_names.
Proof.
  rewrite find_section_starts_entries, <- patterns_names.
  apply section_entry_keys.
Qed.

Lemma located_range (kws : list string) (text : string) (total start : nat) :
  located kws text total = Some start <->
  exists page_num, first_page kws text = Some page_num
    /\ 3 <= page_num <= total /\ start = page_num - 1.
Proof.
  unfold located. destruct (first_page kws text) as [p|].
  - destruct ((3 <=? p) && (p <=? total)) eqn:Hr.
    + apply andb_true_iff in Hr as [H3 Ht].
      apply Nat.leb_le in H3. apply Nat.leb_le in Ht.
      split.
      * intros H; inversion H; subst. exists p. auto.
      * intros [q [Hq [_ ->]]]. inversion Hq; subst. reflexivity.
    + split; [discriminate|].
      intros [q [Hq [[H3 Ht] _]]]. inversion Hq; subst.
      apply Nat.leb_le in H3. apply Nat.leb_le in Ht.
      rewrite H3, Ht in Hr. discriminate.
  - split; [discriminate|]. intros [q [Hq _]]. discriminate.
Qed.

Lemma in_find_section_starts (text : string) (total : nat) (name : string)
  (start : nat) :
  In (name, start) (find_section_starts text total) ->
  exists kws, In (name, kws) patterns /\ located kws text total = Some start.
Proof.
  rewrite find_section_starts_entries, in_flat_map.
  intros [[name' kws] [Hin Hentry]]. unfold section_entry in Hentry.
  cbn [fst snd] in Hentry.
  destruct (located kws text total) as [v|] eqn:Hloc; [|contradiction].
  destruct Hentry as [Heq|[]]. inversion Heq; subst. eauto.
Qed.

(** C2. Every entry of the mapping comes from the page number of the
    topic's match, which lies between 3 and the page count, and holds that
    number minus one; a match whose number lies outside leaves the topic out
    of the mapping. *)
Theorem section_starts_in_range (agenda_text : string) (total_pages : nat) :
  (forall name start,
     In (name, start) (find_section_starts agenda_text total_pages) ->
     exists pattern page_num,
       In (name, pattern) patterns
       /\ first_page pattern agenda_text = Some page_num
       /\ 3 <= page_num <= total_pages
       /\ start = page_num - 1)
  /\ (forall name pattern page_num,
        In (name, pattern) patterns ->
        first_page pattern agenda_text = Some page_num ->
        ~ (3 <= page_num <= total_pages) ->
        Py.dict_get name (find_section_starts agenda_text total_pages) = None
        /\ ~ In name (Py.keys (find_section_starts agenda_text total_pages))).
Proof.
  split.
  - intros name start Hin.
    destruct (in_find_section_starts _ _ _ _ Hin) as [kws [Hp Hloc]].
    apply located_range in Hloc as [p [Hfirst [Hr Hs]]].
    exists kws, p. auto.
  - intros name pattern p Hin Hfirst Hout.
    assert (Hnone : Py.dict_get name
                      (find_section_starts agenda_text total_pages) = None).
    { rewrite (section_lookup _ _ _ _ Hin).
      destruct (located pattern agenda_text total_pages) as [v|] eqn:Hloc;
        [|reflexivity].
      apply located_range in Hloc as [q [Hq [Hr _]]].
      rewrite Hfirst in Hq. inversion Hq; subst. contradiction. }
    split; [exact Hnone|].
    intros Hk. unfold Py.keys in Hk. apply in_map_iff in Hk.
    destruct Hk as [[k v] [Hfst Hkv]]. simpl in Hfst; subst k.
    apply in_dict_get in Hkv; [|apply find_section_starts_nodup].
    congruence.
Qed.

Lemma section_starts_in_range_witness :
  (exists pattern page_num,
     In ("finance", pattern) patterns
     /\ first_page pattern "Finance Report .......... 42" = Some page_num
     /\ 3 <= page_num <= 120 /\ 41 = page_num - 1)
  /\ Py.dict_get "quality" (find_section_starts "Quality page 2" 120) = None.
Proof.
  split.
  - apply (proj1 (section_starts_in_range
                    "Finance Report .......... 42" 120) "finance" 41).
    vm_compute. auto.
  - apply (proj2 (section_starts_in_range "Quality page 2" 120)
             "quality" ["quality"] 2).
    + vm_compute. auto 10.
    + vm_compute. reflexivity.
    + lia.
Defined.

(** The two examples of the design document. *)
Example finance_report_42 :
  find_section_starts "Finance Report .......... 42" 120 = [("finance", 41)].
Proof. vm_compute. reflexivity. Qed.

Example quality_page_2 :
  find_section_starts "Quality page 2" 120 = [].
Proof. vm_compute. reflexivity. Qed.

Lemma lower_char_idem (c : ascii) :
  Py.lower_char (Py.lower_char c) = Py.lower_char c.
Proof. destruct c as [[] [] [] [] [] [] [] []]; reflexivity. Qed.

Lemma lower_idem (s : string) : Py.lower (Py.lower s) = Py.lower s.
Proof.
  unfold Py.lower. induction s as [|c s IH]; simpl; [reflexivity|].
  now rewrite lower_char_idem, IH.
Qed.

Lemma find_section_starts_lower (t1 t2 : string) (total : nat) :
  Py.lower t1 = Py.lower t2 ->
  find_section_starts t1 total = find_section_starts t2 total.
Proof.
  intros H. rewrite !find_section_starts_entries.
  apply flat_map_ext. intros e.
  unfold section_entry, located, first_page. now rewrite H.
Qed.

Lemma find_section_starts_case (t : string) (total : nat) :
  find_section_starts (Py.lower t) total = find_section_starts t total.
Proof. apply find_section_starts_lower, lower_idem. Qed.

Lemma search_occurs (kws : list string) (s : string) :
  (exists g, Re.search kws s = Some g) <->
  (exists pre rest g, s = pre ++ rest /\ pattern_at kws rest g).
Proof.
  split.
  - intros [g Hg]. destruct (search_first kws s g Hg) as [pre [rest [Hs [Hm _]]]].
    exists pre, rest, g. split; [exact Hs | now apply match_here_sound].
  - intros [pre [rest [g [Hs Hp]]]].
    destruct (Re.search kws s) as [g'|] eqn:Hsearch; [eauto|].
    exfalso. destruct (match_here_complete kws rest g Hp) as [g' Hg'].
    rewrite (search_none kws s Hsearch pre rest Hs) in Hg'. discriminate.
Qed.

Lemma search_leftmost (kws : list string) (s g : string) :
  Re.search kws s = Some g ->
  exists pre rest, s = pre ++ rest
    /\ pattern_at kws rest g
    /\ forall pre' rest' g', s = pre' ++ rest' ->
         String.length pre' < String.length pre ->
         ~ pattern_at kws rest' g'.
Proof.
  intros Hg. destruct (search_first kws s g Hg) as [pre [rest [Hs [Hm Hmin]]]].
  exists pre, rest. split; [exact Hs|]. split; [now apply match_here_sound|].
  intros pre' rest' g' Hs' Hlt Hp.
  destruct (match_here_complete kws rest' g' Hp) as [g'' Hg''].
  rewrite (Hmin pre' rest' Hs' Hlt) in Hg''. discriminate.
Qed.

(** C7, as the code has it.  For each of the five topics the locator
    searches the lower-cased agenda for the topic's pattern: one of its
    keywords, at most 60 characters other than a newline, then one to three
    digits that end at a word boundary.  The search succeeds exactly when the
    pattern occurs; the match it takes starts at the leftmost position where
    the pattern occurs; the topic's entry is decided by that match alone, so
    the mapping has at most one entry per topic; texts that differ only in
    case give the same mapping; and "Finance Report .......... 42" with 120
    pages gives finance the start page 41. *)
Theorem topic_pattern_first_match (agenda_text : string) (total_pages : nat)
  (name : string) (kws : list string) :
  In (name, kws) patterns ->
  ((exists g, Re.search kws (Py.lower agenda_text) = Some g) <->
   (exists pre rest g, Py.lower agenda_text = pre ++ rest
                       /\ pattern_at kws rest g))
  /\ (forall g, Re.search kws (Py.lower agenda_text) = Some g ->
        exists pre rest, Py.lower agenda_text = pre ++ rest
          /\ pattern_at kws rest g
          /\ forall pre' rest' g', Py.lower agenda_text = pre' ++ rest' ->
               String.length pre' < String.length pre ->
               ~ pattern_at kws rest' g')
  /\ Py.dict_get name (find_section_starts agenda_text total_pages)
     = match Re.search kws (Py.lower agenda_text) with
       | Some g =>
           if (3 <=? Py.int g) && (Py.int g <=? total_pages)
           then Some (Py.int g - 1) else None
       | None => None
       end
  /\ NoDup (Py.keys (find_section_starts agenda_text total_pages))
  /\ (forall k, In k (Py.keys (find_section_starts agenda_text total_pages))
                -> In k topic_names)
  /\ (forall other, Py.lower other = Py.lower agenda_text ->
        find_section_starts other total_pages
        = find_section_starts agenda_text total_pages)
  /\ find_section_starts "Finance Report .......... 42" 120
     = [("finance", 41)].
Proof.
  intros Hin.
  split; [apply search_occurs|].
  split; [intros g; apply search_leftmost|].
  split.
  { rewrite (section_lookup _ _ _ _ Hin). unfold located, first_page.
    destruct (Re.search kws (Py.lower agenda_text)); reflexivity. }
  split; [apply find_section_starts_nodup|].
  split; [apply find_section_starts_names|].
  split; [intros other H; now apply find_section_starts_lower|].
  vm_compute. reflexivity.
Qed.

Lemma topic_pattern_first_match_witness :
  Py.dict_get "workforce"
    (find_section_starts "12. People Committee update - page 57" 120)
  = Some 56.
Proof.
  destruct (topic_pattern_first_match
              "12. People Committee update - page 57" 120
              "workforce" ["people committee"; "workforce"])
    as [_ [_ [Hget _]]].
  - vm_compute. auto 10.
  - rewrite Hget. vm_compute. reflexivity.
Defined.

(** C7, as the design document words it, fails: the described pattern (a
    keyword, up to 60 arbitrary characters, one to three digits) occurs in
    these two agendas with the in-range number 42, and the locator finds no
    finance section in either, because of the newline in the first and the
    letters that follow the digits in the second. *)
Lemma described_pattern_not_matched :
  In ("finance", ["finance report"]) patterns
  /\ 3 <= Py.int "42" <= 120
  /\ described_pattern_at ["finance report"]
       (Py.lower ("Finance Report" ++ nl ++ "42")) "42"
  /\ Re.search ["finance report"]
       (Py.lower ("Finance Report" ++ nl ++ "42")) = None
  /\ find_section_starts ("Finance Report" ++ nl ++ "42") 120 = []
  /\ described_pattern_at ["finance report"]
       (Py.lower "Finance Report 42nd") "42"
  /\ Re.search ["finance report"] (Py.lower "Finance Report 42nd") = None
  /\ find_section_starts "Finance Report 42nd" 120 = [].
Proof.
  split; [vm_compute; auto 10|].
  split; [vm_compute; lia|].
  split.
  { exists "finance report", nl, "".
    split; [now left|]. split; [reflexivity|].
    split; [simpl; lia|]. split; [simpl; lia | reflexivity]. }
  split; [vm_compute; reflexivity|].
  split; [vm_compute; reflexivity|].
  split.
  { exists "finance report", " ", "nd".
    split; [now left|]. split; [reflexivity|].
    split; [simpl; lia|]. split; [simpl; lia | reflexivity]. }
  split; vm_compute; reflexivity.
Qed.

(** C10. The topic's entry is decided by the leftmost match of its pattern:
    when the page number of that match lies outside 3 .. total_pages the
    topic is absent from the mapping, whatever follows in the agenda. *)
Theorem first_match_decides (agenda_text : string) (total_pages : nat)
  (name : string) (pattern : list string) (pre rest g : string) :
  In (name, pattern) patterns ->
  Py.lower agenda_text = pre ++ rest ->
  Re.match_here pattern rest = Some g ->
  (forall pre' rest', Py.lower agenda_text = pre' ++ rest' ->
     String.length pre' < String.length pre ->
     Re.match_here pattern rest' = None) ->
  ~ (3 <= Py.int g <= total_pages) ->
  Py.dict_get name (find_section_starts agenda_text total_pages) = None
  /\ ~ In name (Py.keys (find_section_starts agenda_text total_pages)).
Proof.
  intros Hin Hsplit Hmatch Hmin Hout.
  assert (Hsearch : Re.search pattern (Py.lower agenda_text) = Some g).
  { rewrite Hsplit. apply search_found; auto.
    intros pre' rest' Hs. apply Hmin. now rewrite Hsplit. }
  assert (Hnone : Py.dict_get name
                    (find_section_starts agenda_text total_pages) = None).
  { rewrite (section_lookup _ _ _ _ Hin). unfold located, first_page.
    rewrite Hsearch. cbn [option_map].
    destruct ((3 <=? Py.int g) && (Py.int g <=? total_pages)) eqn:Hr;
      [|reflexivity].
    apply andb_true_iff in Hr as [H3 Ht].
    apply Nat.leb_le in H3. apply Nat.leb_le in Ht. lia. }
  split; [exact Hnone|].
  intros Hk. unfold Py.keys in Hk. apply in_map_iff in Hk.
  destruct Hk as [[k v] [Hfst Hkv]]. simpl in Hfst; subst k.
  apply in_dict_get in Hkv; [|apply find_section_starts_nodup].
  congruence.
Qed.

(** An agenda whose first "quality" line carries the page number 2 and whose
    second carries 45: the second line alone would give the start page 44,
    and the agenda gives no quality entry. *)
Lemma first_match_decides_witness :
  find_section_starts "Quality 45" 120 = [("quality", 44)]
  /\ Py.dict_get "quality"
       (find_section_starts ("Quality 2" ++ nl ++ "Quality 45") 120) = None.
Proof.
  split; [vm_compute; reflexivity|].
  apply (first_match_decides ("Quality 2" ++ nl ++ "Quality 45") 120
           "quality" ["quality"] "" ("quality 2" ++ nl ++ "quality 45") "2").
  - vm_compute. auto 10.
  - vm_compute. reflexivity.
  - vm_compute. reflexivity.
  - intros pre' rest' _ Hlt. cbn [String.length] in Hlt. lia.
  - vm_compute. lia.
Defined.

(** ** [extract_targeted_text] *)

Lemma dict_get_set_same {V} (k : string) (v : V) (d : Py.dict V) :
  Py.dict_get k (Py.dict_set k v d) = Some v.
Proof.
  induction d as [|[k' v'] d IH]; simpl.
  - now rewrite String.eqb_refl.
  - destruct (String.eqb_spec k' k) as [->|Hne]; simpl.
    + now rewrite String.eqb_refl.
    + destruct (String.eqb_spec k' k); [contradiction | exact IH].
Qed.

Lemma dict_get_set_other {V} (k k' : string) (v : V) (d : Py.dict V) :
  k <> k' -> Py.dict_get k' (Py.dict_set k v d) = Py.dict_get k' d.
Proof.
  intros Hne. induction d as [|[k0 v0] d IH]; simpl.
  - destruct (String.eqb_spec k k'); [contradiction | reflexivity].
  - destruct (String.eqb_spec k0 k) as [->|Hk0]; simpl.
    + destruct (String.eqb_spec k k'); [contradiction | reflexivity].
    + destruct (String.eqb_spec k0 k'); [reflexivity | exact IH].
Qed.

Lemma set_all_app {V} (e1 e2 : list (string * V)) (d : Py.dict V) :
  set_all (e1 ++ e2) d = set_all e2 (set_all e1 d).
Proof. unfold set_all. apply fold_left_app. Qed.

Lemma dict_get_set_all_other {V} (k : string) (entries : list (string * V)) :
  forall d, ~ In k (Py.keys entries) ->
  Py.dict_get k (set_all entries d) = Py.dict_get k d.
Proof.
  induction entries as [|[k' v'] entries IH]; intros d Hk; [reflexivity|].
  unfold set_all in *. cbn [fold_left fst snd].
  rewrite IH by (simpl in Hk; tauto).
  apply dict_get_set_other. simpl in Hk; tauto.
Qed.

Lemma set_all_fresh {V} (entries : list (string * V)) :
  forall d,
  NoDup (Py.keys entries) ->
  (forall k, In k (Py.keys entries) -> ~ In k (Py.keys d)) ->
  set_all entries d = (d ++ entries)%list.
Proof.
  induction entries as [|[k v] entries IH]; intros d Hnd Hd.
  - simpl. now rewrite app_nil_r.
  - simpl in Hnd. inversion Hnd as [|? ? Hk Hnd']; subst.
    unfold set_all in *. cbn [fold_left fst snd].
    rewrite dict_set_fresh by (apply Hd; now left).
    rewrite IH; auto.
    + now rewrite <- app_assoc.
    + intros k' Hk' Hin. unfold Py.keys in Hin.
      rewrite map_app, in_app_iff in Hin. destruct Hin as [Hin|Hin].
      * apply (Hd k'); [now right | exact Hin].
      * simpl in Hin. destruct Hin as [<-|[]]. contradiction.
Qed.

Lemma store_sections_loop (label : string) (pdf : PdfDocument)
  (sections : Py.dict nat) :
  forall st,
  all_sections (fold_left (store_section label pdf (List.length pdf))
                          sections st)
  = set_all (section_texts label pdf sections) (all_sections st)
  /\ output (fold_left (store_section label pdf (List.length pdf))
                       sections st)
     = output st.
Proof.
  induction sections as [|[name start] sections IH]; intros st.
  - split; reflexivity.
  - cbn [fold_left]. destruct (IH (store_section label pdf (List.length pdf)
                                      st (name, start))) as [IHs IHo].
    rewrite IHs, IHo. split; reflexivity.
Qed.

Lemma process_pdf_opened (open_pdf : string -> OpenResult) (st : State)
  (pdf_path : string) (pdf : PdfDocument) :
  open_pdf pdf_path = Opened pdf ->
  all_sections (process_pdf open_pdf st pdf_path)
  = set_all (document_stores (Py.basename pdf_path) pdf) (all_sections st).
Proof.
  intros Hopen. unfold process_pdf, document_stores. rewrite Hopen.
  fold (agenda_of pdf).
  destruct (find_section_starts (agenda_of pdf) (List.length pdf))
    as [|entry sections] eqn:Hsections.
  - reflexivity.
  - rewrite (proj1 (store_sections_loop _ _ _ _)). reflexivity.
Qed.

Lemma process_pdf_failed (open_pdf : string -> OpenResult) (st : State)
  (pdf_path error : string) :
  open_pdf pdf_path = OpenFailed error ->
  process_pdf open_pdf st pdf_path
  = mkState (all_sections st)
            (output st ++ [Reading (Py.basename pdf_path);
                           CouldNotOpen error])%list.
Proof.
  intros Hopen. unfold process_pdf. rewrite Hopen.
  unfold print; simpl. now rewrite <- app_assoc.
Qed.

Lemma process_pdf_stores (open_pdf : string -> OpenResult) (st : State)
  (pdf_path : string) :
  all_sections (process_pdf open_pdf st pdf_path)
  = set_all (path_stores open_pdf pdf_path) (all_sections st).
Proof.
  unfold path_stores. destruct (open_pdf pdf_path) as [pdf|error] eqn:Hopen.
  - now apply process_pdf_opened.
  - now rewrite (process_pdf_failed _ _ _ error).
Qed.

Lemma run_loop_stores (open_pdf : string -> OpenResult)
  (pdf_paths : list string) :
  forall st,
  all_sections (fold_left (process_pdf open_pdf) pdf_paths st)
  = set_all (run_stores open_pdf pdf_paths) (all_sections st).
Proof.
  induction pdf_paths as [|path paths IH]; intros st; [reflexivity|].
  cbn [fold_left]. rewrite IH, process_pdf_stores.
  unfold run_stores. cbn [flat_map]. now rewrite set_all_app.
Qed.

Lemma process_pdf_output (open_pdf : string -> OpenResult) (st : State)
  (pdf_path : string) :
  exists events,
    output (process_pdf open_pdf st pdf_path) = (output st ++ events)%list.
Proof.
  unfold process_pdf. destruct (open_pdf pdf_path) as [pdf|error].
  - destruct (find_section_starts _ _) as [|entry sections].
    + eexists. cbn. rewrite <- !app_assoc. reflexivity.
    + rewrite (proj2 (store_sections_loop _ _ _ _)).
      eexists. cbn. rewrite <- !app_assoc. reflexivity.
  - eexists. cbn. rewrite <- !app_assoc. reflexivity.
Qed.

Lemma run_loop_output (open_pdf : string -> OpenResult)
  (pdf_paths : list string) :
  forall st,
  exists events,
    output (fold_left (process_pdf open_pdf) pdf_paths st)
    = (output st ++ events)%list.
Proof.
  induction pdf_paths as [|path paths IH]; intros st.
  - exists []. simpl. now rewrite app_nil_r.
  - cbn [fold_left].
    destruct (IH (process_pdf open_pdf st path)) as [ev2 H2].
    destruct (process_pdf_output open_pdf st path) as [ev1 H1].
    exists (ev1 ++ ev2)%list. now rewrite H2, H1, <- app_assoc.
Qed.

(** ** Section keys *)

Lemma append_eq_cases (a b s1 s2 : string) :
  a ++ s1 = b ++ s2 ->
  (exists x, a = b ++ x /\ x ++ s1 = s2)
  \/ (exists x, b = a ++ x /\ x ++ s2 = s1).
Proof.
  revert b; induction a as [|c a IH]; intros b H.
  - right. exists b. simpl in *. auto.
  - destruct b as [|c' b].
    + left. exists (String c a). simpl in *. auto.
    + simpl in H. inversion H; subst c'.
      destruct (IH b H2) as [[x [Ha Hx]]|[x [Hb Hx]]].
      * left. exists x. simpl. now rewrite Ha.
      * right. exists x. simpl. now rewrite Hb.
Qed.

Lemma proper_suffix_append (x s t : string) :
  x <> "" -> x ++ s = t -> proper_suffix s t = true.
Proof.
  revert t; induction x as [|c x IH]; intros t Hx H; [congruence|].
  subst t. simpl. destruct x as [|c' x].
  - simpl. now rewrite String.eqb_refl.
  - rewrite (IH (String c' x ++ s)) by (auto; discriminate).
    apply orb_true_r.
Qed.

Lemma section_suffixes_apart (n1 n2 : string) :
  In n1 section_names -> In n2 section_names ->
  proper_suffix ("__" ++ n1) ("__" ++ n2) = false.
Proof.
  assert (Htable : forallb (fun a => forallb (fun b =>
            negb (proper_suffix ("__" ++ a) ("__" ++ b))) section_names)
            section_names = true) by (vm_compute; reflexivity).
  intros H1 H2. rewrite forallb_forall in Htable.
  specialize (Htable n1 H1). rewrite forallb_forall in Htable.
  specialize (Htable n2 H2). now apply negb_true_iff in Htable.
Qed.

Lemma section_key_inj (l1 l2 n1 n2 : string) :
  In n1 section_names -> In n2 section_names ->
  section_key l1 n1 = section_key l2 n2 -> l1 = l2 /\ n1 = n2.
Proof.
  intros H1 H2 Hkey. unfold section_key in Hkey.
  assert (Hdone : forall a b m1 m2 x,
            In m1 section_names -> In m2 section_names ->
            a = b ++ x -> x ++ ("__" ++ m1) = "__" ++ m2 ->
            a = b /\ m1 = m2).
  { intros a b m1 m2 x Hm1 Hm2 Ha Hx. destruct x as [|c x].
    - simpl in Hx. rewrite append_empty_r in Ha. split; [exact Ha|].
      now inversion Hx.
    - exfalso. pose proof (section_suffixes_apart m1 m2 Hm1 Hm2) as Hfalse.
      rewrite (proper_suffix_append (String c x) _ _) in Hfalse;
        [discriminate | discriminate | exact Hx]. }
  destruct (append_eq_cases _ _ _ _ Hkey) as [[x [Ha Hx]]|[x [Hb Hx]]].
  - now apply (Hdone l1 l2 n1 n2 x).
  - destruct (Hdone l2 l1 n2 n1 x) as [-> ->]; auto.
Qed.

Lemma topic_is_section_name (n : string) :
  In n topic_names -> In n section_names.
Proof. unfold section_names. intros H. right. apply in_app_iff. now left. Qed.

Lemma part_is_section_name (n : string) :
  In n part_names -> In n section_names.
Proof. unfold section_names. intros H. right. apply in_app_iff. now right. Qed.

Lemma topic_not_part (n : string) : In n topic_names -> ~ In n part_names.
Proof. unfold topic_names, part_names. simpl. intuition (subst; discriminate). Qed.

Lemma topic_not_agenda (n : string) : In n topic_names -> n <> "agenda".
Proof. unfold topic_names. simpl. intuition (subst; discriminate). Qed.

Lemma part_not_agenda (n : string) : In n part_names -> n <> "agenda".
Proof. unfold part_names. simpl. intuition (subst; discriminate). Qed.

Lemma section_texts_keys (label : string) (pdf : PdfDocument)
  (sections : Py.dict nat) :
  Py.keys (section_texts label pdf sections)
  = map (section_key label) (Py.keys sections).
Proof.
  unfold Py.keys, section_texts. rewrite !map_map. reflexivity.
Qed.

(** The names under which a document stores its texts. *)
Lemma document_stores_keys (label : string) (pdf : PdfDocument) :
  exists names,
    Py.keys (document_stores label pdf)
    = map (section_key label) ("agenda" :: names)
    /\ NoDup ("agenda" :: names)
    /\ (forall n, In n names -> In n section_names)
    /\ ((names <> [] /\ forall n, In n names -> In n topic_names)
        \/ names = part_names).
Proof.
  unfold document_stores.
  destruct (find_section_starts (agenda_of pdf) (List.length pdf))
    as [|entry sections] eqn:Hsections.
  - exists part_names. split; [reflexivity|]. split.
    + unfold part_names.
      repeat (constructor; [simpl; intuition discriminate|]). constructor.
    + split; [apply part_is_section_name | now right].
  - exists (Py.keys (entry :: sections)).
    assert (Htopics : forall n, In n (Py.keys (entry :: sections)) ->
                                In n topic_names).
    { intros n Hn. rewrite <- Hsections in Hn.
      now apply find_section_starts_names in Hn. }
    split.
    + cbn [Py.keys map]. f_equal.
      change (map fst (section_texts label pdf (entry :: sections)))
        with (Py.keys (section_texts label pdf (entry :: sections))).
      now rewrite section_texts_keys.
    + split; [|split].
      * constructor.
        -- intros Hin. now apply (topic_not_agenda _ (Htopics _ Hin)).
        -- rewrite <- Hsections. apply find_section_starts_nodup.
      * intros n Hn. apply topic_is_section_name. now apply Htopics.
      * left. split; [discriminate | exact Htopics].
Qed.

Lemma section_keys_nodup (label : string) (names : list string) :
  NoDup names -> (forall n, In n names -> In n section_names) ->
  NoDup (map (section_key label) names).
Proof.
  induction names as [|n names IH]; intros Hnd Hin; simpl; [constructor|].
  inversion Hnd as [|? ? Hn Hnd']; subst. constructor.
  - intros Hk. apply in_map_iff in Hk. destruct Hk as [m [Hkey Hm]].
    apply section_key_inj in Hkey as [_ ->]; auto.
    + apply Hin. now right.
    + apply Hin. now left.
  - apply IH; auto. intros m Hm. apply Hin. now right.
Qed.

Lemma document_stores_nodup (label : string) (pdf : PdfDocument) :
  NoDup (Py.keys (document_stores label pdf)).
Proof.
  destruct (document_stores_keys label pdf) as [names [Hkeys [Hnd [Hin _]]]].
  rewrite Hkeys. apply section_keys_nodup; auto.
  intros n [<-|Hn]; [now left | now apply Hin].
Qed.

Lemma document_stores_label (label : string) (pdf : PdfDocument) (k : string) :
  In k (Py.keys (document_stores label pdf)) ->
  exists n, In n section_names /\ k = section_key label n.
Proof.
  destruct (document_stores_keys label pdf) as [names [Hkeys [_ [Hin _]]]].
  rewrite Hkeys. intros Hk. apply in_map_iff in Hk.
  destruct Hk as [n [Hkey Hn]]. exists n. split; [|now symmetry].
  destruct Hn as [<-|Hn]; [now left | now apply Hin].
Qed.

(** C3. A document that opens stores its first [min 6 total] pages under
    [<label>__agenda], and after that either one text per located topic,
    under topic keys, when the locator found a section, or the three parts
    under [part_1], [part_2], [part_3] when it found none; it never stores
    under a topic key and under a part key. *)
Theorem opened_document_entries (open_pdf : string -> OpenResult)
  (st : State) (pdf_path : string) (pdf : PdfDocument) :
  open_pdf pdf_path = Opened pdf ->
  let label := Py.basename pdf_path in
  let total := List.length pdf in
  let agenda := extract_pages pdf 0 (Nat.min 6 total) in
  let sections := find_section_starts agenda total in
  let after := all_sections (process_pdf open_pdf st pdf_path) in
  exists rest,
    after = set_all ((section_key label "agenda", agenda) :: rest)
                    (all_sections st)
    /\ Py.dict_get (section_key label "agenda") after = Some agenda
    /\ ((sections <> []
         /\ rest = map (fun entry =>
                          (section_key label (fst entry),
                           extract_pages pdf (snd entry)
                             (Nat.min (snd entry + 30) total)))
                       sections
         /\ forall k, In k (Py.keys rest) ->
                      exists n, In n topic_names /\ k = section_key label n)
        \/ (sections = []
            /\ rest = part_texts label pdf
            /\ Py.keys rest = map (section_key label) part_names))
    /\ ~ (exists t p, In t topic_names /\ In p part_names
                      /\ In (section_key label t) (Py.keys rest)
                      /\ In (section_key label p) (Py.keys rest)).
Proof.
  intros Hopen label total agenda sections after.
  pose proof (process_pdf_opened open_pdf st pdf_path pdf Hopen) as Hafter.
  pose proof (document_stores_nodup label pdf) as Hnd.
  pose proof (find_section_starts_names agenda total) as Hnames.
  unfold document_stores in Hafter, Hnd.
  change (agenda_of pdf) with agenda in Hafter, Hnd.
  change (find_section_starts agenda (List.length pdf))
    with sections in Hafter, Hnd.
  change (find_section_starts agenda total) with sections in Hnames.
  change (all_sections (process_pdf open_pdf st pdf_path))
    with after in Hafter.
  change (Py.basename pdf_path) with label in Hafter.
  clearbody sections after.
  assert (Hagenda : forall rest,
            after = set_all ((section_key label "agenda", agenda) :: rest)
                            (all_sections st) ->
            NoDup (Py.keys ((section_key label "agenda", agenda) :: rest)) ->
            Py.dict_get (section_key label "agenda") after = Some agenda).
  { intros rest Heq Hnodup. rewrite Heq. unfold set_all.
    cbn [fold_left fst snd].
    fold (set_all rest (Py.dict_set (section_key label "agenda") agenda
                                    (all_sections st))).
    rewrite dict_get_set_all_other.
    - apply dict_get_set_same.
    - cbn [Py.keys map fst] in Hnodup. now inversion Hnodup. }
  destruct sections as [|entry more].
  - exists (part_texts label pdf).
    split; [exact Hafter|]. split; [exact (Hagenda _ Hafter Hnd)|]. split.
    + right. repeat split; reflexivity.
    + intros [t [p [Ht [Hp [Hin_t _]]]]].
      change (Py.keys (part_texts label pdf))
        with (map (section_key label) part_names) in Hin_t.
      apply in_map_iff in Hin_t. destruct Hin_t as [n [Hkey Hn]].
      apply section_key_inj in Hkey as [_ ->].
      * now apply (topic_not_part t).
      * now apply part_is_section_name.
      * now apply topic_is_section_name.
  - assert (Htopics : forall k,
              In k (Py.keys (section_texts label pdf (entry :: more))) ->
              exists n, In n topic_names /\ k = section_key label n).
    { intros k Hk. rewrite section_texts_keys in Hk.
      apply in_map_iff in Hk. destruct Hk as [n [Hkey Hn]].
      exists n. split; [now apply Hnames | now symmetry]. }
    exists (section_texts label pdf (entry :: more)).
    split; [exact Hafter|]. split; [exact (Hagenda _ Hafter Hnd)|]. split.
    + left. split; [discriminate|]. split; [reflexivity | exact Htopics].
    + intros [t [p [Ht [Hp [_ Hin_p]]]]].
      destruct (Htopics _ Hin_p) as [n [Hn Hkey]].
      apply section_key_inj in Hkey as [_ ->].
      * now apply (topic_not_part n).
      * now apply part_is_section_name.
      * now apply topic_is_section_name.
Qed.

Lemma opened_document_entries_witness :
  exists rest,
    all_sections (process_pdf two_directories (mkState [] []) "jan/board.pdf")
    = set_all (("board.pdf__agenda", "-- Page 1 --" ++ nl ++ "January")
               :: rest) []
    /\ Py.keys rest = ["board.pdf__part_1"; "board.pdf__part_2";
                       "board.pdf__part_3"].
Proof.
  destruct (opened_document_entries two_directories (mkState [] [])
              "jan/board.pdf" [TextPage "January"] eq_refl)
    as [rest [Hafter [_ [Hkinds _]]]].
  exists rest. split; [exact Hafter|].
  destruct Hkinds as [[Hsome _]|[_ [_ Hkeys]]].
  - exfalso. apply Hsome. vm_compute. reflexivity.
  - exact Hkeys.
Defined.

(** ** The corpus over a run *)

Lemma run_stores_labels (open_pdf : string -> OpenResult)
  (pdf_paths : list string) (k : string) :
  In k (Py.keys (run_stores open_pdf pdf_paths)) ->
  exists path n, In path pdf_paths /\ In n section_names
                 /\ k = section_key (Py.basename path) n.
Proof.
  unfold run_stores, Py.keys. induction pdf_paths as [|path paths IH].
  - intros [].
  - cbn [flat_map]. rewrite map_app, in_app_iff. intros [Hk|Hk].
    + unfold path_stores in Hk.
      destruct (open_pdf path) as [pdf|error]; [|contradiction].
      destruct (document_stores_label _ _ _ Hk) as [n [Hn Hkey]].
      exists path, n. repeat split; auto. now left.
    + destruct (IH Hk) as [path' [n [Hin [Hn Hkey]]]].
      exists path', n. repeat split; auto. now right.
Qed.

Lemma run_stores_nodup (open_pdf : string -> OpenResult)
  (pdf_paths : list string) :
  NoDup (map Py.basename pdf_paths) ->
  NoDup (Py.keys (run_stores open_pdf pdf_paths)).
Proof.
  induction pdf_paths as [|path paths IH]; intros Hnd; [constructor|].
  simpl in Hnd. inversion Hnd as [|? ? Hlabel Hnd']; subst.
  unfold run_stores, Py.keys. cbn [flat_map]. rewrite map_app.
  apply NoDup_app.
  - unfold path_stores. destruct (open_pdf path) as [pdf|error].
    + apply document_stores_nodup.
    + constructor.
  - now apply IH.
  - intros k Hk Hk'.
    apply (run_stores_labels open_pdf paths) in Hk'.
    destruct Hk' as [path' [n' [Hin' [Hn' Hkey']]]].
    unfold path_stores in Hk.
    destruct (open_pdf path) as [pdf|error]; [|contradiction].
    destruct (document_stores_label _ _ _ Hk) as [n [Hn Hkey]].
    rewrite Hkey in Hkey'. apply section_key_inj in Hkey' as [Hsame _]; auto.
    apply Hlabel. rewrite Hsame. now apply in_map.
Qed.

(** C8, as stated, fails: two paths with the same file name give the same
    keys, and the second document replaces the texts of the first. *)
Lemma corpus_entry_overwritten :
  Py.dict_get "board.pdf__agenda"
    (extract_targeted_text two_directories ["jan/board.pdf"])
  = Some ("-- Page 1 --" ++ nl ++ "January")
  /\ Py.dict_get "board.pdf__agenda"
       (extract_targeted_text two_directories
          ["jan/board.pdf"; "feb/board.pdf"])
     = Some ("-- Page 1 --" ++ nl ++ "February").
Proof. split; vm_compute; reflexivity. Qed.

Lemma set_all_snoc {V} (entries : list (string * V)) (k : string) (v : V)
  (d : Py.dict V) :
  set_all (entries ++ [(k, v)]) d = Py.dict_set k v (set_all entries d).
Proof. rewrite set_all_app. reflexivity. Qed.

Lemma dict_get_set_all_cases {V} (k : string) (v : V)
  (entries : list (string * V)) (d : Py.dict V) :
  Py.dict_get k (set_all entries d) = Some v ->
  In (k, v) entries \/ Py.dict_get k d = Some v.
Proof.
  induction entries as [|[k' v'] entries IH] using rev_ind; [now right|].
  rewrite set_all_snoc. destruct (String.eqb_spec k' k) as [->|Hne].
  - rewrite dict_get_set_same. intros H; inversion H; subst.
    left. apply in_or_app. right. now left.
  - rewrite dict_get_set_other by exact Hne. intros H.
    destruct (IH H) as [Hin|Hd]; [left | now right].
    apply in_or_app. now left.
Qed.

Lemma dict_get_set_all_consistent {V} (k : string) (v : V)
  (entries : list (string * V)) (d : Py.dict V) :
  consistent entries -> In (k, v) entries ->
  Py.dict_get k (set_all entries d) = Some v.
Proof.
  induction entries as [|[k' v'] entries IH] using rev_ind;
    intros Hc Hin; [contradiction|].
  rewrite set_all_snoc. destruct (String.eqb_spec k' k) as [->|Hne].
  - rewrite dict_get_set_same. f_equal.
    apply (Hc k); [|exact Hin]. apply in_or_app. right. now left.
  - rewrite dict_get_set_other by exact Hne. apply IH.
    + intros k0 v1 v2 H1 H2. apply (Hc k0); apply in_or_app; now left.
    + apply in_app_or in Hin. destruct Hin as [Hin|[Heq|[]]]; [exact Hin|].
      inversion Heq; subst. contradiction.
Qed.

Lemma in_run_stores (open_pdf : string -> OpenResult)
  (pdf_paths : list string) (k v : string) :
  In (k, v) (run_stores open_pdf pdf_paths) ->
  exists path pdf n,
    In path pdf_paths /\ open_pdf path = Opened pdf
    /\ In (k, v) (document_stores (Py.basename path) pdf)
    /\ In n section_names /\ k = section_key (Py.basename path) n.
Proof.
  unfold run_stores. rewrite in_flat_map. intros [path [Hpath Hin]].
  unfold path_stores in Hin.
  destruct (open_pdf path) as [pdf|error] eqn:Hopen; [|contradiction].
  destruct (document_stores_label (Py.basename path) pdf k) as [n [Hn Hkey]].
  { apply (in_map fst) in Hin. exact Hin. }
  exists path, pdf, n. auto.
Qed.

Lemma run_stores_consistent (open_pdf : string -> OpenResult)
  (pdf_paths : list string) :
  names_identify_paths pdf_paths ->
  consistent (run_stores open_pdf pdf_paths).
Proof.
  intros Hnames k v1 v2 H1 H2.
  destruct (in_run_stores _ _ _ _ H1) as [p [pdf1 [n1 [Hp [Ho1 [Hd1 [Hn1 Hk1]]]]]]].
  destruct (in_run_stores _ _ _ _ H2) as [q [pdf2 [n2 [Hq [Ho2 [Hd2 [Hn2 Hk2]]]]]]].
  rewrite Hk1 in Hk2. apply section_key_inj in Hk2 as [Hsame _]; auto.
  apply (Hnames p q Hp Hq) in Hsame. subst q.
  rewrite Ho1 in Ho2. inversion Ho2; subst pdf2.
  pose proof (document_stores_nodup (Py.basename p) pdf1) as Hnd.
  apply (in_dict_get _ _ _ Hnd) in Hd1. apply (in_dict_get _ _ _ Hnd) in Hd2.
  congruence.
Qed.

(** C8, for lists of paths in which two different paths never have the same
    file name.  No stored text is changed or removed: what the corpus holds
    after any number of the run's assignments, and so after any first part of
    the paths, it still holds at the end.  When no path occurs twice either,
    every assignment goes to a new key, and the corpus is the list of the
    assignments in the order they were made. *)
Theorem corpus_append_only (open_pdf : string -> OpenResult)
  (pdf_paths : list string) :
  names_identify_paths pdf_paths ->
  (forall stored later k v,
     run_stores open_pdf pdf_paths = (stored ++ later)%list ->
     Py.dict_get k (set_all stored []) = Some v ->
     Py.dict_get k (extract_targeted_text open_pdf pdf_paths) = Some v)
  /\ (forall done todo k v,
        pdf_paths = (done ++ todo)%list ->
        Py.dict_get k (extract_targeted_text open_pdf done) = Some v ->
        Py.dict_get k (extract_targeted_text open_pdf pdf_paths) = Some v)
  /\ (NoDup pdf_paths ->
      NoDup (Py.keys (run_stores open_pdf pdf_paths))
      /\ extract_targeted_text open_pdf pdf_paths
         = run_stores open_pdf pdf_paths).
Proof.
  intros Hnames.
  assert (Hrun : forall paths,
            extract_targeted_text open_pdf paths
            = set_all (run_stores open_pdf paths) []).
  { intros paths. unfold extract_targeted_text, run_extraction.
    now rewrite run_loop_stores. }
  assert (Hkeep : forall stored later k v,
            run_stores open_pdf pdf_paths = (stored ++ later)%list ->
            Py.dict_get k (set_all stored []) = Some v ->
            Py.dict_get k (extract_targeted_text open_pdf pdf_paths) = Some v).
  { intros stored later k v Hsplit Hget. rewrite Hrun.
    apply dict_get_set_all_consistent.
    - now apply run_stores_consistent.
    - rewrite Hsplit. apply in_or_app. left.
      destruct (dict_get_set_all_cases _ _ _ _ Hget) as [Hin|Hd];
        [exact Hin | discriminate]. }
  split; [exact Hkeep|]. split.
  - intros done todo k v Hsplit Hget.
    apply (Hkeep (run_stores open_pdf done) (run_stores open_pdf todo)).
    + subst pdf_paths. unfold run_stores. apply flat_map_app.
    + now rewrite <- Hrun.
  - intros Hnd.
    assert (Hkeys : NoDup (Py.keys (run_stores open_pdf pdf_paths))).
    { apply run_stores_nodup.
      apply NoDup_map_NoDup_ForallPairs; [|exact Hnd].
      intros p q Hp Hq. now apply Hnames. }
    split; [exact Hkeys|].
    rewrite Hrun. apply set_all_fresh; [exact Hkeys | intros k _ []].
Qed.

Lemma corpus_append_only_witness :
  names_identify_paths ["jan/board.pdf"; "feb/minutes.pdf"; "jan/board.pdf"]
  /\ (Py.dict_get "board.pdf__agenda"
        (extract_targeted_text two_directories
           (["jan/board.pdf"] ++ ["feb/minutes.pdf"; "jan/board.pdf"])%list)
      = Some ("-- Page 1 --" ++ nl ++ "January")).
Proof.
  assert (Hnames : names_identify_paths
                     ["jan/board.pdf"; "feb/minutes.pdf"; "jan/board.pdf"]).
  { intros p q Hp Hq. simpl in Hp, Hq.
    destruct Hp as [<-|[<-|[<-|[]]]]; destruct Hq as [<-|[<-|[<-|[]]]];
      vm_compute; intros H; try reflexivity; discriminate H. }
  split; [exact Hnames|].
  apply (proj1 (proj2 (corpus_append_only two_directories
                         ["jan/board.pdf"; "feb/minutes.pdf"; "jan/board.pdf"]
                         Hnames))
           ["jan/board.pdf"] ["feb/minutes.pdf"; "jan/board.pdf"]).
  - reflexivity.
  - vm_compute. reflexivity.
Defined.

Example located_sections_stored :
  extract_targeted_text two_directories ["feb/minutes.pdf"]
  = [ ("minutes.pdf__agenda",
       "-- Page 1 --" ++ nl ++ "Agenda: Finance Report ... 3" ++ nl
       ++ "-- Page 2 --" ++ nl ++ "Minutes" ++ nl
       ++ "-- Page 3 --" ++ nl ++ "Finance figures");
      ("minutes.pdf__finance", "-- Page 3 --" ++ nl ++ "Finance figures") ].
Proof. vm_compute. reflexivity. Qed.


(** * The other stages *)

(** ** First hits *)

Lemma find_first {A} (p : A -> bool) (before after : list A) (x : A) :
  Forall (fun y => p y = false) before -> p x = true ->
  find p (before ++ x :: after) = Some x.
Proof.
  induction before as [|y before IH]; intros Hb Hx; simpl.
  - now rewrite Hx.
  - inversion Hb as [|? ? Hy Hb']; subst. rewrite Hy. now apply IH.
Qed.

Lemma find_split {A} (p : A -> bool) (l : list A) (x : A) :
  find p l = Some x ->
  exists before after, l = (before ++ x :: after)%list
    /\ Forall (fun y => p y = false) before /\ p x = true.
Proof.
  induction l as [|y l IH]; simpl; [discriminate|].
  destruct (p y) eqn:Hy.
  - intros H; inversion H; subst. exists [], l. auto.
  - intros H. destruct (IH H) as [before [after [Hl [Hb Hx]]]].
    exists (y :: before), after. subst l. auto.
Qed.

Lemma find_none_all {A} (p : A -> bool) (l : list A) :
  find p l = None <-> Forall (fun y => p y = false) l.
Proof.
  induction l as [|y l IH]; simpl.
  - split; auto.
  - destruct (p y) eqn:Hy; split.
    + discriminate.
    + intros H; inversion H; congruence.
    + intros H. constructor; [exact Hy | now apply IH].
    + intros H; inversion H; now apply IH.
Qed.

(** ** [pick_best_link] *)

(** X1. Only the empty list gives no link, and the URL chosen is always the
    URL of one of the links. *)
Theorem pick_best_link_member (links : list Link) :
  (pick_best_link links = None <-> links = [])
  /\ (forall url, pick_best_link links = Some url ->
        exists link, In link links /\ link_url link = url).
Proof.
  unfold pick_best_link. destruct links as [|first rest].
  - split; [tauto | discriminate].
  - split; [split; [|discriminate]|].
    + destruct (find has_priority (first :: rest));
        [discriminate|].
      destruct (find is_pdf_link (first :: rest)); discriminate.
    + intros url.
      destruct (find has_priority (first :: rest)) as [l|] eqn:Hp.
      * intros H; inversion H; subst. exists l. split; [|reflexivity].
        now apply find_some in Hp.
      * destruct (find is_pdf_link (first :: rest)) as [l|] eqn:Hpdf.
        -- intros H; inversion H; subst. exists l. split; [|reflexivity].
           now apply find_some in Hpdf.
        -- intros H; inversion H; subst. exists first. split; auto.
           now left.
Qed.

Lemma pick_best_link_member_witness :
  exists link,
    In link [mkLink "Minutes" "http://t/a.pdf"; mkLink "Pack" "http://t/b"]
    /\ link_url link = "http://t/a.pdf".
Proof.
  apply (proj2 (pick_best_link_member
                  [mkLink "Minutes" "http://t/a.pdf";
                   mkLink "Pack" "http://t/b"])).
  vm_compute. reflexivity.
Defined.

(** X2. The first link whose text or URL holds a priority term is chosen,
    whatever comes before it, PDF links included. *)
Theorem pick_best_link_priority (before after : list Link) (link : Link) :
  Forall (fun l => has_priority l = false) before ->
  has_priority link = true ->
  pick_best_link (before ++ link :: after) = Some (link_url link).
Proof.
  intros Hb Hl. unfold pick_best_link.
  rewrite (find_first has_priority before after link Hb Hl).
  destruct before; reflexivity.
Qed.

Lemma pick_best_link_priority_witness :
  pick_best_link ([mkLink "Minutes" "http://t/a.pdf"]
                  ++ mkLink "Board pack March" "http://t/b"
                  :: [mkLink "Agenda" "http://t/c.pdf"])
  = Some "http://t/b".
Proof.
  apply (pick_best_link_priority
           [mkLink "Minutes" "http://t/a.pdf"]
           [mkLink "Agenda" "http://t/c.pdf"]
           (mkLink "Board pack March" "http://t/b")).
  - repeat constructor.
  - vm_compute. reflexivity.
Defined.

(** X3. When no link holds a priority term, the first link with ".pdf" in
    its lower-cased URL is chosen, and when there is none either, the first
    link of the list. *)
Theorem pick_best_link_fallback (links : list Link) :
  Forall (fun l => has_priority l = false) links ->
  (forall before link after,
     links = (before ++ link :: after)%list ->
     Forall (fun l => is_pdf_link l = false) before ->
     is_pdf_link link = true ->
     pick_best_link links = Some (link_url link))
  /\ (forall first rest,
        links = first :: rest ->
        Forall (fun l => is_pdf_link l = false) links ->
        pick_best_link links = Some (link_url first)).
Proof.
  intros Hnone. apply find_none_all in Hnone. split.
  - intros before link after Hsplit Hb Hl. unfold pick_best_link.
    rewrite Hnone. subst links.
    rewrite (find_first is_pdf_link before after link Hb Hl).
    destruct before; reflexivity.
  - intros first rest Hsplit Hpdf. apply find_none_all in Hpdf.
    unfold pick_best_link. rewrite Hnone, Hpdf. now subst links.
Qed.

Lemma pick_best_link_fallback_witness :
  pick_best_link [mkLink "Minutes" "http://t/a"; mkLink "Notes" "http://t/B.PDF"]
  = Some "http://t/B.PDF".
Proof.
  assert (Hnone : Forall (fun l => has_priority l = false)
                     [mkLink "Minutes" "http://t/a";
                      mkLink "Notes" "http://t/B.PDF"])
    by (repeat constructor).
  apply (proj1 (pick_best_link_fallback _ Hnone)
           [mkLink "Minutes" "http://t/a"] (mkLink "Notes" "http://t/B.PDF") []).
  - reflexivity.
  - repeat constructor.
  - vm_compute. reflexivity.
Defined.

(** ** [download_file] *)

Lemma download_attempts_spec (session_get : string -> string -> string -> Reply)
  (url referer : string) (agents : list string) :
  forall i,
  (forall content,
     fst (download_attempts session_get url referer i agents) = Some content ->
     exists before ua after status_code,
       agents = (before ++ ua :: after)%list
       /\ Forall (fun ua' => acceptable (session_get url ua' referer) = false)
                 before
       /\ session_get url ua referer = Response status_code content
       /\ status_code = 200 /\ (Py.len content > 10000)%Z
       /\ List.length (snd (download_attempts session_get url referer i
                                              agents))
          = List.length before)
  /\ (fst (download_attempts session_get url referer i agents) = None ->
      Forall (fun ua' => acceptable (session_get url ua' referer) = false)
             agents
      /\ List.length (snd (download_attempts session_get url referer i agents))
         = List.length agents).
Proof.
  induction agents as [|ua agents IH]; intros i.
  - split; [discriminate | auto].
  - cbn [download_attempts].
    destruct (session_get url ua referer) as [status content|e] eqn:Hget.
    + destruct ((status =? 200) && (Py.len content >? 10000)%Z) eqn:Hok.
      * split; [|discriminate].
        intros c H; inversion H; subst c.
        apply andb_true_iff in Hok as [Hs Hl].
        apply Nat.eqb_eq in Hs. rewrite Z.gtb_ltb in Hl. apply Z.ltb_lt in Hl.
        exists [], ua, agents, status. repeat split; auto. lia.
      * destruct (IH (S i)) as [IHsome IHnone].
        destruct (download_attempts session_get url referer (S i) agents)
          as [result printed].
        assert (Hbad : acceptable (session_get url ua referer) = false)
          by (rewrite Hget; exact Hok).
        split.
        -- intros c H. destruct (IHsome c H)
             as [before [ua' [after [st [Hsplit [Hb [Hr [H200 [Hlen Hn]]]]]]]]].
           exists (ua :: before), ua', after, st. subst agents.
           repeat split; auto. simpl in *. now rewrite Hn.
        -- intros H. destruct (IHnone H) as [Hall Hn].
           split; [now constructor | simpl in *; now rewrite Hn].
    + destruct (IH (S i)) as [IHsome IHnone].
      destruct (download_attempts session_get url referer (S i) agents)
        as [result printed].
      assert (Hbad : acceptable (session_get url ua referer) = false)
        by now rewrite Hget.
      split.
      * intros c H. destruct (IHsome c H)
          as [before [ua' [after [st [Hsplit [Hb [Hr [H200 [Hlen Hn]]]]]]]]].
        exists (ua :: before), ua', after, st. subst agents.
        repeat split; auto. simpl in *. now rewrite Hn.
      * intros H. destruct (IHnone H) as [Hall Hn].
        split; [now constructor | simpl in *; now rewrite Hn].
Qed.

(** X4. What [download_file] returns is the content of the first reply, in
    the order of the user agents, with status 200 and more than 10000 bytes;
    every user agent before it was tried and was refused or raised, and each
    of those attempts printed one line. *)
Theorem download_file_first_acceptable
  (session_get : string -> string -> string -> Reply)
  (url referer content : string) :
  fst (download_file session_get url referer) = Some content ->
  exists before ua after status_code,
    FALLBACK_USER_AGENTS = (before ++ ua :: after)%list
    /\ Forall (fun ua' => acceptable (session_get url ua' referer) = false)
              before
    /\ session_get url ua referer = Response status_code content
    /\ status_code = 200 /\ (Py.len content > 10000)%Z
    /\ List.length (snd (download_file session_get url referer))
       = List.length before.
Proof.
  apply (proj1 (download_attempts_spec session_get url referer
                  FALLBACK_USER_AGENTS 0)).
Qed.

Lemma download_file_first_acceptable_witness :
  exists before ua after status_code,
    FALLBACK_USER_AGENTS = (before ++ ua :: after)%list
    /\ Forall (fun ua' => acceptable (picky_server "u" ua' "r") = false) before
    /\ picky_server "u" ua "r" = Response status_code (large_content)
    /\ status_code = 200 /\ (Py.len (large_content) > 10000)%Z
    /\ List.length (snd (download_file picky_server "u" "r"))
       = List.length before.
Proof.
  apply (download_file_first_acceptable picky_server "u" "r" (large_content)).
  vm_compute. reflexivity.
Defined.

(** X5. [download_file] gives up exactly when none of the three user agents
    gets a reply with status 200 and more than 10000 bytes; it has then
    printed three lines. *)
Theorem download_file_gives_up
  (session_get : string -> string -> string -> Reply)
  (url referer : string) :
  (fst (download_file session_get url referer) = None <->
   Forall (fun ua => acceptable (session_get url ua referer) = false)
          FALLBACK_USER_AGENTS)
  /\ (fst (download_file session_get url referer) = None ->
      List.length (snd (download_file session_get url referer)) = 3).
Proof.
  destruct (download_attempts_spec session_get url referer
              FALLBACK_USER_AGENTS 0) as [Hsome Hnone].
  fold (download_file session_get url referer) in Hsome, Hnone.
  split; [split|].
  - intros H. now apply Hnone.
  - intros Hall.
    destruct (fst (download_file session_get url referer)) as [c|] eqn:Hr;
      [|reflexivity].
    exfalso.
    destruct (Hsome c eq_refl)
      as [before [ua [after [st [Hsplit [_ [Hget [H200 [Hlen _]]]]]]]]].
    rewrite Forall_forall in Hall.
    assert (Hin : In ua FALLBACK_USER_AGENTS)
      by (rewrite Hsplit; apply in_or_app; right; now left).
    specialize (Hall ua Hin). rewrite Hget in Hall. simpl in Hall.
    subst st. rewrite Nat.eqb_refl in Hall. simpl in Hall.
    rewrite Z.gtb_ltb in Hall. apply Z.ltb_ge in Hall. lia.
  - intros H. now apply Hnone.
Qed.

Lemma download_file_gives_up_witness :
  fst (download_file blocking_server "u" "r") = None
  /\ List.length (snd (download_file blocking_server "u" "r")) = 3.
Proof.
  assert (Hnone : fst (download_file blocking_server "u" "r") = None).
  { apply (proj1 (download_file_gives_up blocking_server "u" "r")).
    repeat constructor. }
  split; [exact Hnone|].
  exact (proj2 (download_file_gives_up blocking_server "u" "r") Hnone).
Defined.

(** ** [find_board_papers_url] *)

Lemma search_queries_first (ddg_text : string -> SearchReply)
  (before after : list string) (query url : string) :
  Forall (fun q => query_hit ddg_text q = None) before ->
  query_hit ddg_text query = Some url ->
  search_queries ddg_text (before ++ query :: after)
  = (Some url, flat_map (query_notice ddg_text) before).
Proof.
  intros Hb Hq. induction before as [|q before IH]; cbn [app search_queries].
  - unfold query_hit in Hq. destruct (ddg_text query); [|discriminate].
    now rewrite Hq.
  - inversion Hb as [|? ? Hnone Hb']; subst. specialize (IH Hb').
    cbn [flat_map]. unfold query_hit in Hnone. unfold query_notice at 1.
    destruct (ddg_text q) as [results|e].
    + now rewrite Hnone, IH.
    + now rewrite IH.
Qed.

Lemma search_queries_none (ddg_text : string -> SearchReply)
  (qs : list string) :
  Forall (fun q => query_hit ddg_text q = None) qs ->
  search_queries ddg_text qs = (None, flat_map (query_notice ddg_text) qs).
Proof.
  induction qs as [|q qs IH]; intros Hall; [reflexivity|].
  inversion Hall as [|? ? Hnone Hall']; subst. specialize (IH Hall').
  cbn [search_queries flat_map]. unfold query_hit in Hnone.
  unfold query_notice at 1.
  destruct (ddg_text q) as [results|e].
  - now rewrite Hnone, IH.
  - now rewrite IH.
Qed.

Lemma queries_split (ddg_text : string -> SearchReply) (qs : list string) :
  Forall (fun q => query_hit ddg_text q = None) qs
  \/ exists before query after url,
       qs = (before ++ query :: after)%list
       /\ Forall (fun q => query_hit ddg_text q = None) before
       /\ query_hit ddg_text query = Some url.
Proof.
  induction qs as [|q qs IH]; [now left|].
  destruct (query_hit ddg_text q) as [url|] eqn:Hq.
  - right. exists [], q, qs, url. auto.
  - destruct IH as [Hall|[before [query [after [url [Hs [Hb Hh]]]]]]].
    + left. now constructor.
    + right. exists (q :: before), query, after, url. subst qs. auto.
Qed.

(** X6. The URL returned is the first result, in the order of the queries
    and of their results, whose lower-cased URL holds one of the board paper
    keywords; a query that raises is passed over, with one line printed, and
    the later queries are still made. *)
Theorem find_board_papers_url_first_hit (ddg_text : string -> SearchReply)
  (trust_name : string) (before after : list string) (query url : string) :
  queries trust_name = (before ++ query :: after)%list ->
  Forall (fun q => query_hit ddg_text q = None) before ->
  query_hit ddg_text query = Some url ->
  find_board_papers_url ddg_text trust_name
  = (Some url, flat_map (query_notice ddg_text) before)
  /\ is_board_papers_url url = true
  /\ exists results, ddg_text query = SearchResults results
                     /\ In (Some url) results.
Proof.
  intros Hsplit Hb Hq. split; [|].
  - unfold find_board_papers_url. rewrite Hsplit.
    now apply search_queries_first.
  - unfold query_hit in Hq.
    destruct (ddg_text query) as [results|e]; [|discriminate].
    apply find_some in Hq as [Hin Hurl]. split; [exact Hurl|].
    exists results. split; [reflexivity|].
    apply in_map_iff in Hin. destruct Hin as [[u|] [Hu Hin]].
    + simpl in Hu. now subst u.
    + simpl in Hu. subst url. discriminate.
Qed.

Lemma find_board_papers_url_first_hit_witness :
  find_board_papers_url flaky_search "Leeds"
  = (Some "https://t.nhs.uk/Trust-Board/papers",
     [SearchQueryFailed "rate limit"]).
Proof.
  apply (find_board_papers_url_first_hit flaky_search "Leeds"
           [dq ++ "Leeds" ++ dq ++ " board papers 2025 OR 2026 site:nhs.uk"]
           [dq ++ "Leeds" ++ dq ++ " NHS " ++ dq ++ "board papers" ++ dq
               ++ " site:nhs.uk";
            dq ++ "Leeds" ++ dq ++ " NHS board papers minutes 2026"]
           (dq ++ "Leeds" ++ dq ++ " board meeting papers site:nhs.uk")
           "https://t.nhs.uk/Trust-Board/papers").
  - reflexivity.
  - repeat constructor.
  - vm_compute. reflexivity.
Defined.

(** X7. No URL is returned exactly when no query that succeeds has such a
    result; the lines printed are then those of the queries that raised, in
    order.  A URL that is returned always holds a keyword. *)
Theorem find_board_papers_url_none (ddg_text : string -> SearchReply)
  (trust_name : string) :
  (fst (find_board_papers_url ddg_text trust_name) = None <->
   Forall (fun q => query_hit ddg_text q = None) (queries trust_name))
  /\ (fst (find_board_papers_url ddg_text trust_name) = None ->
      snd (find_board_papers_url ddg_text trust_name)
      = flat_map (query_notice ddg_text) (queries trust_name))
  /\ (forall url, fst (find_board_papers_url ddg_text trust_name) = Some url ->
                  is_board_papers_url url = true).
Proof.
  unfold find_board_papers_url.
  destruct (queries_split ddg_text (queries trust_name))
    as [Hall|[before [query [after [url [Hs [Hb Hh]]]]]]].
  - rewrite (search_queries_none _ _ Hall). cbn [fst snd].
    split; [tauto|]. split; [reflexivity | discriminate].
  - rewrite Hs, (search_queries_first _ _ _ _ _ Hb Hh). cbn [fst snd].
    split; [split; [discriminate|]|split; [discriminate|]].
    + intros Hall. exfalso. rewrite Forall_forall in Hall.
      assert (Hin : In query (before ++ query :: after))
        by (apply in_or_app; right; now left).
      rewrite (Hall query Hin) in Hh. discriminate.
    + intros u Hu. inversion Hu; subst u. unfold query_hit in Hh.
      destruct (ddg_text query); [|discriminate].
      now apply find_some in Hh as [_ Hurl].
Qed.

Lemma find_board_papers_url_none_witness :
  fst (find_board_papers_url (fun _ => SearchRaised "offline") "Leeds") = None
  /\ snd (find_board_papers_url (fun _ => SearchRaised "offline") "Leeds")
     = [SearchQueryFailed "offline"; SearchQueryFailed "offline";
        SearchQueryFailed "offline"; SearchQueryFailed "offline"].
Proof.
  assert (Hnone : fst (find_board_papers_url
                         (fun _ => SearchRaised "offline") "Leeds") = None).
  { apply (proj1 (find_board_papers_url_none
                    (fun _ => SearchRaised "offline") "Leeds")).
    repeat constructor. }
  split; [exact Hnone|].
  exact (proj1 (proj2 (find_board_papers_url_none
                         (fun _ => SearchRaised "offline") "Leeds")) Hnone).
Defined.

(** ** [get_document_links] *)

Lemma existsb_eqb_in (u : string) (seen : list string) :
  existsb (String.eqb u) seen = true <-> In u seen.
Proof.
  rewrite existsb_exists. split.
  - intros [x [Hin Heq]]. apply String.eqb_eq in Heq. now subst x.
  - intros Hin. exists u. split; [exact Hin | apply String.eqb_refl].
Qed.

Lemma doc_anchor_href (a : Anchor) : doc_anchor a = true -> href a <> "".
Proof.
  unfold doc_anchor. intros Hdoc Hempty. rewrite Hempty in Hdoc.
  vm_compute in Hdoc. discriminate.
Qed.

Lemma slice_to_nonempty (n : nat) (s : string) :
  s <> "" -> Py.slice_to (S n) s <> "".
Proof. destruct s; [congruence | simpl; discriminate]. Qed.

Lemma str_or_nonempty (x y : string) : y <> "" -> str_or x y <> "".
Proof. destruct x; simpl; [auto | discriminate]. Qed.

Lemma add_anchor_step (urljoin : string -> string -> string)
  (index_url : string) (links : list Link) (seen : list string) (a : Anchor) :
  add_anchor urljoin index_url (links, seen) a
  = if doc_anchor a then
      if existsb (String.eqb (full_url_of urljoin index_url (href a))) seen
      then (links, seen)
      else ((links ++ [mkLink
                         (Py.slice_to 120 (str_or (anchor_text a) (href a)))
                         (full_url_of urljoin index_url (href a))])%list,
            (seen ++ [full_url_of urljoin index_url (href a)])%list)
    else (links, seen).
Proof. reflexivity. Qed.

Lemma add_anchors_invariant (urljoin : string -> string -> string)
  (index_url : string) (anchors : list Anchor) :
  forall links seen,
  seen = map link_url links ->
  NoDup seen ->
  Forall well_formed_link links ->
  let result := fold_left (add_anchor urljoin index_url) anchors
                          (links, seen) in
  snd result = map link_url (fst result)
  /\ NoDup (snd result)
  /\ Forall well_formed_link (fst result)
  /\ forall u, In u (snd result) <->
               In u seen
               \/ exists a, In a anchors /\ doc_anchor a = true
                            /\ full_url_of urljoin index_url (href a) = u.
Proof.
  induction anchors as [|a anchors IH]; intros links seen Hseen Hnd Hwf.
  - cbn. repeat split; auto.
    intros [H|[a [Hf _]]]; [exact H | contradiction].
  - cbn [fold_left]. rewrite add_anchor_step.
    destruct (doc_anchor a) eqn:Hdoc.
    + destruct (existsb (String.eqb (full_url_of urljoin index_url (href a)))
                        seen) eqn:Hin.
      * destruct (IH links seen Hseen Hnd Hwf) as [H1 [H2 [H3 H4]]].
        repeat split; auto.
        -- intros Hu. apply H4 in Hu as [Hu|[b [Hb Hrest]]]; [now left|].
           right. exists b. split; [now right | exact Hrest].
        -- intros [Hu|[b [[->|Hb] [Hd Hfull]]]].
           ++ apply H4. now left.
           ++ apply H4. left. subst u. now apply existsb_eqb_in.
           ++ apply H4. right. exists b. auto.
      * assert (Hfresh : ~ In (full_url_of urljoin index_url (href a)) seen).
        { intros Hc. apply existsb_eqb_in in Hc. congruence. }
        destruct (IH (links ++ [mkLink
                       (Py.slice_to 120 (str_or (anchor_text a) (href a)))
                       (full_url_of urljoin index_url (href a))])%list
                     (seen ++ [full_url_of urljoin index_url (href a)])%list)
          as [H1 [H2 [H3 H4]]].
        -- rewrite map_app, Hseen. reflexivity.
        -- apply NoDup_app; auto.
           ++ repeat constructor. intros [].
           ++ intros u Hu [<-|[]]. contradiction.
        -- apply Forall_app. split; [exact Hwf|].
           constructor; [|constructor]. split; cbn [link_text].
           ++ apply slice_to_length.
           ++ apply slice_to_nonempty, str_or_nonempty.
              now apply doc_anchor_href.
        -- repeat split; auto.
           ++ intros Hu. apply H4 in Hu as [Hu|[b [Hb Hrest]]].
              ** apply in_app_or in Hu as [Hu|[<-|[]]]; [now left|].
                 right. exists a. split; [now left | auto].
              ** right. exists b. split; [now right | exact Hrest].
           ++ intros [Hu|[b [[->|Hb] [Hd Hfull]]]]; apply H4.
              ** left. apply in_or_app. now left.
              ** left. apply in_or_app. right. subst u. now left.
              ** right. exists b. auto.
    + destruct (IH links seen Hseen Hnd Hwf) as [H1 [H2 [H3 H4]]].
      repeat split; auto.
      * intros Hu. apply H4 in Hu as [Hu|[b [Hb Hrest]]]; [now left|].
        right. exists b. split; [now right | exact Hrest].
      * intros [Hu|[b [[->|Hb] [Hd Hfull]]]]; apply H4.
        -- now left.
        -- congruence.
        -- right. exists b. auto.
Qed.

(** X8. The links returned have pairwise different URLs, and each has a text
    of at least one and at most 120 characters; when the page cannot be
    fetched the list is empty and one line is printed. *)
Theorem document_links_distinct (session_fetch : string -> IndexPage)
  (urljoin : string -> string -> string) (index_url : string) :
  NoDup (map link_url
             (fst (get_document_links session_fetch urljoin index_url)))
  /\ Forall well_formed_link
            (fst (get_document_links session_fetch urljoin index_url))
  /\ (forall e, session_fetch index_url = FetchRaised e ->
                get_document_links session_fetch urljoin index_url
                = ([], [CouldNotFetchIndex e])).
Proof.
  unfold get_document_links.
  destruct (session_fetch index_url) as [anchors|e].
  - destruct (add_anchors_invariant urljoin index_url anchors [] []
                eq_refl (NoDup_nil _) (Forall_nil _)) as [H1 [H2 [H3 _]]].
    cbn [fst]. rewrite <- H1. repeat split; auto. discriminate.
  - cbn [fst map]. repeat split; try constructor.
    intros e' H. now inversion H.
Qed.

Lemma document_links_distinct_witness :
  get_document_links (fun _ => FetchRaised "timeout") sample_urljoin "u"
  = ([], [CouldNotFetchIndex "timeout"]).
Proof.
  apply (proj2 (proj2 (document_links_distinct
                         (fun _ => FetchRaised "timeout") sample_urljoin "u"))).
  reflexivity.
Defined.

(** X9. When the page is fetched, a URL is among the links returned exactly
    when it is the full URL of an anchor taken for a document: one whose
    lower-cased [href] ends with a document extension or holds a document
    keyword. *)
Theorem document_links_complete (session_fetch : string -> IndexPage)
  (urljoin : string -> string -> string) (index_url : string)
  (anchors : list Anchor) :
  session_fetch index_url = Fetched anchors ->
  forall u,
    In u (map link_url
              (fst (get_document_links session_fetch urljoin index_url)))
    <-> exists a, In a anchors /\ doc_anchor a = true
                  /\ full_url_of urljoin index_url (href a) = u.
Proof.
  intros Hfetch u. unfold get_document_links. rewrite Hfetch.
  destruct (add_anchors_invariant urljoin index_url anchors [] []
              eq_refl (NoDup_nil _) (Forall_nil _)) as [H1 [_ [_ H4]]].
  cbn [fst]. rewrite <- H1, H4. split.
  - intros [[]|H]; exact H.
  - intros H; now right.
Qed.

Lemma document_links_complete_witness :
  map link_url (fst (get_document_links sample_index sample_urljoin "u"))
  = ["https://t.nhs.uk/docs/pack.pdf"; "https://t.nhs.uk/download?id=7"]
  /\ In "https://t.nhs.uk/download?id=7"
        (map link_url
             (fst (get_document_links sample_index sample_urljoin "u"))).
Proof.
  split; [vm_compute; reflexivity|].
  apply (proj2 (document_links_complete sample_index sample_urljoin "u"
                  _ eq_refl "https://t.nhs.uk/download?id=7")).
  exists (mkAnchor "/download?id=7" "").
  split; [simpl; auto 10|]. split; vm_compute; reflexivity.
Defined.

(** ** Paths *)

Lemma has_slash_basename (p : string) : Py.has_slash (Py.basename p) = false.
Proof.
  induction p as [|c p IH]; [reflexivity|]. simpl.
  destruct (Py.has_slash p) eqn:Hp; [exact IH|].
  destruct (Py.is_slash c) eqn:Hc; simpl; [exact Hp | now rewrite Hc, Hp].
Qed.

Lemma basename_noslash (p : string) :
  Py.has_slash p = false -> Py.basename p = p.
Proof.
  destruct p as [|c p]; [reflexivity|]. simpl. intros H.
  apply orb_false_iff in H as [Hc Hp]. now rewrite Hp, Hc.
Qed.

Lemma has_slash_append (a b : string) :
  Py.has_slash (a ++ b) = Py.has_slash a || Py.has_slash b.
Proof.
  induction a as [|c a IH]; simpl; [reflexivity|].
  now rewrite IH, orb_assoc.
Qed.

Lemma basename_after_slash (a b : string) :
  Py.has_slash b = false -> Py.basename (a ++ "/" ++ b) = b.
Proof.
  intros Hb. induction a as [|c a IH].
  - simpl. now rewrite Hb.
  - cbn [append Py.basename]. rewrite has_slash_append.
    cbn [append Py.has_slash]. rewrite orb_true_r. exact IH.
Qed.

Lemma endswith_split (suffix s : string) :
  Str.endswith suffix s = true -> exists pre, s = pre ++ suffix.
Proof.
  induction s as [|c s IH]; cbn [Str.endswith]; intros H.
  - rewrite orb_false_r in H. apply String.eqb_eq in H. exists "". now subst.
  - apply orb_true_iff in H as [H|H].
    + apply String.eqb_eq in H. exists "". now subst.
    + destruct (IH H) as [pre Hpre]. exists (String c pre). simpl. now f_equal.
Qed.

Lemma startswith_slash (b : string) :
  Str.startswith "/" b = true -> Py.has_slash b = true.
Proof.
  destruct b as [|c b]; cbn [Str.startswith Py.has_slash]; [discriminate|].
  unfold Py.is_slash. rewrite (Ascii.eqb_sym c).
  destruct (Ascii.eqb "/" c); [reflexivity | discriminate].
Qed.

Lemma path_join_basename (a b : string) :
  Py.has_slash b = false -> Py.basename (Str.path_join a b) = b.
Proof.
  intros Hb. unfold Str.path_join.
  destruct (Str.startswith "/" b) eqn:Hstart.
  - apply startswith_slash in Hstart. congruence.
  - destruct ((a =? "")%string || Str.endswith "/" a) eqn:Hjoin.
    + apply orb_true_iff in Hjoin as [Ha|Ha].
      * apply String.eqb_eq in Ha. subst a. now apply basename_noslash.
      * destruct (endswith_split _ _ Ha) as [pre ->].
        rewrite append_assoc. now apply basename_after_slash.
    + now apply basename_after_slash.
Qed.

Lemma endswith_basename (suffix s : string) :
  Py.has_slash suffix = false ->
  Str.endswith suffix s = true ->
  Str.endswith suffix (Py.basename s) = true.
Proof.
  intros Hsuf. induction s as [|c s IH]; [auto|].
  cbn [Str.endswith Py.basename]. intros H.
  assert (Hcase : Py.has_slash (String c s) = true ->
                  Str.endswith suffix s = true).
  { intros Hslash. apply orb_true_iff in H as [H|H]; [|exact H].
    apply String.eqb_eq in H. rewrite <- H in Hsuf. congruence. }
  destruct (Py.has_slash s) eqn:Hs.
  - apply IH, Hcase. simpl. now rewrite Hs, orb_true_r.
  - destruct (Py.is_slash c) eqn:Hc.
    + apply Hcase. simpl. now rewrite Hc.
    + exact H.
Qed.

Lemma lower_char_slash (c : ascii) :
  Py.is_slash (Py.lower_char c) = Py.is_slash c.
Proof. destruct c as [[] [] [] [] [] [] [] []]; reflexivity. Qed.

Lemma has_slash_lower (p : string) :
  Py.has_slash (Py.lower p) = Py.has_slash p.
Proof.
  unfold Py.lower. induction p as [|c p IH]; simpl; [reflexivity|].
  now rewrite lower_char_slash, IH.
Qed.

Lemma basename_lower (p : string) :
  Py.basename (Py.lower p) = Py.lower (Py.basename p).
Proof.
  induction p as [|c p IH]; [reflexivity|].
  change (Py.lower (String c p)) with (String (Py.lower_char c) (Py.lower p)).
  cbn [Py.basename]. rewrite has_slash_lower, lower_char_slash.
  destruct (Py.has_slash p); [exact IH|].
  destruct (Py.is_slash c); reflexivity.
Qed.

Lemma pdf_member_basename (name : string) (n : nat) :
  is_pdf_member name = true ->
  Py.basename name <> ""
  /\ Str.endswith ".pdf" (Py.lower (Py.basename name)) = true
  /\ safe_name_of name n = Py.basename name.
Proof.
  unfold is_pdf_member. intros H. apply andb_true_iff in H as [Hpdf _].
  apply (endswith_basename ".pdf") in Hpdf; [|reflexivity].
  rewrite basename_lower in Hpdf.
  assert (Hne : Py.basename name <> "").
  { intros He. rewrite He in Hpdf. discriminate. }
  repeat split; auto.
  unfold safe_name_of. destruct (Py.basename name); [congruence | reflexivity].
Qed.

(** ** [save_and_unpack] *)

Lemma unpack_members_step (members : list (string * MemberData))
  (save_dir name : string) (names : list string) (st : Unpacked)
  (bytes : string) :
  is_pdf_member name = true ->
  zip_read members name = Some (Data bytes) ->
  unpack_members members save_dir (name :: names) st
  = unpack_members members save_dir names
      (mkUnpacked
         (Py.dict_set (Str.path_join save_dir (Py.basename name)) bytes
                      (files st))
         (pdf_paths st ++ [Str.path_join save_dir (Py.basename name)])%list
         (printed st ++ [Extracted (Py.basename name) (Py.len bytes)])%list
         (raised st)).
Proof.
  intros Hpdf Hread. cbn [unpack_members]. rewrite Hpdf, Hread.
  destruct (pdf_member_basename name (List.length (pdf_paths st)) Hpdf)
    as [_ [_ Hsafe]].
  now rewrite Hsafe.
Qed.

Lemma unpack_members_stopped (members : list (string * MemberData))
  (save_dir name : string) (names : list string) (st : Unpacked) :
  is_pdf_member name = true ->
  zip_read members name = Some Damaged ->
  unpack_members members save_dir (name :: names) st
  = mkUnpacked (files st) (pdf_paths st)
               (printed st ++ [ZipExtractionFailed])%list (raised st).
Proof.
  intros Hpdf Hread. cbn [unpack_members]. now rewrite Hpdf, Hread.
Qed.

Lemma unpack_members_raised (members : list (string * MemberData))
  (save_dir name error : string) (names : list string) (st : Unpacked) :
  is_pdf_member name = true ->
  zip_read members name = Some (Unreadable error) ->
  unpack_members members save_dir (name :: names) st
  = mkUnpacked (files st) [] (printed st) (Some error).
Proof.
  intros Hpdf Hread. cbn [unpack_members]. now rewrite Hpdf, Hread.
Qed.

(** A member that cannot be read ends the loop: nothing more is written,
    no path is added, and the names after it are not looked at. *)
Lemma unpack_members_halt (members : list (string * MemberData))
  (save_dir name : string) (names : list string) (st : Unpacked) :
  is_pdf_member name = true ->
  (forall bytes, zip_read members name <> Some (Data bytes)) ->
  files (unpack_members members save_dir (name :: names) st) = files st
  /\ (forall p,
        In p (pdf_paths (unpack_members members save_dir (name :: names) st))
        -> In p (pdf_paths st))
  /\ unpack_members members save_dir (name :: names) st
     = unpack_members members save_dir [name] st.
Proof.
  intros Hpdf Hread. cbn [unpack_members]. rewrite Hpdf.
  destruct (zip_read members name) as [[bytes| |error]|];
    cbn [files pdf_paths]; try (repeat split; auto; intros p []).
  now destruct (Hread bytes).
Qed.

Lemma unpack_members_skip (members : list (string * MemberData))
  (save_dir name : string) (names : list string) (st : Unpacked) :
  is_pdf_member name = false ->
  unpack_members members save_dir (name :: names) st
  = unpack_members members save_dir names st.
Proof. intros Hpdf. cbn [unpack_members]. now rewrite Hpdf. Qed.

Lemma member_read_cases (members : list (string * MemberData))
  (name : string) :
  (exists bytes, zip_read members name = Some (Data bytes))
  \/ (forall bytes, zip_read members name <> Some (Data bytes)).
Proof.
  destruct (zip_read members name) as [[bytes| |error]|].
  - left. now exists bytes.
  - right. discriminate.
  - right. discriminate.
  - right. discriminate.
Qed.

(** What the loop keeps true of every path returned: the path is that of a
    PDF member that could be read, and the file of that path holds the data
    of such a member. *)
Lemma unpack_members_invariant (members : list (string * MemberData))
  (save_dir : string) (all_names : list string) :
  forall names st,
  (forall n, In n names -> In n all_names) ->
  (forall p, In p (pdf_paths st) ->
     (exists name, In name all_names /\ is_pdf_member name = true
                   /\ p = Str.path_join save_dir (Py.basename name))
     /\ (exists name bytes,
           is_pdf_member name = true
           /\ zip_read members name = Some (Data bytes)
           /\ Py.dict_get p (files st) = Some bytes)) ->
  forall p, In p (pdf_paths (unpack_members members save_dir names st)) ->
    (exists name, In name all_names /\ is_pdf_member name = true
                  /\ p = Str.path_join save_dir (Py.basename name))
    /\ (exists name bytes,
          is_pdf_member name = true
          /\ zip_read members name = Some (Data bytes)
          /\ Py.dict_get p (files (unpack_members members save_dir names st))
             = Some bytes).
Proof.
  induction names as [|name names IH]; intros st Hsub Hinv; [exact Hinv|].
  destruct (is_pdf_member name) eqn:Hpdf.
  - destruct (member_read_cases members name) as [[bytes Hread]|Hbad].
    + rewrite (unpack_members_step _ _ _ _ _ _ Hpdf Hread).
      apply IH; [intros n Hn; apply Hsub; now right|].
      cbn [pdf_paths files]. intros p Hp.
      apply in_app_or in Hp as [Hp|[<-|[]]].
      * destruct (Hinv p Hp) as [Hname [n [b [Hn [Hr Hget]]]]].
        split; [exact Hname|].
        destruct (String.eqb_spec
                    (Str.path_join save_dir (Py.basename name)) p)
          as [Heq|Hne].
        -- exists name, bytes. subst p.
           repeat split; auto. apply dict_get_set_same.
        -- exists n, b. repeat split; auto.
           now rewrite dict_get_set_other.
      * split.
        -- exists name. repeat split; auto. apply Hsub. now left.
        -- exists name, bytes. repeat split; auto. apply dict_get_set_same.
    + destruct (unpack_members_halt members save_dir name names st Hpdf Hbad)
        as [Hfiles [Hpaths _]].
      intros p Hp. rewrite Hfiles. apply Hinv, Hpaths, Hp.
  - rewrite (unpack_members_skip _ _ _ _ _ Hpdf).
    apply IH; [intros n Hn; apply Hsub; now right | exact Hinv].
Qed.

(** The names after a member that cannot be read make no difference. *)
Lemma unpack_members_until (members : list (string * MemberData))
  (save_dir name : string) (before after : list string) :
  is_pdf_member name = true ->
  (forall bytes, zip_read members name <> Some (Data bytes)) ->
  forall st,
  unpack_members members save_dir (before ++ name :: after) st
  = unpack_members members save_dir (before ++ [name]) st.
Proof.
  intros Hpdf Hbad. induction before as [|n before IH]; intros st.
  - cbn [app]. apply (unpack_members_halt _ _ _ _ _ Hpdf Hbad).
  - cbn [app]. destruct (is_pdf_member n) eqn:Hn.
    + destruct (member_read_cases members n) as [[bytes Hread]|Hbad'].
      * rewrite !(unpack_members_step _ _ _ _ _ _ Hn Hread). apply IH.
      * rewrite (proj2 (proj2 (unpack_members_halt _ _ _ _ _ Hn Hbad'))).
        symmetry.
        apply (proj2 (proj2 (unpack_members_halt _ _ _ _ _ Hn Hbad'))).
    + rewrite !(unpack_members_skip _ _ _ _ _ Hn). apply IH.
Qed.

Lemma unpack_members_last (members : list (string * MemberData))
  (save_dir name : string) (before : list string) :
  is_pdf_member name = true ->
  (forall bytes, zip_read members name <> Some (Data bytes)) ->
  forall st p,
  In p (pdf_paths (unpack_members members save_dir (before ++ [name]) st)) ->
  In p (pdf_paths (unpack_members members save_dir before st)).
Proof.
  intros Hpdf Hbad. induction before as [|n before IH]; intros st p.
  - cbn [app]. apply (unpack_members_halt _ _ _ _ _ Hpdf Hbad).
  - cbn [app]. destruct (is_pdf_member n) eqn:Hn.
    + destruct (member_read_cases members n) as [[bytes Hread]|Hbad'].
      * rewrite !(unpack_members_step _ _ _ _ _ _ Hn Hread). apply IH.
      * rewrite (proj2 (proj2 (unpack_members_halt _ _ _ _ _ Hn Hbad'))).
        rewrite <- (proj2 (proj2 (unpack_members_halt members save_dir n
                                    before st Hn Hbad'))).
        auto.
    + rewrite !(unpack_members_skip _ _ _ _ _ Hn). apply IH.
Qed.

(** While every PDF member can be read the loop goes on, and adds the path
    of each. *)
Lemma unpack_members_all_read (members : list (string * MemberData))
  (save_dir : string) (before rest : list string) :
  all_read members before ->
  forall st,
  unpack_members members save_dir (before ++ rest) st
  = unpack_members members save_dir rest
      (unpack_members members save_dir before st)
  /\ pdf_paths (unpack_members members save_dir before st)
     = (pdf_paths st ++ member_paths save_dir before)%list
  /\ raised (unpack_members members save_dir before st) = raised st.
Proof.
  unfold member_paths.
  induction before as [|n before IH]; intros Hall st.
  - cbn [app unpack_members filter map]. rewrite app_nil_r. auto.
  - assert (Hall' : all_read members before)
      by (intros m Hm; apply Hall; now right).
    cbn [app filter]. destruct (is_pdf_member n) eqn:Hn.
    + destruct (Hall n (or_introl eq_refl) Hn) as [bytes Hread].
      rewrite !(unpack_members_step _ _ _ _ _ _ Hn Hread).
      destruct (IH Hall'
                  (mkUnpacked
                     (Py.dict_set (Str.path_join save_dir (Py.basename n))
                                  bytes (files st))
                     (pdf_paths st
                      ++ [Str.path_join save_dir (Py.basename n)])%list
                     (printed st
                      ++ [Extracted (Py.basename n) (Py.len bytes)])%list
                     (raised st)))
        as [Happ [Hpaths Hraised]].
      rewrite Happ, Hpaths, Hraised. cbn [pdf_paths raised map].
      rewrite <- app_assoc. auto.
    + rewrite !(unpack_members_skip _ _ _ _ _ Hn). apply IH, Hall'.
Qed.

(** While every PDF member can be read, the loop prints only its lines for
    the members written. *)
Lemma unpack_members_read_printed (members : list (string * MemberData))
  (save_dir : string) (before : list string) :
  all_read members before ->
  forall st e,
  In e (printed (unpack_members members save_dir before st)) ->
  In e (printed st) \/ exists file size, e = Extracted file size.
Proof.
  induction before as [|n before IH]; intros Hall st e He; [now left|].
  assert (Hall' : all_read members before)
    by (intros m Hm; apply Hall; now right).
  destruct (is_pdf_member n) eqn:Hn.
  - destruct (Hall n (or_introl eq_refl) Hn) as [bytes Hread].
    rewrite (unpack_members_step _ _ _ _ _ _ Hn Hread) in He.
    apply (IH Hall') in He. cbn [printed] in He.
    destruct He as [He|He]; [|now right].
    apply in_app_or in He as [He|[<-|[]]]; [now left|].
    right. eauto.
  - rewrite (unpack_members_skip _ _ _ _ _ Hn) in He. now apply (IH Hall').
Qed.

(** The loop leaves a file as it is when no PDF member has its path. *)
Lemma unpack_members_other_files (members : list (string * MemberData))
  (save_dir p : string) (names : list string) :
  (forall m, In m names -> is_pdf_member m = true ->
             Str.path_join save_dir (Py.basename m) <> p) ->
  forall st,
  Py.dict_get p (files (unpack_members members save_dir names st))
  = Py.dict_get p (files st).
Proof.
  induction names as [|n names IH]; intros Hother st; [reflexivity|].
  assert (Hother' : forall m, In m names -> is_pdf_member m = true ->
                      Str.path_join save_dir (Py.basename m) <> p)
    by (intros m Hm; apply Hother; now right).
  destruct (is_pdf_member n) eqn:Hn.
  - destruct (member_read_cases members n) as [[bytes Hread]|Hbad].
    + rewrite (unpack_members_step _ _ _ _ _ _ Hn Hread), (IH Hother').
      cbn [files]. apply dict_get_set_other.
      apply Hother; [now left | exact Hn].
    + now rewrite (proj1 (unpack_members_halt _ _ _ _ _ Hn Hbad)).
  - rewrite (unpack_members_skip _ _ _ _ _ Hn). apply (IH Hother').
Qed.

(** While every PDF member can be read, the file of a member whose file
    name no other member has holds its data. *)
Lemma unpack_members_read_files (members : list (string * MemberData))
  (save_dir n bytes : string) (before : list string) :
  all_read members before ->
  In n before -> is_pdf_member n = true ->
  (forall m, In m before -> Py.basename m = Py.basename n -> m = n) ->
  zip_read members n = Some (Data bytes) ->
  forall st,
  Py.dict_get (Str.path_join save_dir (Py.basename n))
    (files (unpack_members members save_dir before st))
  = Some bytes.
Proof.
  intros Hall Hin Hpdf Hunique Hread.
  induction before as [|n0 before IH]; intros st; [destruct Hin|].
  assert (Hall' : all_read members before)
    by (intros m Hm; apply Hall; now right).
  assert (Hunique' : forall m, In m before ->
                       Py.basename m = Py.basename n -> m = n)
    by (intros m Hm; apply Hunique; now right).
  destruct (in_dec string_dec n before) as [Hlater|Hlast].
  - destruct (is_pdf_member n0) eqn:Hn0.
    + destruct (Hall n0 (or_introl eq_refl) Hn0) as [bytes0 Hread0].
      rewrite (unpack_members_step _ _ _ _ _ _ Hn0 Hread0).
      now apply IH.
    + rewrite (unpack_members_skip _ _ _ _ _ Hn0). now apply IH.
  - destruct Hin as [->|Hin]; [|contradiction].
    rewrite (unpack_members_step _ _ _ _ _ _ Hpdf Hread).
    rewrite unpack_members_other_files.
    + cbn [files]. apply dict_get_set_same.
    + intros m Hm _ Hpath. apply Hlast.
      rewrite <- (Hunique' m Hm); [exact Hm|].
      apply (f_equal Py.basename) in Hpath.
      rewrite !path_join_basename in Hpath
        by apply has_slash_basename.
      exact Hpath.
Qed.

Lemma save_and_unpack_zip (zip_open : string -> ZipArchive)
  (data save_dir : string) (fs : Py.dict string)
  (members : list (string * MemberData)) :
  Str.startswith "PK" data = true ->
  zip_open data = Zip members ->
  save_and_unpack zip_open data save_dir fs
  = unpack_members members save_dir (map fst members)
      (mkUnpacked fs [] [ZipDetected; ZipContains (List.length members)]
                  None).
Proof. intros Hpk Hzip. unfold save_and_unpack. now rewrite Hpk, Hzip. Qed.

Lemma unpacked_paths_from_zip_aux (zip_open : string -> ZipArchive)
  (data save_dir : string) (fs : Py.dict string)
  (members : list (string * MemberData)) (p : string) :
  Str.startswith "PK" data = true ->
  zip_open data = Zip members ->
  In p (pdf_paths (save_and_unpack zip_open data save_dir fs)) ->
  exists name,
    p = Str.path_join save_dir (Py.basename name)
    /\ Py.basename p = Py.basename name.
Proof.
  intros Hpk Hzip Hp. rewrite (save_and_unpack_zip _ _ _ _ _ Hpk Hzip) in Hp.
  apply (unpack_members_invariant members save_dir (map fst members)) in Hp.
  - destruct Hp as [[name [_ [_ Hpath]]] _]. exists name.
    split; [exact Hpath|].
    rewrite Hpath. apply path_join_basename, has_slash_basename.
  - auto.
  - intros q [].
Qed.

(** X10. Every path returned for an archive is [save_dir] joined with the
    file name of a member whose lower-cased name ends in ".pdf" and whose name
    does not start with "__MACOSX"; that file name is never empty, so the
    name [extracted_<n>.pdf] is never used, and the path returned has that
    file name and ends in ".pdf" up to case. *)
Theorem unpacked_paths_from_members (zip_open : string -> ZipArchive)
  (data save_dir : string) (fs : Py.dict string)
  (members : list (string * MemberData)) (p : string) :
  Str.startswith "PK" data = true ->
  zip_open data = Zip members ->
  In p (pdf_paths (save_and_unpack zip_open data save_dir fs)) ->
  exists name,
    In name (map fst members)
    /\ is_pdf_member name = true
    /\ Py.basename name <> ""
    /\ p = Str.path_join save_dir (Py.basename name)
    /\ Py.basename p = Py.basename name
    /\ Str.endswith ".pdf" (Py.lower (Py.basename p)) = true.
Proof.
  intros Hpk Hzip Hp. rewrite (save_and_unpack_zip _ _ _ _ _ Hpk Hzip) in Hp.
  apply (unpack_members_invariant members save_dir (map fst members)) in Hp.
  - destruct Hp as [[name [Hin [Hpdf Hpath]]] _].
    destruct (pdf_member_basename name 0 Hpdf) as [Hne [Hends _]].
    assert (Hbase : Py.basename p = Py.basename name).
    { rewrite Hpath. apply path_join_basename, has_slash_basename. }
    exists name. repeat split; auto. now rewrite Hbase.
  - auto.
  - intros q [].
Qed.

Lemma unpacked_paths_from_members_witness :
  exists name,
    In name (map fst sample_archive)
    /\ is_pdf_member name = true
    /\ Py.basename name <> ""
    /\ "/tmp/nhs/agenda.pdf" = Str.path_join "/tmp/nhs" (Py.basename name)
    /\ Py.basename "/tmp/nhs/agenda.pdf" = Py.basename name
    /\ Str.endswith ".pdf" (Py.lower (Py.basename "/tmp/nhs/agenda.pdf"))
       = true.
Proof.
  apply (unpacked_paths_from_members sample_zip "PK-archive" "/tmp/nhs" []
           sample_archive "/tmp/nhs/agenda.pdf").
  - reflexivity.
  - reflexivity.
  - vm_compute. auto.
Defined.

Lemma unpacked_names_identify_paths_aux (zip_open : string -> ZipArchive)
  (data save_dir : string) (fs : Py.dict string) :
  names_identify_paths (pdf_paths (save_and_unpack zip_open data save_dir fs)).
Proof.
  destruct (Str.startswith "PK" data) eqn:Hpk.
  - destruct (zip_open data) as [members| |error] eqn:Hzip.
    + intros p q Hp Hq Hsame.
      destruct (unpacked_paths_from_zip_aux zip_open data save_dir fs members
                  p Hpk Hzip Hp) as [n1 [Hp1 Hb1]].
      destruct (unpacked_paths_from_zip_aux zip_open data save_dir fs members
                  q Hpk Hzip Hq) as [n2 [Hp2 Hb2]].
      rewrite Hp1, Hp2. f_equal. congruence.
    + unfold save_and_unpack. rewrite Hpk, Hzip. intros p q [].
    + unfold save_and_unpack. rewrite Hpk, Hzip. intros p q [].
  - unfold save_and_unpack. rewrite Hpk. cbn [pdf_paths].
    intros p q [<-|[]] [<-|[]] _. reflexivity.
Qed.

(** X11. Two different paths returned by [save_and_unpack] never have the
    same file name: members of the same file name are written to the same
    path, which is then returned once for each. *)
Theorem unpacked_names_identify_paths (zip_open : string -> ZipArchive)
  (data save_dir : string) (fs : Py.dict string) :
  names_identify_paths (pdf_paths (save_and_unpack zip_open data save_dir fs)).
Proof. apply unpacked_names_identify_paths_aux. Qed.

(** X12. Every path returned names a file that the call has written: the
    data itself when it is not an archive, the data of a PDF member of the
    archive otherwise. *)
Theorem unpacked_files_written (zip_open : string -> ZipArchive)
  (data save_dir : string) (fs : Py.dict string) (p : string) :
  In p (pdf_paths (save_and_unpack zip_open data save_dir fs)) ->
  exists bytes,
    Py.dict_get p (files (save_and_unpack zip_open data save_dir fs))
    = Some bytes
    /\ ((Str.startswith "PK" data = false /\ bytes = data)
        \/ (Str.startswith "PK" data = true
            /\ exists members name,
                 zip_open data = Zip members
                 /\ is_pdf_member name = true
                 /\ zip_read members name = Some (Data bytes))).
Proof.
  destruct (Str.startswith "PK" data) eqn:Hpk.
  - destruct (zip_open data) as [members| |error] eqn:Hzip.
    + rewrite (save_and_unpack_zip _ _ _ _ _ Hpk Hzip). intros Hp.
      apply (unpack_members_invariant members save_dir (map fst members))
        in Hp.
      * destruct Hp as [_ [name [bytes [Hpdf [Hread Hget]]]]].
        exists bytes. split; [exact Hget|]. right. split; [reflexivity|].
        exists members, name. auto.
      * auto.
      * intros q [].
    + unfold save_and_unpack. rewrite Hpk, Hzip. intros [].
    + unfold save_and_unpack. rewrite Hpk, Hzip. intros [].
  - unfold save_and_unpack. rewrite Hpk. cbn [pdf_paths files].
    intros [<-|[]]. exists data. split; [apply dict_get_set_same|].
    left. auto.
Qed.

Lemma unpacked_files_written_witness :
  exists bytes,
    Py.dict_get "/tmp/nhs/board_papers.pdf"
      (files (save_and_unpack sample_zip "%PDF-1.7" "/tmp/nhs" []))
    = Some bytes
    /\ ((Str.startswith "PK" "%PDF-1.7" = false /\ bytes = "%PDF-1.7")
        \/ (Str.startswith "PK" "%PDF-1.7" = true
            /\ exists members name,
                 sample_zip "%PDF-1.7" = Zip members
                 /\ is_pdf_member name = true
                 /\ zip_read members name = Some (Data bytes))).
Proof.
  apply (unpacked_files_written sample_zip "%PDF-1.7" "/tmp/nhs" []
           "/tmp/nhs/board_papers.pdf").
  vm_compute. auto.
Defined.

(** X13. For data that starts with "PK".  When the data is not an archive
    ([BadZipFile] on opening it) the call returns no path and writes nothing.
    When reading a PDF member raises [BadZipFile], the call returns, and
    every path returned is that of a member listed before it; when all PDF
    members before it could be read, the paths returned are exactly theirs,
    in order, and the failure is the last line printed.  When reading a PDF
    member raises another exception, and all PDF members before it could be
    read, that exception leaves the call: no list is returned and no failure
    line is printed, while the files written before stay written.  An
    exception other than [BadZipFile] on opening the data leaves the call in
    the same way. *)
Theorem damaged_archive_stops (zip_open : string -> ZipArchive)
  (data save_dir : string) (fs : Py.dict string) :
  Str.startswith "PK" data = true ->
  (zip_open data = BadZip ->
   raised (save_and_unpack zip_open data save_dir fs) = None
   /\ pdf_paths (save_and_unpack zip_open data save_dir fs) = []
   /\ files (save_and_unpack zip_open data save_dir fs) = fs)
  /\ (forall members before name after,
        zip_open data = Zip members ->
        map fst members = (before ++ name :: after)%list ->
        is_pdf_member name = true ->
        zip_read members name = Some Damaged ->
        (forall p,
           In p (pdf_paths (save_and_unpack zip_open data save_dir fs)) ->
           exists n, In n before /\ is_pdf_member n = true
                     /\ p = Str.path_join save_dir (Py.basename n))
        /\ ((forall n, In n before -> is_pdf_member n = true ->
                       exists bytes, zip_read members n = Some (Data bytes)) ->
            raised (save_and_unpack zip_open data save_dir fs) = None
            /\ pdf_paths (save_and_unpack zip_open data save_dir fs)
               = map (fun n => Str.path_join save_dir (Py.basename n))
                     (filter is_pdf_member before)
            /\ exists lines,
                 printed (save_and_unpack zip_open data save_dir fs)
                 = (lines ++ [ZipExtractionFailed])%list))
  /\ (forall members before name after error,
        zip_open data = Zip members ->
        map fst members = (before ++ name :: after)%list ->
        is_pdf_member name = true ->
        zip_read members name = Some (Unreadable error) ->
        (forall n, In n before -> is_pdf_member n = true ->
                   exists bytes, zip_read members n = Some (Data bytes)) ->
        raised (save_and_unpack zip_open data save_dir fs) = Some error
        /\ pdf_paths (save_and_unpack zip_open data save_dir fs) = []
        /\ ~ In ZipExtractionFailed
               (printed (save_and_unpack zip_open data save_dir fs))
        /\ forall n bytes,
             In n before -> is_pdf_member n = true ->
             (forall m, In m before -> Py.basename m = Py.basename n ->
                        m = n) ->
             zip_read members n = Some (Data bytes) ->
             Py.dict_get (Str.path_join save_dir (Py.basename n))
               (files (save_and_unpack zip_open data save_dir fs))
             = Some bytes)
  /\ (forall error,
        zip_open data = ZipRaised error ->
        raised (save_and_unpack zip_open data save_dir fs) = Some error
        /\ pdf_paths (save_and_unpack zip_open data save_dir fs) = []
        /\ files (save_and_unpack zip_open data save_dir fs) = fs).
Proof.
  intros Hpk. split; [|split; [|split]].
  - intros Hzip. unfold save_and_unpack. rewrite Hpk, Hzip. auto.
  - intros members before name after Hzip Hnames Hpdf Hread.
    assert (Hbad : forall bytes, zip_read members name <> Some (Data bytes))
      by (intros bytes; rewrite Hread; discriminate).
    rewrite (save_and_unpack_zip _ _ _ _ _ Hpk Hzip), Hnames.
    rewrite (unpack_members_until members save_dir name before after Hpdf Hbad).
    split.
    + intros p Hp.
      apply (unpack_members_last members save_dir name before Hpdf Hbad) in Hp.
      apply (unpack_members_invariant members save_dir before) in Hp.
      * destruct Hp as [[n [Hn [Hpdfn Hpath]]] _]. exists n. auto.
      * auto.
      * intros q [].
    + intros Hall.
      destruct (unpack_members_all_read members save_dir before [name] Hall
                  (mkUnpacked fs []
                     [ZipDetected; ZipContains (List.length members)] None))
        as [Happ [Hpaths Hraised]].
      rewrite Happ, (unpack_members_stopped _ _ _ _ _ Hpdf Hread).
      cbn [raised pdf_paths printed]. rewrite Hpaths, Hraised.
      cbn [raised pdf_paths app]. repeat split; eauto.
  - intros members before name after error Hzip Hnames Hpdf Hread Hall.
    assert (Hbad : forall bytes, zip_read members name <> Some (Data bytes))
      by (intros bytes; rewrite Hread; discriminate).
    rewrite (save_and_unpack_zip _ _ _ _ _ Hpk Hzip), Hnames.
    rewrite (unpack_members_until members save_dir name before after Hpdf Hbad).
    destruct (unpack_members_all_read members save_dir before [name] Hall
                (mkUnpacked fs []
                   [ZipDetected; ZipContains (List.length members)] None))
      as [Happ _].
    rewrite Happ, (unpack_members_raised _ _ _ _ _ _ Hpdf Hread).
    cbn [raised pdf_paths printed files]. repeat split.
    + intros Hin.
      apply (unpack_members_read_printed members save_dir before Hall) in Hin.
      cbn [printed] in Hin.
      destruct Hin as [[Hin|[Hin|[]]]|[f [l Hin]]]; discriminate Hin.
    + intros n bytes Hn Hpdfn Hunique Hreadn.
      now apply unpack_members_read_files.
  - intros error Hzip. unfold save_and_unpack. rewrite Hpk, Hzip. auto.
Qed.

Lemma damaged_archive_stops_witness :
  pdf_paths (save_and_unpack sample_zip "PKbad" "/tmp/nhs" []) = []
  /\ pdf_paths (save_and_unpack sample_zip "PK-archive" "/tmp/nhs" [])
     = ["/tmp/nhs/agenda.pdf"; "/tmp/nhs/agenda.pdf"]
  /\ raised (save_and_unpack sample_zip "PK-protected" "/tmp/nhs" [])
     = Some "RuntimeError"
  /\ raised (save_and_unpack sample_zip "PKnewer" "/tmp/nhs" [])
     = Some "NotImplementedError".
Proof.
  assert (Hread : forall n,
            In n ["pack/agenda.pdf"; "__MACOSX/pack/agenda.pdf";
                  "old/agenda.pdf"; "notes.txt"] ->
            is_pdf_member n = true ->
            exists bytes, zip_read sample_archive n = Some (Data bytes)).
  { intros n [<-|[<-|[<-|[<-|[]]]]] Hpdf; try discriminate Hpdf;
      eexists; reflexivity. }
  assert (Hread' : forall n,
            In n ["pack/agenda.pdf"; "notes.txt"] ->
            is_pdf_member n = true ->
            exists bytes, zip_read protected_archive n = Some (Data bytes)).
  { intros n [<-|[<-|[]]] Hpdf; try discriminate Hpdf;
      eexists; reflexivity. }
  split; [|split; [|split]].
  - exact (proj1 (proj2 (proj1 (damaged_archive_stops sample_zip "PKbad"
                                  "/tmp/nhs" [] eq_refl) eq_refl))).
  - exact (proj1 (proj2
             (proj2 (proj1 (proj2 (damaged_archive_stops sample_zip
                                     "PK-archive" "/tmp/nhs" [] eq_refl))
                       sample_archive
                       ["pack/agenda.pdf"; "__MACOSX/pack/agenda.pdf";
                        "old/agenda.pdf"; "notes.txt"]
                       "pack/Report.PDF" ["pack/late.pdf"]
                       eq_refl eq_refl eq_refl eq_refl)
                Hread))).
  - exact (proj1
             (proj1 (proj2 (proj2 (damaged_archive_stops sample_zip
                                     "PK-protected" "/tmp/nhs" [] eq_refl)))
                protected_archive ["pack/agenda.pdf"; "notes.txt"]
                "pack/private.pdf" ["pack/late.pdf"] "RuntimeError"
                eq_refl eq_refl eq_refl eq_refl Hread')).
  - exact (proj1 (proj2 (proj2 (proj2 (damaged_archive_stops sample_zip
                                         "PKnewer" "/tmp/nhs" [] eq_refl)))
                    "NotImplementedError" eq_refl)).
Defined.

Example unpack_sample_archive :
  pdf_paths (save_and_unpack sample_zip "PK-archive" "/tmp/nhs" [])
  = ["/tmp/nhs/agenda.pdf"; "/tmp/nhs/agenda.pdf"]
  /\ files (save_and_unpack sample_zip "PK-archive" "/tmp/nhs" [])
     = [("/tmp/nhs/agenda.pdf", "two")].
Proof. split; vm_compute; reflexivity. Qed.

(** ** From the unpacked paths to the corpus *)

Lemma later_documents_keep_texts (open_pdf : string -> OpenResult)
  (done todo : list string) (k v : string) :
  names_identify_paths (done ++ todo) ->
  Py.dict_get k (extract_targeted_text open_pdf done) = Some v ->
  Py.dict_get k (extract_targeted_text open_pdf (done ++ todo)) = Some v.
Proof.
  intros Hnames Hget.
  unfold extract_targeted_text, run_extraction in *.
  rewrite run_loop_stores in *. cbn [all_sections] in *.
  apply dict_get_set_all_consistent.
  - now apply run_stores_consistent.
  - unfold run_stores. rewrite flat_map_app. apply in_or_app. left.
    destruct (dict_get_set_all_cases _ _ _ _ Hget) as [Hin|Hd];
      [exact Hin | discriminate].
Qed.

(** X14. Whatever was downloaded, the corpus built from the paths that
    [save_and_unpack] returns never loses or changes a text: what is stored
    after a first part of those paths is still stored, unchanged, after all
    of them. *)
Theorem unpacked_corpus_keeps_texts (zip_open : string -> ZipArchive)
  (open_pdf : string -> OpenResult) (data save_dir : string)
  (fs : Py.dict string) (done todo : list string) (k v : string) :
  pdf_paths (save_and_unpack zip_open data save_dir fs) = (done ++ todo)%list ->
  Py.dict_get k (extract_targeted_text open_pdf done) = Some v ->
  Py.dict_get k
    (extract_targeted_text open_pdf
       (pdf_paths (save_and_unpack zip_open data save_dir fs)))
  = Some v.
Proof.
  intros Hsplit Hget.
  pose proof (unpacked_names_identify_paths_aux zip_open data save_dir fs)
    as Hnames.
  rewrite Hsplit in *. now apply later_documents_keep_texts.
Qed.

Lemma unpacked_corpus_keeps_texts_witness :
  Py.dict_get "agenda.pdf__agenda"
    (extract_targeted_text same_document
       (pdf_paths (save_and_unpack sample_zip "PK-archive" "/tmp/nhs" [])))
  = Some ("-- Page 1 --" ++ nl ++ "January").
Proof.
  apply (unpacked_corpus_keeps_texts sample_zip same_document "PK-archive"
           "/tmp/nhs" [] ["/tmp/nhs/agenda.pdf"] ["/tmp/nhs/agenda.pdf"]).
  - vm_compute. reflexivity.
  - vm_compute. reflexivity.
Defined.

(** ** [load_prompt] *)

Lemma startswith_append (old b : string) :
  Str.startswith old (old ++ b) = true.
Proof.
  induction old as [|c old IH]; simpl; [reflexivity|].
  now rewrite Ascii.eqb_refl, IH.
Qed.

Lemma replace_from_skip (old new x b : string) :
  Str.replace_from old new (String.length x) (x ++ b)
  = Str.replace_from old new 0 b.
Proof.
  induction x as [|c x IH]; simpl.
  - destruct b; reflexivity.
  - exact IH.
Qed.

Lemma replace_from_occurrence (c : ascii) (old new b : string) :
  Str.replace_from (String c old) new 0 (String c old ++ b)
  = new ++ Str.replace_from (String c old) new 0 b.
Proof.
  cbn [append Str.replace_from].
  change (String c (old ++ b)) with (String c old ++ b).
  rewrite startswith_append.
  replace (String.length (String c old) - 1) with (String.length old)
    by (cbn [String.length]; lia).
  now rewrite replace_from_skip.
Qed.

Lemma replace_from_plain (old new a b : string) :
  no_open_brace a = true ->
  Str.replace_from (String "{" old) new 0 (a ++ b)
  = a ++ Str.replace_from (String "{" old) new 0 b.
Proof.
  intros Ha. induction a as [|c a IH]; [reflexivity|].
  unfold no_open_brace in Ha. cbn [every] in Ha.
  apply andb_true_iff in Ha as [Hc Ha].
  cbn [append Str.replace_from Str.startswith].
  rewrite (Ascii.eqb_sym "{" c).
  apply negb_true_iff in Hc. rewrite Hc. cbn [andb].
  now rewrite (IH Ha).
Qed.

Lemma replace_from_end (old new : string) :
  Str.replace_from old new 0 "" = "".
Proof. reflexivity. Qed.

Lemma pass_trust_name (t : string) (pieces : list Piece) :
  Forall (fun piece => plain_piece piece = true) pieces ->
  Str.replace TRUST_NAME t (template_text pieces)
  = render t BOARD_PAPERS_URL EXTRACTED_TEXT pieces.
Proof.
  unfold template_text.
  change (Str.replace TRUST_NAME t) with (Str.replace_from TRUST_NAME t 0).
  induction 1 as [|piece pieces Hplain _ IH]; [reflexivity|].
  cbn [render]. destruct piece as [text| | |]; cbn [render_piece].
  - unfold TRUST_NAME at 1. rewrite replace_from_plain by exact Hplain.
    fold TRUST_NAME. now rewrite IH.
  - unfold TRUST_NAME at 1 2. rewrite replace_from_occurrence.
    fold TRUST_NAME. now rewrite IH.
  - rewrite <- IH. reflexivity.
  - rewrite <- IH. reflexivity.
Qed.

Lemma pass_board_papers_url (t u : string) (pieces : list Piece) :
  Forall (fun piece => plain_piece piece = true) pieces ->
  no_open_brace t = true ->
  Str.replace BOARD_PAPERS_URL u (render t BOARD_PAPERS_URL EXTRACTED_TEXT
                                         pieces)
  = render t u EXTRACTED_TEXT pieces.
Proof.
  intros Hpieces Ht.
  change (Str.replace BOARD_PAPERS_URL u)
    with (Str.replace_from BOARD_PAPERS_URL u 0).
  induction Hpieces as [|piece pieces Hplain _ IH]; [reflexivity|].
  cbn [render]. destruct piece as [text| | |]; cbn [render_piece].
  - unfold BOARD_PAPERS_URL at 1. rewrite replace_from_plain by exact Hplain.
    fold BOARD_PAPERS_URL. now rewrite IH.
  - unfold BOARD_PAPERS_URL at 1. rewrite replace_from_plain by exact Ht.
    fold BOARD_PAPERS_URL. now rewrite IH.
  - unfold BOARD_PAPERS_URL at 1 2. rewrite replace_from_occurrence.
    fold BOARD_PAPERS_URL. now rewrite IH.
  - rewrite <- IH. reflexivity.
Qed.

Lemma pass_extracted_text (t u e : string) (pieces : list Piece) :
  Forall (fun piece => plain_piece piece = true) pieces ->
  no_open_brace t = true ->
  no_open_brace u = true ->
  Str.replace EXTRACTED_TEXT e (render t u EXTRACTED_TEXT pieces)
  = render t u e pieces.
Proof.
  intros Hpieces Ht Hu.
  change (Str.replace EXTRACTED_TEXT e)
    with (Str.replace_from EXTRACTED_TEXT e 0).
  induction Hpieces as [|piece pieces Hplain _ IH]; [reflexivity|].
  cbn [render]. destruct piece as [text| | |]; cbn [render_piece].
  - unfold EXTRACTED_TEXT at 1. rewrite replace_from_plain by exact Hplain.
    fold EXTRACTED_TEXT. now rewrite IH.
  - unfold EXTRACTED_TEXT at 1. rewrite replace_from_plain by exact Ht.
    fold EXTRACTED_TEXT. now rewrite IH.
  - unfold EXTRACTED_TEXT at 1. rewrite replace_from_plain by exact Hu.
    fold EXTRACTED_TEXT. now rewrite IH.
  - unfold EXTRACTED_TEXT at 1 2. rewrite replace_from_occurrence.
    fold EXTRACTED_TEXT. now rewrite IH.
Qed.

(** X15. For a template made of literal text without an opening brace and
    of placeholders, in any number and order, and a trust name and a URL
    without an opening brace, [load_prompt] gives the template with every
    placeholder replaced by its value; the extracted text is put in as it is,
    whatever it holds. *)
Theorem load_prompt_fills_template (pieces : list Piece)
  (trust_name board_papers_url extracted_text : string) :
  Forall (fun piece => plain_piece piece = true) pieces ->
  no_open_brace trust_name = true ->
  no_open_brace board_papers_url = true ->
  load_prompt (Some (template_text pieces)) trust_name board_papers_url
              extracted_text
  = Prompt (render trust_name board_papers_url extracted_text pieces).
Proof.
  intros Hpieces Ht Hu. unfold load_prompt.
  rewrite pass_trust_name by exact Hpieces.
  rewrite pass_board_papers_url by assumption.
  now rewrite pass_extracted_text by assumption.
Qed.

Lemma load_prompt_fills_template_witness :
  load_prompt
    (Some ("Trust: {{TRUST_NAME}} ({{BOARD_PAPERS_URL}})" ++ nl
           ++ "{{EXTRACTED_TEXT}}" ++ nl ++ "About {{TRUST_NAME}}."))
    "Leeds" "https://t.nhs.uk" "see {{TRUST_NAME}}"
  = Prompt ("Trust: Leeds (https://t.nhs.uk)" ++ nl
            ++ "see {{TRUST_NAME}}" ++ nl ++ "About Leeds.").
Proof.
  apply (load_prompt_fills_template
           [Lit "Trust: "; TrustName; Lit " ("; BoardPapersUrl;
            Lit (")" ++ nl); ExtractedText; Lit (nl ++ "About ");
            TrustName; Lit "."]
           "Leeds" "https://t.nhs.uk" "see {{TRUST_NAME}}").
  - repeat constructor.
  - reflexivity.
  - reflexivity.
Defined.

Lemma startswith_longer (old s post : string) :
  Str.startswith old s = true -> Str.startswith old (s ++ post) = true.
Proof.
  revert s; induction old as [|a old IH]; intros s; [reflexivity|].
  destruct s as [|c s]; cbn [Str.startswith append]; [discriminate|].
  intros H. apply andb_true_iff in H as [Hc Hs]. now rewrite Hc, (IH s Hs).
Qed.

(** An occurrence of a string that ends in [z] cannot reach into a text
    without [z]. *)
Lemma startswith_within (w : string) (z : ascii) (post : string) :
  forall s,
  without_char z post = true ->
  Str.startswith (ending w z) (s ++ post) = true ->
  String.length (ending w z) <= String.length s
  /\ Str.startswith (ending w z) s = true.
Proof.
  unfold ending. revert post.
  induction w as [|a w IH]; intros post s Hpost H.
  - destruct s as [|c s].
    + exfalso. destruct post as [|c post]; [discriminate|].
      cbn in H, Hpost. apply andb_true_iff in Hpost as [Hc _].
      rewrite andb_true_r in H. rewrite Ascii.eqb_sym in H.
      rewrite H in Hc. discriminate.
    + cbn in *. split; [lia | exact H].
  - destruct s as [|c s].
    + exfalso. destruct post as [|c post]; [discriminate|].
      cbn [append Str.startswith] in H.
      apply andb_true_iff in H as [_ H].
      cbn in Hpost. apply andb_true_iff in Hpost as [_ Hpost].
      destruct (IH post "" Hpost H) as [Hlen _].
      rewrite length_append in Hlen. simpl in Hlen. lia.
    + cbn [append Str.startswith] in *.
      apply andb_true_iff in H as [Hc H].
      destruct (IH post s Hpost H) as [Hlen Hs].
      rewrite Hc, Hs. split; [simpl; lia | reflexivity].
Qed.

Lemma startswith_same (w : string) (z : ascii) (s post : string) :
  without_char z post = true ->
  Str.startswith (ending w z) (s ++ post) = Str.startswith (ending w z) s.
Proof.
  intros Hpost.
  destruct (Str.startswith (ending w z) s) eqn:Hs.
  - now apply startswith_longer.
  - destruct (Str.startswith (ending w z) (s ++ post)) eqn:Hsp; [|reflexivity].
    destruct (startswith_within w z post s Hpost Hsp) as [_ H]. congruence.
Qed.

Lemma replace_from_untouched (w : string) (z : ascii) (new post : string) :
  without_char z post = true ->
  Str.replace_from (ending w z) new 0 post = post.
Proof.
  induction post as [|c post IH]; intros Hpost; [reflexivity|].
  cbn [Str.replace_from].
  destruct (Str.startswith (ending w z) (String c post)) eqn:Hs.
  - exfalso.
    destruct (startswith_within w z (String c post) "" Hpost Hs) as [Hlen _].
    unfold ending in Hlen. rewrite length_append in Hlen. simpl in Hlen. lia.
  - rewrite IH; [reflexivity|].
    cbn in Hpost. now apply andb_true_iff in Hpost as [_ Hpost].
Qed.

Lemma replace_from_tail (w : string) (z : ascii) (new post : string) :
  without_char z post = true ->
  forall s k, k <= String.length s ->
  Str.replace_from (ending w z) new k (s ++ post)
  = Str.replace_from (ending w z) new k s ++ post.
Proof.
  intros Hpost. induction s as [|c s IH]; intros k Hk.
  - simpl in Hk. replace k with 0 by lia. cbn [append].
    now rewrite replace_from_untouched.
  - cbn [append Str.replace_from]. destruct k as [|k].
    + change (String c (s ++ post)) with (String c s ++ post).
      rewrite startswith_same by exact Hpost.
      destruct (Str.startswith (ending w z) (String c s)) eqn:Hs.
      * rewrite IH.
        -- now rewrite append_assoc.
        -- destruct (startswith_within w z "" (String c s) eq_refl) as [Hlen _].
           ++ now rewrite append_empty_r.
           ++ simpl in Hlen. lia.
      * rewrite IH by lia. reflexivity.
    + apply IH. simpl in Hk. lia.
Qed.

Lemma replace_around (w : string) (new pre t post : string) :
  no_open_brace pre = true ->
  without_char "}" post = true ->
  Str.replace (ending (String "{" w) "}") new (pre ++ t ++ post)
  = pre ++ Str.replace (ending (String "{" w) "}") new t ++ post.
Proof.
  intros Hpre Hpost.
  change (Str.replace (ending (String "{" w) "}") new)
    with (Str.replace_from (ending (String "{" w) "}") new 0).
  change (ending (String "{" w) "}") with (String "{" (ending w "}")) at 1.
  rewrite replace_from_plain by exact Hpre.
  change (String "{" (ending w "}")) with (ending (String "{" w) "}").
  rewrite replace_from_tail by (auto; lia). reflexivity.
Qed.

(** X16. The three replacements are made one after the other, so the trust
    name put in by the first is searched by the next two: for a template with
    the trust name placeholder between texts without braces, the prompt holds
    the trust name with the URL and the extracted text put in wherever the
    trust name holds their placeholders. *)
Theorem load_prompt_rescans_trust_name
  (pre post trust_name board_papers_url extracted_text : string) :
  no_open_brace pre = true ->
  no_open_brace post = true ->
  no_close_brace post = true ->
  load_prompt (Some (pre ++ TRUST_NAME ++ post)) trust_name board_papers_url
              extracted_text
  = Prompt (pre
            ++ Str.replace EXTRACTED_TEXT extracted_text
                 (Str.replace BOARD_PAPERS_URL board_papers_url trust_name)
            ++ post).
Proof.
  intros Hpre Hopen Hclose. unfold load_prompt. f_equal.
  assert (Hfirst : Str.replace TRUST_NAME trust_name (pre ++ TRUST_NAME ++ post)
                   = pre ++ trust_name ++ post).
  { change (Str.replace TRUST_NAME trust_name)
      with (Str.replace_from TRUST_NAME trust_name 0).
    unfold TRUST_NAME. rewrite replace_from_plain by exact Hpre.
    rewrite replace_from_occurrence.
    rewrite <- (append_empty_r post) at 1.
    rewrite replace_from_plain by exact Hopen.
    cbn [Str.replace_from]. now rewrite append_empty_r. }
  rewrite Hfirst.
  change BOARD_PAPERS_URL with (ending (String "{" "{BOARD_PAPERS_URL}") "}").
  rewrite replace_around by assumption.
  change EXTRACTED_TEXT with (ending (String "{" "{EXTRACTED_TEXT}") "}").
  now rewrite replace_around by assumption.
Qed.

Lemma load_prompt_rescans_trust_name_witness :
  load_prompt (Some ("Trust: " ++ TRUST_NAME ++ ".")) "{{EXTRACTED_TEXT}}"
              "https://t.nhs.uk" "page one"
  = Prompt "Trust: page one.".
Proof.
  apply (load_prompt_rescans_trust_name "Trust: " "." "{{EXTRACTED_TEXT}}"
           "https://t.nhs.uk" "page one"); reflexivity.
Defined.

(** * More on the extraction and the assembly *)

Lemma join_prefix (sep : string) (l1 l2 : list string) :
  exists rest, Py.join sep (l1 ++ l2) = Py.join sep l1 ++ rest.
Proof.
  unfold Py.join. induction l1 as [|x l1 IH].
  - exists (String.concat sep l2). reflexivity.
  - destruct l1 as [|y l1].
    + destruct l2 as [|y l2].
      * exists "". cbn. now rewrite append_empty_r.
      * exists (sep ++ String.concat sep (y :: l2)). reflexivity.
    + destruct IH as [rest Hrest]. exists rest.
      change (String.concat sep ((x :: y :: l1) ++ l2))
        with (x ++ sep ++ String.concat sep ((y :: l1) ++ l2)).
      change (String.concat sep (x :: y :: l1))
        with (x ++ sep ++ String.concat sep (y :: l1)).
      now rewrite Hrest, !append_assoc.
Qed.

Lemma extract_pages_prefix (pdf : PdfDocument) (a b : nat) :
  a <= b ->
  exists rest, extract_pages pdf 0 b = extract_pages pdf 0 a ++ rest.
Proof.
  intros Hab. rewrite !extract_pages_segments.
  unfold pages_visited, Py.range. rewrite !Nat.sub_0_r.
  rewrite (seq_cut 0 (Nat.min a (List.length pdf))
                   (Nat.min b (List.length pdf))) by lia.
  rewrite filter_app, map_app. apply join_prefix.
Qed.

(** X17. In fallback mode the agenda pages are read twice: the text stored
    as [part_1] begins with the whole text stored as the agenda. *)
Theorem fallback_repeats_agenda (pdf : PdfDocument) :
  exists rest,
    extract_pages pdf 0 (fallback_chunk (List.length pdf))
    = agenda_of pdf ++ rest.
Proof.
  unfold agenda_of. apply extract_pages_prefix.
  unfold fallback_chunk. lia.
Qed.

(** X18. A document of at most 20 pages is read whole as [part_1] and its
    parts 2 and 3 are empty; with at most 40 pages part 3 is empty. *)
Theorem small_document_parts (pdf : PdfDocument) :
  (List.length pdf <= 40 ->
   extract_pages pdf (fallback_chunk (List.length pdf) * 2) (List.length pdf)
   = "")
  /\ (List.length pdf <= 20 ->
      extract_pages pdf 0 (fallback_chunk (List.length pdf))
      = extract_pages pdf 0 (List.length pdf)
      /\ extract_pages pdf (fallback_chunk (List.length pdf))
                       (fallback_chunk (List.length pdf) * 2) = "").
Proof.
  assert (Hchunk : 20 <= fallback_chunk (List.length pdf))
    by (unfold fallback_chunk; lia).
  assert (Hempty : forall start end_,
            List.length pdf <= start -> extract_pages pdf start end_ = "").
  { intros start end_ H. unfold extract_pages, pages_visited, Py.range.
    replace (Nat.min end_ (List.length pdf) - start) with 0 by lia.
    reflexivity. }
  split.
  - intros H. apply Hempty. lia.
  - intros H. split; [|apply Hempty; lia].
    unfold extract_pages, pages_visited.
    now rewrite Nat.min_r, Nat.min_id by lia.
Qed.

Lemma small_document_parts_witness :
  extract_pages [TextPage "January"] 40 1 = ""
  /\ extract_pages [TextPage "January"] 0 20
     = extract_pages [TextPage "January"] 0 1.
Proof.
  destruct (small_document_parts [TextPage "January"]) as [H40 H20].
  split.
  - apply H40. simpl. lia.
  - apply H20. simpl. lia.
Defined.

(** X19. A located section starts at a page of the document, not before the
    third, and its window reads the pages from there on: at least one and at
    most 30, never past the last page. *)
Theorem section_window_pages (agenda_text : string) (pdf : PdfDocument)
  (name : string) (start : nat) :
  In (name, start) (find_section_starts agenda_text (List.length pdf)) ->
  2 <= start < List.length pdf
  /\ pages_visited pdf start (Nat.min (start + 30) (List.length pdf))
     = seq start (Nat.min 30 (List.length pdf - start))
  /\ 1 <= Nat.min 30 (List.length pdf - start) <= 30.
Proof.
  intros Hin.
  destruct (in_find_section_starts _ _ _ _ Hin) as [kws [_ Hloc]].
  apply located_range in Hloc as [p [_ [Hr ->]]].
  split; [lia|]. split; [|lia].
  unfold pages_visited, Py.range. f_equal. lia.
Qed.

Lemma section_window_pages_witness :
  pages_visited (repeat BrokenPage 120) 41 (Nat.min (41 + 30) 120)
  = seq 41 30.
Proof.
  destruct (section_window_pages "Finance Report .......... 42"
              (repeat BrokenPage 120) "finance" 41) as [_ [Hpages _]].
  - vm_compute. auto.
  - exact Hpages.
Defined.

Lemma section_entries_keys (text : string) (total : nat)
  (pl : list (string * list string)) :
  Py.keys (flat_map (section_entry text total) pl)
  = map fst (filter (topic_located text total) pl).
Proof.
  unfold Py.keys. induction pl as [|e pl IH]; [reflexivity|].
  cbn [flat_map filter]. rewrite map_app, IH.
  unfold section_entry, topic_located.
  destruct (located (snd e) text total); reflexivity.
Qed.

(** X20. The mapping lists the located topics in the fixed order of the
    table, ceo_report, finance, performance, quality, workforce, whatever the
    order in which the agenda names them, and has at most five entries. *)
Theorem section_starts_order (agenda_text : string) (total_pages : nat) :
  Py.keys (find_section_starts agenda_text total_pages)
  = map fst (filter (topic_located agenda_text total_pages) patterns)
  /\ List.length (find_section_starts agenda_text total_pages) <= 5.
Proof.
  assert (Hkeys : Py.keys (find_section_starts agenda_text total_pages)
          = map fst (filter (topic_located agenda_text total_pages) patterns)).
  { rewrite find_section_starts_entries. apply section_entries_keys. }
  split; [exact Hkeys|].
  rewrite <- (length_map fst). fold (Py.keys (find_section_starts agenda_text
                                                total_pages)).
  rewrite Hkeys, length_map.
  apply (Nat.le_trans _ (List.length patterns)); [apply filter_length_le|].
  reflexivity.
Qed.

Example sections_in_table_order :
  find_section_starts ("Workforce report 80" ++ nl ++ "Quality report 60"
                       ++ nl ++ "Finance report 40") 120
  = [("finance", 39); ("quality", 59); ("workforce", 79)].
Proof. vm_compute. reflexivity. Qed.

(** ** The assembly loop *)

Lemma total_size_nonneg (upper : string -> string)
  (l : list (string * string)) : (0 <= total_size upper l)%Z.
Proof.
  induction l as [|e l IH]; simpl; [lia|].
  pose proof (entry_size_nonneg upper e). lia.
Qed.

Lemma assemble_fitting (upper : string -> string)
  (limit : Z) (fitting : list (string * string)) :
  forall rest parts total_chars,
  (total_chars + total_size upper (filter non_blank fitting) <= limit)%Z ->
  assemble upper limit (fitting ++ rest) parts total_chars
  = assemble upper limit rest
      (parts ++ map (entry_text upper) (filter non_blank fitting))%list
      (total_chars + total_size upper (filter non_blank fitting))%Z.
Proof.
  induction fitting as [|[section text] fitting IH];
    intros rest parts total_chars Hfit.
  - cbn. now rewrite app_nil_r, Z.add_0_r.
  - assert (Hf : filter non_blank ((section, text) :: fitting)
                 = if Py.blank text then filter non_blank fitting
                   else (section, text) :: filter non_blank fitting).
    { cbn [filter]. unfold non_blank at 1. cbn [snd].
      now destruct (Py.blank text). }
    rewrite Hf in *. cbn [app assemble].
    destruct (Py.blank text) eqn:Hblank.
    + now apply IH.
    + cbn [total_size map] in *.
      change (entry_size upper (section, text))
        with (Py.len (header upper section) + Py.len text)%Z in *.
      change (entry_text upper (section, text)) with (header upper section ++ text).
      pose proof (total_size_nonneg upper (filter non_blank fitting)) as Hpos.
      destruct (total_chars + Py.len (header upper section) + Py.len text
                >? limit)%Z eqn:Hover.
      * rewrite Z.gtb_ltb in Hover. apply Z.ltb_lt in Hover. lia.
      * rewrite IH by lia. rewrite <- app_assoc. cbn [app].
        f_equal. lia.
Qed.

(** X21. When all the non-blank entries fit, nothing is dropped: the
    combined text is every non-blank entry, header and text, in order. *)
Theorem combined_text_all_fit (upper : string -> string)
  (extracted : Py.dict string) :
  (total_size upper (filter non_blank extracted) <= CHAR_LIMIT)%Z ->
  combined_text upper extracted
  = Py.join "" (map (entry_text upper) (filter non_blank extracted)).
Proof.
  intros Hfit. unfold combined_text, combined_text_upto.
  pose proof (assemble_fitting upper CHAR_LIMIT extracted [] [] 0%Z) as Hall.
  rewrite app_nil_r in Hall. rewrite Hall by lia. reflexivity.
Qed.

Lemma combined_text_all_fit_witness :
  combined_text upper_latin1 [("a.pdf__agenda", "Agenda"); ("a.pdf__part_2", "");
                 ("a.pdf__part_1", "Text")]
  = Py.join "" [header upper_latin1 "a.pdf__agenda" ++ "Agenda";
                header upper_latin1 "a.pdf__part_1" ++ "Text"].
Proof.
  apply (combined_text_all_fit upper_latin1
           [("a.pdf__agenda", "Agenda"); ("a.pdf__part_2", "");
            ("a.pdf__part_1", "Text")]).
  vm_compute. discriminate.
Defined.

(** X22. Once an entry does not fit, the loop ends: the combined text is
    that of the entries before it, and the entries after it are left out
    even when they would fit. *)
Theorem combined_text_cut_off (upper : string -> string)
  (before after : Py.dict string)
  (entry : string * string) :
  non_blank entry = true ->
  (total_size upper (filter non_blank before) <= CHAR_LIMIT)%Z ->
  (total_size upper (filter non_blank before) + entry_size upper entry > CHAR_LIMIT)%Z ->
  combined_text upper (before ++ entry :: after)%list = combined_text upper before.
Proof.
  intros Hnb Hfit Hover. unfold combined_text, combined_text_upto.
  pose proof (assemble_fitting upper CHAR_LIMIT before (entry :: after) [] 0%Z)
    as Hleft.
  pose proof (assemble_fitting upper CHAR_LIMIT before [] [] 0%Z) as Hright.
  rewrite app_nil_r in Hright.
  rewrite Hleft, Hright by lia.
  destruct entry as [section text]. cbn [assemble].
  unfold non_blank in Hnb. cbn [snd] in Hnb.
  apply negb_true_iff in Hnb. rewrite Hnb.
  unfold entry_size in Hover. cbn [fst snd] in Hover.
  assert (Hgt : (0 + total_size upper (filter non_blank before)
                 + Py.len (header upper section) + Py.len text >? CHAR_LIMIT)%Z
                = true).
  { rewrite Z.gtb_ltb. apply Z.ltb_lt. lia. }
  now rewrite Hgt.
Qed.

Lemma filler_len (n : nat) : Py.len (filler n) = Z.of_nat n.
Proof.
  unfold Py.len, filler. f_equal.
  induction n as [|n IH]; simpl; [reflexivity | now rewrite IH].
Qed.

Lemma filler_non_blank (key : string) (n : nat) :
  0 < n -> non_blank (key, filler n) = true.
Proof. destruct n as [|n]; [lia | reflexivity]. Qed.

Lemma combined_text_cut_off_witness :
  combined_text upper_latin1 ([("a", "Agenda")] ++ ("b", filler (400 * 1000))
                 :: [("c", "Minutes")])%list
  = combined_text upper_latin1 [("a", "Agenda")].
Proof.
  apply (combined_text_cut_off upper_latin1 [("a", "Agenda")] [("c", "Minutes")]
           ("b", filler (400 * 1000))).
  - apply filler_non_blank. lia.
  - vm_compute. discriminate.
  - unfold entry_size. cbn [fst snd]. rewrite filler_len.
    pose proof (len_nonneg (header upper_latin1 "b")).
    assert (0 < total_size upper_latin1 (filter non_blank [("a", "Agenda")]))%Z
      by (vm_compute; reflexivity).
    unfold CHAR_LIMIT. lia.
Defined.

Lemma assemble_blank_filtered (upper : string -> string)
  (limit : Z) (items : list (string * string)) :
  forall parts total_chars,
  assemble upper limit (filter non_blank items) parts total_chars
  = assemble upper limit items parts total_chars.
Proof.
  induction items as [|[section text] items IH]; intros parts total_chars;
    [reflexivity|].
  cbn [filter assemble]. unfold non_blank at 1. cbn [snd].
  destruct (Py.blank text) eqn:Hblank; cbn [negb].
  - apply IH.
  - cbn [assemble]. rewrite Hblank.
    destruct (total_chars + Py.len (header upper section) + Py.len text
              >? limit)%Z; [reflexivity | apply IH].
Qed.

(** X23. Entries whose text is blank are passed over: leaving them out of
    the corpus gives the same combined text, and a corpus of blank texts
    gives the empty combined text. *)
Theorem combined_text_ignores_blank (upper : string -> string)
  (extracted : Py.dict string) :
  combined_text upper (filter non_blank extracted) = combined_text upper extracted
  /\ (Forall (fun e => Py.blank (snd e) = true) extracted ->
      combined_text upper extracted = "").
Proof.
  split.
  - unfold combined_text, combined_text_upto.
    now rewrite assemble_blank_filtered.
  - intros Hall. unfold combined_text, combined_text_upto.
    rewrite <- assemble_blank_filtered.
    assert (Hnone : filter non_blank extracted = []).
    { induction Hall as [|e l He _ IH]; [reflexivity|].
      cbn [filter]. unfold non_blank at 1. now rewrite He. }
    now rewrite Hnone.
Qed.

Lemma combined_text_ignores_blank_witness :
  combined_text upper_latin1 [("a.pdf__agenda", ""); ("a.pdf__part_1", " ")] = "".
Proof.
  apply (proj2 (combined_text_ignores_blank upper_latin1
                  [("a.pdf__agenda", ""); ("a.pdf__part_1", " ")])).
  repeat constructor.
Defined.

(** ** Documents without text *)

Lemma extract_pages_no_text (pdf : PdfDocument) (start end_ : nat) :
  (forall i, page_kept pdf i = false) -> extract_pages pdf start end_ = "".
Proof.
  intros Hnone. rewrite extract_pages_segments.
  assert (Hfilter : forall l, filter (page_kept pdf) l = []).
  { induction l as [|i l IH]; [reflexivity|]. cbn [filter].
    now rewrite Hnone. }
  now rewrite Hfilter.
Qed.

Lemma find_section_starts_empty (total : nat) :
  find_section_starts "" total = [].
Proof. reflexivity. Qed.

Lemma document_stores_no_text (label : string) (pdf : PdfDocument) :
  (forall i, page_kept pdf i = false) ->
  forall k v, In (k, v) (document_stores label pdf) -> v = "".
Proof.
  intros Hnone k v. unfold document_stores, agenda_of.
  rewrite (extract_pages_no_text pdf 0 _ Hnone), find_section_starts_empty.
  unfold part_texts. rewrite !(extract_pages_no_text pdf _ _ Hnone).
  simpl. intros [H|[H|[H|[H|[]]]]]; now inversion H.
Qed.

Lemma dict_set_entries {V} (k k' : string) (v v' : V) (d : Py.dict V) :
  In (k, v) (Py.dict_set k' v' d) -> v = v' \/ In (k, v) d.
Proof.
  induction d as [|[k0 v0] d IH]; simpl.
  - intros [H|[]]. inversion H. now left.
  - destruct (String.eqb k0 k'); simpl.
    + intros [H|H]; [inversion H; now left | now right; right].
    + intros [H|H]; [now right; left|].
      destruct (IH H) as [Hv|Hd]; [now left | now right; right].
Qed.

Lemma set_all_entries {V} (entries : list (string * V)) :
  forall (d : Py.dict V) k v,
  In (k, v) (set_all entries d) ->
  In v (map snd entries) \/ In (k, v) d.
Proof.
  induction entries as [|[k' v'] entries IH]; intros d k v Hin; [now right|].
  unfold set_all in *. cbn [fold_left fst snd] in Hin.
  destruct (IH _ _ _ Hin) as [Hv|Hd].
  - left. now right.
  - apply dict_set_entries in Hd as [->|Hd]; [left; now left | now right].
Qed.

Lemma all_blank_combined (upper : string -> string)
  (extracted : Py.dict string) :
  (forall k v, In (k, v) extracted -> Py.blank v = true) ->
  combined_text upper extracted = "".
Proof.
  intros Hall. unfold combined_text, combined_text_upto.
  rewrite <- assemble_blank_filtered.
  assert (Hnone : filter non_blank extracted = []).
  { induction extracted as [|[k v] l IH]; [reflexivity|].
    cbn [filter]. unfold non_blank at 1. cbn [snd].
    rewrite (Hall k v) by now left. cbn [negb].
    apply IH. intros k' v' H. apply (Hall k' v'). now right. }
  now rewrite Hnone.
Qed.

(** X24. When no page of any document that opens has a text (scans without
    a text layer, pages that cannot be read), every text of the corpus is
    empty and the combined text sent in the prompt is empty. *)
Theorem no_text_gives_empty_prompt (upper : string -> string)
  (open_pdf : string -> OpenResult)
  (pdf_paths : list string) :
  (forall pdf_path pdf, In pdf_path pdf_paths ->
     open_pdf pdf_path = Opened pdf -> forall i, page_kept pdf i = false) ->
  (forall k v, In (k, v) (extract_targeted_text open_pdf pdf_paths) -> v = "")
  /\ combined_text upper (extract_targeted_text open_pdf pdf_paths) = "".
Proof.
  intros Hnone.
  assert (Hvalues : forall k v,
            In (k, v) (extract_targeted_text open_pdf pdf_paths) -> v = "").
  { intros k v Hin. unfold extract_targeted_text, run_extraction in Hin.
    rewrite run_loop_stores in Hin. cbn [all_sections] in Hin.
    apply set_all_entries in Hin as [Hin|[]].
    apply in_map_iff in Hin. destruct Hin as [[k' v'] [Hv Hin]].
    simpl in Hv. subst v'.
    unfold run_stores in Hin. apply in_flat_map in Hin.
    destruct Hin as [path [Hpath Hin]]. unfold path_stores in Hin.
    destruct (open_pdf path) as [pdf|e] eqn:Hopen; [|contradiction].
    apply (document_stores_no_text (Py.basename path) pdf
             (Hnone path pdf Hpath Hopen) k' v Hin). }
  split; [exact Hvalues|].
  apply all_blank_combined. intros k v Hin.
  now rewrite (Hvalues k v Hin).
Qed.

Lemma no_text_gives_empty_prompt_witness :
  combined_text upper_latin1 (extract_targeted_text scanned_document ["scan.pdf"]) = "".
Proof.
  assert (Hscan : forall pdf_path pdf, In pdf_path ["scan.pdf"] ->
            scanned_document pdf_path = Opened pdf ->
            forall i, page_kept pdf i = false).
  { intros pdf_path pdf _ Hopen i. inversion Hopen; subst pdf.
    destruct i as [|[|[|[|i]]]]; reflexivity. }
  exact (proj2 (no_text_gives_empty_prompt upper_latin1 scanned_document
                  ["scan.pdf"]
                  Hscan)).
Defined.

(** ** What a run prints *)

Lemma process_pdf_events (open_pdf : string -> OpenResult) (st : State)
  (pdf_path : string) :
  output (process_pdf open_pdf st pdf_path)
  = (output st ++ path_events open_pdf pdf_path)%list.
Proof.
  unfold process_pdf, path_events.
  destruct (open_pdf pdf_path) as [pdf|e].
  - fold (agenda_of pdf).
    destruct (find_section_starts (agenda_of pdf) (List.length pdf))
      as [|entry sections].
    + cbn. now rewrite <- !app_assoc.
    + rewrite (proj2 (store_sections_loop _ _ _ _)).
      cbn. now rewrite <- !app_assoc.
  - cbn. now rewrite <- !app_assoc.
Qed.

Lemma run_events (open_pdf : string -> OpenResult) (pdf_paths : list string) :
  forall st,
  output (fold_left (process_pdf open_pdf) pdf_paths st)
  = (output st ++ flat_map (path_events open_pdf) pdf_paths)%list.
Proof.
  induction pdf_paths as [|path paths IH]; intros st.
  - cbn. now rewrite app_nil_r.
  - cbn [fold_left flat_map]. rewrite IH, process_pdf_events.
    now rewrite <- app_assoc.
Qed.

(** X25. A run prints the name of every path once, in the order of the
    paths, whether the document opens or not, and one failure line for each
    path that does not open. *)
Theorem run_announces_every_path (open_pdf : string -> OpenResult)
  (pdf_paths : list string) :
  filter is_reading (output (run_extraction open_pdf pdf_paths))
  = map (fun pdf_path => Reading (Py.basename pdf_path)) pdf_paths
  /\ List.length (filter is_could_not_open
                         (output (run_extraction open_pdf pdf_paths)))
     = List.length (filter (fails_to_open open_pdf) pdf_paths).
Proof.
  unfold run_extraction. rewrite run_events. cbn [output app].
  induction pdf_paths as [|path paths [IH1 IH2]]; [split; reflexivity|].
  cbn [flat_map map filter]. rewrite !filter_app, IH1, length_app, IH2.
  unfold path_events, fails_to_open.
  destruct (open_pdf path) as [pdf|e].
  - destruct (find_section_starts (agenda_of pdf) (List.length pdf));
      split; reflexivity.
  - split; reflexivity.
Qed.

(** ** From the index page to the link chosen *)

Lemma pick_best_link_in (links : list Link) (url : string) :
  pick_best_link links = Some url ->
  exists link, In link links /\ link_url link = url.
Proof.
  unfold pick_best_link. destruct links as [|first rest]; [discriminate|].
  destruct (find has_priority (first :: rest)) as [l|] eqn:Hp.
  - intros H; inversion H; subst. exists l. split; [|reflexivity].
    now apply find_some in Hp.
  - destruct (find is_pdf_link (first :: rest)) as [l|] eqn:Hpdf.
    + intros H; inversion H; subst. exists l. split; [|reflexivity].
      now apply find_some in Hpdf.
    + intros H; inversion H; subst. exists first. split; auto. now left.
Qed.

Lemma pick_best_link_nothing (links : list Link) :
  pick_best_link links = None -> links = [].
Proof.
  unfold pick_best_link. destruct links as [|first rest]; [reflexivity|].
  destruct (find has_priority (first :: rest)); [discriminate|].
  destruct (find is_pdf_link (first :: rest)); discriminate.
Qed.

(** X26. For a page that is fetched, a link is chosen exactly when the page
    has an anchor taken for a document, and the URL chosen is the full URL of
    such an anchor. *)
Theorem chosen_link_is_document (session_fetch : string -> IndexPage)
  (urljoin : string -> string -> string) (index_url : string)
  (anchors : list Anchor) :
  session_fetch index_url = Fetched anchors ->
  (pick_best_link (fst (get_document_links session_fetch urljoin index_url))
   = None
   <-> Forall (fun a => doc_anchor a = false) anchors)
  /\ (forall url,
        pick_best_link
          (fst (get_document_links session_fetch urljoin index_url))
        = Some url ->
        exists a, In a anchors /\ doc_anchor a = true
                  /\ full_url_of urljoin index_url (href a) = url).
Proof.
  intros Hfetch. unfold get_document_links. rewrite Hfetch. cbn [fst].
  destruct (add_anchors_invariant urljoin index_url anchors [] []
              eq_refl (NoDup_nil _) (Forall_nil _)) as [H1 [_ [_ H4]]].
  set (links := fst (fold_left (add_anchor urljoin index_url) anchors
                               ([], []))) in *.
  assert (Hurls : forall u, In u (map link_url links) <->
            exists a, In a anchors /\ doc_anchor a = true
                      /\ full_url_of urljoin index_url (href a) = u).
  { intros u. rewrite <- H1, H4. split.
    - intros [[]|H]; exact H.
    - intros H; now right. }
  split; [split|].
  - intros Hnone. apply pick_best_link_nothing in Hnone.
    apply Forall_forall. intros a Ha.
    destruct (doc_anchor a) eqn:Hdoc; [|reflexivity].
    exfalso.
    assert (Hin : In (full_url_of urljoin index_url (href a))
                     (map link_url links))
      by (apply Hurls; exists a; auto).
    rewrite Hnone in Hin. exact Hin.
  - intros Hall.
    destruct (pick_best_link links) as [url|] eqn:Hpick; [|reflexivity].
    exfalso. destruct (pick_best_link_in _ _ Hpick) as [l [Hl Hurl]].
    assert (Hin : In url (map link_url links))
      by (rewrite <- Hurl; now apply in_map).
    apply Hurls in Hin. destruct Hin as [a [Ha [Hdoc _]]].
    rewrite Forall_forall in Hall. rewrite (Hall a Ha) in Hdoc.
    discriminate.
  - intros url Hpick. destruct (pick_best_link_in _ _ Hpick) as [l [Hl Hurl]].
    apply Hurls. rewrite <- Hurl. now apply in_map.
Qed.

Lemma chosen_link_is_document_witness :
  exists a,
    In a [ mkAnchor "/docs/pack.pdf" "Board pack";
           mkAnchor "/about" "About us";
           mkAnchor "https://t.nhs.uk/docs/pack.pdf" "Board pack (again)";
           mkAnchor "/download?id=7" "";
           mkAnchor "" "Empty" ]
    /\ doc_anchor a = true
    /\ full_url_of sample_urljoin "u" (href a)
       = "https://t.nhs.uk/docs/pack.pdf".
Proof.
  apply (proj2 (chosen_link_is_document sample_index sample_urljoin "u" _
                  eq_refl) "https://t.nhs.uk/docs/pack.pdf").
  vm_compute. reflexivity.
Defined.

(** ** The keys of the corpus *)

Lemma dict_set_keys {V} (k k' : string) (v : V) (d : Py.dict V) :
  In k (Py.keys (Py.dict_set k' v d)) <-> k = k' \/ In k (Py.keys d).
Proof.
  induction d as [|[k0 v0] d IH]; simpl.
  - split; [intros [H|[]]; now left | intros [H|[]]; now left].
  - destruct (String.eqb_spec k0 k') as [->|Hne]; simpl.
    + split; [intros [H|H]; auto | intros [H|[H|H]]; auto].
    + rewrite IH. split; [intros [H|[H|H]]; auto | intros [H|[H|H]]; auto].
Qed.

Lemma set_all_keys {V} (entries : list (string * V)) :
  forall (d : Py.dict V) k,
  In k (Py.keys (set_all entries d)) <->
  In k (Py.keys d) \/ In k (Py.keys entries).
Proof.
  induction entries as [|[k' v'] entries IH]; intros d k.
  - simpl. tauto.
  - unfold set_all in *. cbn [fold_left fst snd].
    rewrite IH, dict_set_keys. simpl. split.
    + intros [[H|H]|H]; auto.
    + intros [H|[H|H]]; auto.
Qed.

(** X27. The keys of the corpus are the keys [<file name>__<section>] of
    the documents that opened, with the section one of agenda, the five
    topics and the three parts; and every document that opens has its agenda
    key in the corpus, whatever else the run reads. *)
Theorem corpus_keys (open_pdf : string -> OpenResult)
  (pdf_paths : list string) :
  (forall k, In k (Py.keys (extract_targeted_text open_pdf pdf_paths)) ->
     exists pdf_path pdf n,
       In pdf_path pdf_paths /\ open_pdf pdf_path = Opened pdf
       /\ In n section_names
       /\ k = section_key (Py.basename pdf_path) n)
  /\ (forall pdf_path pdf,
        In pdf_path pdf_paths -> open_pdf pdf_path = Opened pdf ->
        In (section_key (Py.basename pdf_path) "agenda")
           (Py.keys (extract_targeted_text open_pdf pdf_paths))).
Proof.
  unfold extract_targeted_text, run_extraction.
  rewrite run_loop_stores. cbn [all_sections]. split.
  - intros k Hk. apply set_all_keys in Hk as [[]|Hk].
    unfold Py.keys in Hk. apply in_map_iff in Hk.
    destruct Hk as [[k' v] [Hfst Hin]]. simpl in Hfst. subst k'.
    destruct (in_run_stores _ _ _ _ Hin)
      as [path [pdf [n [Hpath [Hopen [_ [Hn Hkey]]]]]]].
    exists path, pdf, n. auto.
  - intros path pdf Hpath Hopen. apply set_all_keys. right.
    unfold run_stores, Py.keys. apply in_map_iff.
    exists (section_key (Py.basename path) "agenda", agenda_of pdf).
    split; [reflexivity|]. apply in_flat_map. exists path.
    split; [exact Hpath|]. unfold path_stores. rewrite Hopen.
    unfold document_stores. now left.
Qed.

Lemma corpus_keys_witness :
  In (section_key (Py.basename "feb/minutes.pdf") "agenda")
     (Py.keys (extract_targeted_text two_directories
                 ["mar/board.pdf"; "feb/minutes.pdf"])).
Proof.
  apply (proj2 (corpus_keys two_directories
                  ["mar/board.pdf"; "feb/minutes.pdf"])
           "feb/minutes.pdf"
           [TextPage "Agenda: Finance Report ... 3"; TextPage "Minutes";
            TextPage "Finance figures"]).
  - simpl. auto.
  - reflexivity.
Defined.

(** ** A document that cannot be opened *)

Lemma nodup_consistent {V} (entries : list (string * V)) :
  NoDup (Py.keys entries) -> consistent entries.
Proof.
  intros Hnd k v1 v2 H1 H2.
  apply (in_dict_get _ _ _ Hnd) in H1. apply (in_dict_get _ _ _ Hnd) in H2.
  congruence.
Qed.

Lemma run_stores_split (open_pdf : string -> OpenResult)
  (before after : list string) (other : string) (pdf : PdfDocument) :
  open_pdf other = Opened pdf ->
  run_stores open_pdf (before ++ other :: after)
  = (run_stores open_pdf before
     ++ document_stores (Py.basename other) pdf
     ++ run_stores open_pdf after)%list.
Proof.
  intros Hopen. unfold run_stores. rewrite flat_map_app. cbn [flat_map].
  unfold path_stores at 2. now rewrite Hopen.
Qed.

(** The texts of a document stay in the corpus when no later document that
    opens has its file name. *)
Lemma document_texts_kept (open_pdf : string -> OpenResult)
  (before after : list string) (other : string) (pdf : PdfDocument)
  (k v : string) :
  open_pdf other = Opened pdf ->
  (forall later pdf', In later after -> open_pdf later = Opened pdf' ->
                      Py.basename later <> Py.basename other) ->
  In (k, v) (document_stores (Py.basename other) pdf) ->
  Py.dict_get k (extract_targeted_text open_pdf (before ++ other :: after))
  = Some v.
Proof.
  intros Hopen Hlater Hin.
  unfold extract_targeted_text, run_extraction.
  rewrite run_loop_stores. cbn [all_sections].
  rewrite (run_stores_split _ _ _ _ _ Hopen), !set_all_app.
  rewrite dict_get_set_all_other.
  - apply dict_get_set_all_consistent; [|exact Hin].
    apply nodup_consistent, document_stores_nodup.
  - intros Hk. unfold Py.keys in Hk. apply in_map_iff in Hk.
    destruct Hk as [[k' v'] [Hfst Hkv]]. simpl in Hfst. subst k'.
    destruct (in_run_stores _ _ _ _ Hkv)
      as [later [pdf' [n' [Hl [Hopen' [_ [Hn' Hkey']]]]]]].
    destruct (document_stores_label (Py.basename other) pdf k)
      as [n [Hn Hkey]].
    { apply (in_map fst) in Hin. exact Hin. }
    rewrite Hkey in Hkey'. apply section_key_inj in Hkey' as [Hsame _]; auto.
    apply (Hlater later pdf' Hl Hopen'). now symmetry.
Qed.

(** C9, as stated, fails: between two documents of the same file name the
    one in the middle cannot be opened; the run goes on, and the texts of the
    first document are not in the corpus at the end. *)
Lemma failed_run_loses_texts :
  two_directories "jan/board.pdf" = Opened [TextPage "January"]
  /\ two_directories "mar/board.pdf" = OpenFailed "no such file"
  /\ Py.dict_get "board.pdf__agenda"
       (extract_targeted_text two_directories ["jan/board.pdf"])
     = Some ("-- Page 1 --" ++ nl ++ "January")
  /\ ~ In ("-- Page 1 --" ++ nl ++ "January")
          (map snd (extract_targeted_text two_directories
                      ["jan/board.pdf"; "mar/board.pdf"; "feb/board.pdf"])).
Proof.
  split; [reflexivity|]. split; [reflexivity|].
  split; [vm_compute; reflexivity|].
  vm_compute. intros H. repeat (destruct H as [H|H]; [discriminate|]).
  exact H.
Qed.

(** C9, as the code has it.  A document that cannot be opened leaves the
    corpus as it was and only prints the failure; the run goes on, and its
    result is that of the run without the document.  The corpus holds the
    keys of every other document that opens, the agenda key among them, and
    it holds the texts of such a document, the agenda pages first, when no
    later document that opens has the same file name. *)
Theorem unopenable_document_skipped (open_pdf : string -> OpenResult)
  (paths1 paths2 : list string) (pdf_path error : string) :
  open_pdf pdf_path = OpenFailed error ->
  (forall st,
     all_sections (process_pdf open_pdf st pdf_path) = all_sections st
     /\ output (process_pdf open_pdf st pdf_path)
        = (output st ++ [Reading (Py.basename pdf_path);
                         CouldNotOpen error])%list)
  /\ extract_targeted_text open_pdf (paths1 ++ pdf_path :: paths2)
     = extract_targeted_text open_pdf (paths1 ++ paths2)
  /\ In (CouldNotOpen error)
        (output (run_extraction open_pdf (paths1 ++ pdf_path :: paths2)))
  /\ (forall other pdf,
        In other (paths1 ++ paths2) -> open_pdf other = Opened pdf ->
        In (section_key (Py.basename other) "agenda")
           (Py.keys (extract_targeted_text open_pdf
                       (paths1 ++ pdf_path :: paths2)))
        /\ forall k v,
             In (k, v) (document_stores (Py.basename other) pdf) ->
             In k (Py.keys (extract_targeted_text open_pdf
                              (paths1 ++ pdf_path :: paths2))))
  /\ (forall before other after pdf,
        (paths1 ++ pdf_path :: paths2)%list = (before ++ other :: after)%list ->
        open_pdf other = Opened pdf ->
        (forall later pdf', In later after -> open_pdf later = Opened pdf' ->
                            Py.basename later <> Py.basename other) ->
        Py.dict_get (section_key (Py.basename other) "agenda")
          (extract_targeted_text open_pdf (paths1 ++ pdf_path :: paths2))
        = Some (extract_pages pdf 0 (Nat.min 6 (List.length pdf)))
        /\ forall k v,
             In (k, v) (document_stores (Py.basename other) pdf) ->
             Py.dict_get k
               (extract_targeted_text open_pdf (paths1 ++ pdf_path :: paths2))
             = Some v).
Proof.
  intros Hopen. split; [|split; [|split; [|split]]].
  - intros st. rewrite (process_pdf_failed _ _ _ _ Hopen). split; reflexivity.
  - unfold extract_targeted_text, run_extraction.
    rewrite !run_loop_stores. f_equal.
    unfold run_stores. rewrite !flat_map_app. cbn [flat_map].
    unfold path_stores at 2. now rewrite Hopen.
  - unfold run_extraction. rewrite fold_left_app. cbn [fold_left].
    destruct (run_loop_output open_pdf paths2
                (process_pdf open_pdf
                   (fold_left (process_pdf open_pdf) paths1 (mkState [] []))
                   pdf_path)) as [events Hevents].
    rewrite Hevents, (process_pdf_failed _ _ _ _ Hopen). cbn [output].
    rewrite !in_app_iff. left. right. simpl. auto.
  - intros other pdf Hother Hopened.
    assert (Hkeys : forall k v,
              In (k, v) (document_stores (Py.basename other) pdf) ->
              In k (Py.keys (extract_targeted_text open_pdf
                               (paths1 ++ pdf_path :: paths2)))).
    { intros k v Hin. unfold extract_targeted_text, run_extraction.
      rewrite run_loop_stores. cbn [all_sections].
      apply set_all_keys. right. unfold run_stores, Py.keys.
      apply in_map_iff. exists (k, v). split; [reflexivity|].
      apply in_flat_map. exists other. split.
      - apply in_app_or in Hother as [H|H]; apply in_or_app;
          [now left | right; now right].
      - unfold path_stores. now rewrite Hopened. }
    split; [|exact Hkeys].
    apply (Hkeys _ (agenda_of pdf)). unfold document_stores. now left.
  - intros before other after pdf Hsplit Hopened Hlater. rewrite Hsplit.
    split.
    + apply (document_texts_kept _ _ _ _ _ _ _ Hopened Hlater).
      unfold document_stores. now left.
    + intros k v Hin.
      now apply (document_texts_kept _ _ _ _ _ _ _ Hopened Hlater).
Qed.

Lemma unopenable_document_skipped_witness :
  two_directories "mar/board.pdf" = OpenFailed "no such file"
  /\ Py.dict_get (section_key (Py.basename "jan/board.pdf") "agenda")
       (extract_targeted_text two_directories
          (["jan/board.pdf"] ++ "mar/board.pdf" :: ["feb/minutes.pdf"])%list)
     = Some (extract_pages [TextPage "January"] 0
               (Nat.min 6 (List.length [TextPage "January"]))).
Proof.
  assert (Hopen : two_directories "mar/board.pdf" = OpenFailed "no such file")
    by reflexivity.
  split; [exact Hopen|].
  destruct (unopenable_document_skipped two_directories
              ["jan/board.pdf"] ["feb/minutes.pdf"]
              "mar/board.pdf" "no such file" Hopen)
    as [_ [_ [_ [_ Htexts]]]].
  destruct (Htexts [] "jan/board.pdf" ["mar/board.pdf"; "feb/minutes.pdf"]
              [TextPage "January"]) as [Hagenda _].
  - reflexivity.
  - reflexivity.
  - intros later pdf' [<-|[<-|[]]] Hopened.
    + discriminate Hopened.
    + vm_compute. discriminate.
  - exact Hagenda.
Defined.
